(** * ServicePro backend: quotes, jobs, invoices and the dashboard

    A shallow embedding of the Flask routes of [src/routes/*.py] over the
    tables declared in [src/models/user.py], and the properties of the
    document lifecycle, of the totals arithmetic and of the dashboard
    aggregations that the routes do (or do not) guarantee.

    Conventions of the embedding.
    - A table is a finite map from primary key to row ([gmap Z row]); the
      [QuoteItem] table, whose surrogate key no route ever reads, is the list
      of its rows in insertion order.
    - A route is a function from the acting account ([current_user.id], as
      resolved by [token_required]), its URL and body arguments and the
      database to a response and the database it leaves behind.  A route
      that returns before [db.session.commit()], or that rolls back, leaves
      the database as it found it.
    - A request body is taken after JSON decoding, each recognised key
      carrying a value of the JSON type the route expects (text for text
      fields, a number for amounts); a body that is missing or is the empty
      object is [None].
    - Numbers are Python's: [int], [float] (IEEE binary64, the kernel's
      primitive floats) and [decimal.Decimal] (what a [Numeric] column
      yields when a row is loaded).  A row holds, in its [Numeric] columns,
      the Python value last assigned to the attribute; the rounding the
      storage engine applies when it writes the column is the engine's and
      is not part of the routes.
    - The clock ([datetime.now()], [datetime.utcnow()]) and the random
      suffix of document numbers are arguments of the routes that use them. *)

From Stdlib Require Import ZArith QArith Lia List Ascii String.
From Stdlib Require Import Floats.
From Stdlib Require DecimalString.
From stdpp Require Import gmap strings sorting.

Set Warnings "-inexact-float".
Local Open Scope Z_scope.

(** ** Python values *)

Module Py.

(** The exceptions the routes can meet; every route catches [Exception]
    and answers 500. *)
Inductive exn : Set :=
| TypeError | ValueError | OverflowError | ZeroDivisionError | AttributeError.

Inductive result (A : Type) : Type :=
| Ok (a : A)
| Raise (e : exn).
Arguments Ok {A} a.
Arguments Raise {A} e.

Definition bind {A B : Type} (r : result A) (k : A -> result B) : result B :=
  match r with
  | Ok a => k a
  | Raise e => Raise e
  end.

(** [[f(x) for x in l]]: the first exception ends the loop. *)
Fixpoint for_each {A B : Type} (f : A -> result B) (l : list A) : result (list B) :=
  match l with
  | [] => Ok []
  | x :: l' => bind (f x) (fun y => bind (for_each f l') (fun ys => Ok (y :: ys)))
  end.

(** [int], [float] and [Decimal].  A [Decimal] is given by its exact value;
    its arithmetic below is exact, as Python's is while the result fits
    the context precision of 28 significant digits (a product of a
    [Numeric(10, 2)] and a [Numeric(5, 4)] value has at most 15). *)
Inductive num : Set :=
| PyInt (z : Z)
| PyFloat (f : float)
| PyDec (q : Q).

(** The binary64 value nearest to a rational, ties to even: the quotient is
    computed to at least 56 bits with a sticky bit, then rounded once. *)
Definition float_of_Q (q : Q) : float :=
  match Qnum q with
  | Z0 => zero
  | n =>
      let a := Z.abs n in
      let d := Zpos (Qden q) in
      let k := Z.max 0 (56 + Z.log2 d - Z.log2 a) in
      let m := (a * 2 ^ k) / d in
      let r := (a * 2 ^ k) mod d in
      let m' := 2 * m + (if r =? 0 then 0 else 1) in
      let f := SF2Prim (binary_normalize prec emax m' (- k - 1) false) in
      if n <? 0 then (- f)%float else f
  end.


(** [float(z)] for an [int]: correctly rounded, [OverflowError] beyond the
    range of a double. *)
Definition float_of_int (z : Z) : result float :=
  let f := float_of_Q (inject_Z z) in
  if is_infinity f then Raise OverflowError else Ok f.

(** [float(x)] *)
Definition to_float (x : num) : result float :=
  match x with
  | PyInt z => float_of_int z
  | PyFloat f => Ok f
  | PyDec q => Ok (float_of_Q q)
  end.

(** [x + y] *)
Definition add (x y : num) : result num :=
  match x, y with
  | PyInt a, PyInt b => Ok (PyInt (a + b))
  | PyInt a, PyFloat g => bind (float_of_int a) (fun f => Ok (PyFloat (f + g)))
  | PyFloat f, PyInt b => bind (float_of_int b) (fun g => Ok (PyFloat (f + g)))
  | PyFloat f, PyFloat g => Ok (PyFloat (f + g))
  | PyDec p, PyDec q => Ok (PyDec (Qred (Qplus p q)))
  | PyDec p, PyInt b => Ok (PyDec (Qred (Qplus p (inject_Z b))))
  | PyInt a, PyDec q => Ok (PyDec (Qred (Qplus (inject_Z a) q)))
  | PyDec _, PyFloat _ | PyFloat _, PyDec _ => Raise TypeError
  end.

(** [x * y] *)
Definition mul (x y : num) : result num :=
  match x, y with
  | PyInt a, PyInt b => Ok (PyInt (a * b))
  | PyInt a, PyFloat g => bind (float_of_int a) (fun f => Ok (PyFloat (f * g)))
  | PyFloat f, PyInt b => bind (float_of_int b) (fun g => Ok (PyFloat (f * g)))
  | PyFloat f, PyFloat g => Ok (PyFloat (f * g))
  | PyDec p, PyDec q => Ok (PyDec (Qred (Qmult p q)))
  | PyDec p, PyInt b => Ok (PyDec (Qred (Qmult p (inject_Z b))))
  | PyInt a, PyDec q => Ok (PyDec (Qred (Qmult (inject_Z a) q)))
  | PyDec _, PyFloat _ | PyFloat _, PyDec _ => Raise TypeError
  end.

(** [x / n] for an [int] literal [n], the only division in the routes. *)
Definition div_int (x : num) (n : Z) : result num :=
  if n =? 0 then Raise ZeroDivisionError else
  match x with
  | PyInt a =>
      let f := float_of_Q (Qmake a (Z.to_pos (Z.abs n)) * inject_Z (Z.sgn n)) in
      if is_infinity f then Raise OverflowError else Ok (PyFloat f)
  | PyFloat f => bind (float_of_int n) (fun g => Ok (PyFloat (f / g)))
  | PyDec q => Ok (PyDec (Qred (Qmult q (Qmake (Z.sgn n) (Z.to_pos (Z.abs n))))))
  end.



(** [s.strip()]: leading and trailing whitespace removed (the ASCII
    whitespace of [str.isspace]). *)
Definition is_space (c : ascii) : bool :=
  let n := Z.of_nat (nat_of_ascii c) in
  ((9 <=? n) && (n <=? 13)) || ((28 <=? n) && (n <=? 32)).

Fixpoint lstrip (s : string) : string :=
  match s with
  | String c s' => if is_space c then lstrip s' else s
  | EmptyString => EmptyString
  end.

Fixpoint rstrip (s : string) : string :=
  match s with
  | String c s' =>
      match rstrip s' with
      | EmptyString => if is_space c then EmptyString else String c EmptyString
      | t => String c t
      end
  | EmptyString => EmptyString
  end.

Definition strip (s : string) : string := rstrip (lstrip s).

(** [s or None] *)
Definition or_none (s : string) : option string :=
  match s with
  | EmptyString => None
  | _ => Some s
  end.

(** [bool(s)] *)
Definition truthy (s : string) : bool :=
  match s with
  | EmptyString => false
  | _ => true
  end.

(** [bool(x)] for a number *)
Definition num_truthy (x : num) : bool :=
  match x with
  | PyInt z => negb (z =? 0)
  | PyFloat f => negb (is_zero f)
  | PyDec q => negb (Qnum q =? 0)
  end.

(** [s.upper()] on ASCII text *)
Definition upper_char (c : ascii) : ascii :=
  let n := nat_of_ascii c in
  if (97 <=? n)%nat && (n <=? 122)%nat then ascii_of_nat (n - 32) else c.

Fixpoint upper (s : string) : string :=
  match s with
  | String c s' => String (upper_char c) (upper s')
  | EmptyString => EmptyString
  end.

(** [str(z)] for an [int] *)
Definition str_int (z : Z) : string :=
  DecimalString.NilZero.string_of_int (Z.to_int z).

End Py.

#[global] Instance result_ret : MRet Py.result := @Py.Ok.
#[global] Instance result_bind : MBind Py.result := fun A B k r => Py.bind r k.

(** ** [datetime] *)

Module DateTime.

(** A naive [datetime.datetime]. *)
Record datetime : Set := mk_datetime {
  year : Z; month : Z; day : Z;
  hour : Z; minute : Z; second : Z; microsecond : Z
}.

#[global] Instance datetime_eq_dec : EqDecision datetime.
Proof. solve_decision. Defined.

(** The helpers of CPython's [datetime] module. *)
Definition is_leap (y : Z) : bool :=
  (y mod 4 =? 0) && (negb (y mod 100 =? 0) || (y mod 400 =? 0)).

Definition days_before_year (y : Z) : Z :=
  let y := y - 1 in y * 365 + y / 4 - y / 100 + y / 400.

Definition DAYS_IN_MONTH (m : Z) : Z :=
  match m with
  | 1 => 31 | 2 => 28 | 3 => 31 | 4 => 30 | 5 => 31 | 6 => 30
  | 7 => 31 | 8 => 31 | 9 => 30 | 10 => 31 | 11 => 30 | 12 => 31
  | _ => -1
  end.

Definition DAYS_BEFORE_MONTH (m : Z) : Z :=
  match m with
  | 1 => 0 | 2 => 31 | 3 => 59 | 4 => 90 | 5 => 120 | 6 => 151
  | 7 => 181 | 8 => 212 | 9 => 243 | 10 => 273 | 11 => 304 | 12 => 334
  | _ => -1
  end.

Definition days_in_month (y m : Z) : Z :=
  if (m =? 2) && is_leap y then 29 else DAYS_IN_MONTH m.

Definition days_before_month (y m : Z) : Z :=
  DAYS_BEFORE_MONTH m + (if (2 <? m) && is_leap y then 1 else 0).

Definition ymd2ord (y m d : Z) : Z :=
  days_before_year y + days_before_month y m + d.

Definition DI400Y : Z := 146097.
Definition DI100Y : Z := 36524.
Definition DI4Y : Z := 1461.
Definition MAXORDINAL : Z := 3652059.

Definition ord2ymd (n : Z) : Z * Z * Z :=
  let n := n - 1 in
  let n400 := n / DI400Y in
  let n := n mod DI400Y in
  let y := n400 * 400 + 1 in
  let n100 := n / DI100Y in
  let n := n mod DI100Y in
  let n4 := n / DI4Y in
  let n := n mod DI4Y in
  let n1 := n / 365 in
  let n := n mod 365 in
  let y := y + n100 * 100 + n4 * 4 + n1 in
  if (n1 =? 4) || (n100 =? 4) then (y - 1, 12, 31)
  else
    let leapyear := (n1 =? 3) && (negb (n4 =? 24) || (n100 =? 3)) in
    let m := Z.shiftr (n + 50) 5 in
    let preceding := DAYS_BEFORE_MONTH m + (if (2 <? m) && leapyear then 1 else 0) in
    if n <? preceding then
      let m := m - 1 in
      let preceding :=
        preceding - (DAYS_IN_MONTH m + (if (m =? 2) && leapyear then 1 else 0)) in
      (y, m, n - preceding + 1)
    else (y, m, n - preceding + 1).

Definition toordinal (t : datetime) : Z := ymd2ord (year t) (month t) (day t).

(** [t + timedelta(days=n)] ([n] may be negative): the time of day is kept. *)
Definition add_days (t : datetime) (n : Z) : Py.result datetime :=
  let o := toordinal t + n in
  if (0 <? o) && (o <=? MAXORDINAL) then
    let '(y, m, d) := ord2ymd o in
    Py.Ok (mk_datetime y m d (hour t) (minute t) (second t) (microsecond t))
  else Py.Raise Py.OverflowError.

(** [t - timedelta(days=n)] *)
Definition sub_days (t : datetime) (n : Z) : Py.result datetime := add_days t (- n).

(** [t.replace(day=d)] *)
Definition replace_day (t : datetime) (d : Z) : Py.result datetime :=
  if (1 <=? d) && (d <=? days_in_month (year t) (month t)) then
    Py.Ok (mk_datetime (year t) (month t) d (hour t) (minute t) (second t) (microsecond t))
  else Py.Raise Py.ValueError.

(** Comparison of two naive datetimes: field by field, most significant
    first. *)
Definition fields (t : datetime) : list Z :=
  [year t; month t; day t; hour t; minute t; second t; microsecond t].

Fixpoint lex_compare (a b : list Z) : comparison :=
  match a, b with
  | x :: a', y :: b' =>
      match x ?= y with
      | Eq => lex_compare a' b'
      | c => c
      end
  | [], [] => Eq
  | [], _ :: _ => Lt
  | _ :: _, [] => Gt
  end.

Definition compare (s t : datetime) : comparison := lex_compare (fields s) (fields t).

Definition leb (s t : datetime) : bool :=
  match compare s t with Gt => false | _ => true end.

Definition ltb (s t : datetime) : bool :=
  match compare s t with Lt => true | _ => false end.

(** Zero-padded decimal rendering, as [%02d] and [%04d] do. *)
Definition digit (z : Z) : ascii := ascii_of_nat (48 + Z.to_nat (z mod 10)).

Fixpoint pad (width : nat) (z : Z) : string :=
  match width with
  | O => EmptyString
  | S w => (pad w (z / 10) ++ String (digit z) EmptyString)%string
  end.

(** [t.strftime('%Y-%m')] *)
Definition strftime_Y_m (t : datetime) : string :=
  (pad 4 (year t) ++ "-" ++ pad 2 (month t))%string.

Definition month_abbr (m : Z) : string :=
  match m with
  | 1 => "Jan" | 2 => "Feb" | 3 => "Mar" | 4 => "Apr" | 5 => "May" | 6 => "Jun"
  | 7 => "Jul" | 8 => "Aug" | 9 => "Sep" | 10 => "Oct" | 11 => "Nov" | _ => "Dec"
  end%string.

(** [t.strftime('%b %Y')] *)
Definition strftime_b_Y (t : datetime) : string :=
  (month_abbr (month t) ++ " " ++ pad 4 (year t))%string.

(** [t.isoformat()] *)
Definition isoformat (t : datetime) : string :=
  (pad 4 (year t) ++ "-" ++ pad 2 (month t) ++ "-" ++ pad 2 (day t) ++ "T"
   ++ pad 2 (hour t) ++ ":" ++ pad 2 (minute t) ++ ":" ++ pad 2 (second t)
   ++ (if Z.eqb (microsecond t) 0 then "" else "." ++ pad 6 (microsecond t)))%string.

(** [t.strftime('%Y%m%d')] *)
Definition strftime_Ymd (t : datetime) : string :=
  (pad 4 (year t) ++ pad 2 (month t) ++ pad 2 (day t))%string.

(** [datetime(y, m, d)]: midnight of a valid calendar day, or [ValueError]. *)
Definition make (y m d : Z) : Py.result datetime :=
  if (1 <=? y) && (y <=? 9999) && (1 <=? m) && (m <=? 12)
     && (1 <=? d) && (d <=? days_in_month y m)
  then Py.Ok (mk_datetime y m d 0 0 0 0)
  else Py.Raise Py.ValueError.

(** [t.replace(year=y, month=m)] *)
Definition replace_year_month (t : datetime) (y m : Z) : Py.result datetime :=
  if (1 <=? y) && (y <=? 9999) && (1 <=? m) && (m <=? 12)
     && (1 <=? day t) && (day t <=? days_in_month y m)
  then Py.Ok (mk_datetime y m (day t) (hour t) (minute t) (second t) (microsecond t))
  else Py.Raise Py.ValueError.

(** [t.replace(day=1, hour=0, minute=0, second=0, microsecond=0)] *)
Definition start_of_month (t : datetime) : Py.result datetime :=
  Py.bind (replace_day t 1)
    (fun first => Py.Ok (mk_datetime (year first) (month first) (day first) 0 0 0 0)).

End DateTime.

Export DateTime(datetime, mk_datetime).

(** ** The tables of [src/models/user.py]

    Each model is a record of its columns, without the primary key (the key
    of the table) and without [updated_at], which the storage layer alone
    maintains. *)

Module Customer.
Record t : Set := mk {
  user_id : Z;
  name : string;
  email : option string;
  phone : option string;
  address : option string;
  city : option string;
  state : option string;
  zip_code : option string;
  notes : option string;
  created_at : datetime
}.
End Customer.

Module Quote.
Record t : Set := mk {
  user_id : Z;
  customer_id : Z;
  quote_number : string;
  title : string;
  description : option string;
  subtotal : Py.num;
  tax_rate : Py.num;
  tax_amount : Py.num;
  total : Py.num;
  status : string;   (* draft, sent, accepted, rejected, expired *)
  valid_until : option datetime;
  notes : option string;
  created_at : datetime
}.
End Quote.

Module QuoteItem.
Record t : Set := mk {
  quote_id : Z;
  description : string;
  quantity : Py.num;
  unit_price : Py.num;
  total_price : Py.num;
  created_at : datetime
}.
End QuoteItem.

Module Job.
Record t : Set := mk {
  user_id : Z;
  customer_id : Z;
  quote_id : option Z;
  job_number : string;
  title : string;
  description : option string;
  scheduled_date : option datetime;
  scheduled_time : option string;
  duration_hours : option Py.num;
  status : string;   (* scheduled, in_progress, completed, cancelled *)
  total_amount : Py.num;
  notes : option string;
  created_at : datetime
}.
End Job.

Module Invoice.
Record t : Set := mk {
  user_id : Z;
  customer_id : Z;
  job_id : option Z;
  invoice_number : string;
  subtotal : Py.num;
  tax_rate : Py.num;
  tax_amount : Py.num;
  total : Py.num;
  status : string;   (* draft, sent, paid, overdue, cancelled *)
  due_date : option datetime;
  paid_date : option datetime;
  stripe_payment_intent_id : option string;
  notes : option string;
  created_at : datetime
}.
End Invoice.

(** The database: one table per model. *)
Record db : Type := mk_db {
  customers : gmap Z Customer.t;
  quotes : gmap Z Quote.t;
  quote_items : list QuoteItem.t;
  jobs : gmap Z Job.t;
  invoices : gmap Z Invoice.t
}.

Definition set_customers (f : gmap Z Customer.t -> gmap Z Customer.t) (d : db) : db :=
  mk_db (f (customers d)) (quotes d) (quote_items d) (jobs d) (invoices d).
Definition set_quotes (f : gmap Z Quote.t -> gmap Z Quote.t) (d : db) : db :=
  mk_db (customers d) (f (quotes d)) (quote_items d) (jobs d) (invoices d).
Definition set_quote_items (f : list QuoteItem.t -> list QuoteItem.t) (d : db) : db :=
  mk_db (customers d) (quotes d) (f (quote_items d)) (jobs d) (invoices d).
Definition set_jobs (f : gmap Z Job.t -> gmap Z Job.t) (d : db) : db :=
  mk_db (customers d) (quotes d) (quote_items d) (f (jobs d)) (invoices d).
Definition set_invoices (f : gmap Z Invoice.t -> gmap Z Invoice.t) (d : db) : db :=
  mk_db (customers d) (quotes d) (quote_items d) (jobs d) (f (invoices d)).

(** ** Sorting

    A stable sort: [list.sort] of Python, and the order in which the model
    takes the rows of an [ORDER BY] (rows that compare equal keep the order
    of their primary keys; SQL leaves their order open). *)

Module Sort.
Section Insertion.
Context {A : Type} (le : A -> A -> bool).

Fixpoint insert (x : A) (l : list A) : list A :=
  match l with
  | [] => [x]
  | y :: l' => if le x y then x :: l else y :: insert x l'
  end.

Definition sort (l : list A) : list A := fold_right insert [] l.
End Insertion.

(** [l.sort(key=key)] for a key compared with [le]. *)
Definition ascending {A K : Type} (le : K -> K -> bool) (key : A -> K) : list A -> list A :=
  sort (fun x y => le (key x) (key y)).

(** [l.sort(key=key, reverse=True)], which keeps the original order of
    equal keys. *)
Definition descending {A K : Type} (le : K -> K -> bool) (key : A -> K) : list A -> list A :=
  sort (fun x y => le (key y) (key x)).
End Sort.

(** ** Queries *)

Module Query.

(** [Model.query.filter_by(id=id, user_id=uid).first()] *)
Definition first_owned {row : Type} (owner : row -> Z)
    (tbl : gmap Z row) (id uid : Z) : option row :=
  match tbl !! id with
  | Some r => if decide (owner r = uid) then Some r else None
  | None => None
  end.

(** The rows of a table, by increasing primary key. *)
Definition rows {row : Type} (tbl : gmap Z row) : list (Z * row) :=
  Sort.ascending Z.leb fst (map_to_list tbl).

(** Truth value of a relationship collection such as [quote.jobs]: some
    row of the table refers to the parent. *)
Definition any_row {row : Type} (p : row -> bool) (tbl : gmap Z row) : bool :=
  existsb (fun kv => p kv.2) (map_to_list tbl).

(** The primary key given to the next inserted row. *)
Definition next_id {row : Type} (tbl : gmap Z row) : Z :=
  1 + fold_right (fun kv acc => Z.max kv.1 acc) 0 (map_to_list tbl).

End Query.

(** ** Responses

    [jsonify(...)] with its status code.  A document in a response is the
    row as the route leaves it; the rendering of [to_dict] is not
    modelled. *)

(** One bucket of the revenue chart. *)
Record bucket : Set := mk_bucket {
  period : string;
  label : string;
  revenue : float
}.

(** One entry of the recent-activity feed. *)
Record activity : Set := mk_activity {
  type : string;
  id : Z;
  title : string;
  description : string;
  date : string;
  status : string;
  amount : float
}.

Inductive document : Type :=
| CustomerDoc (id : Z) (c : Customer.t)
| QuoteDoc (id : Z) (q : Quote.t)
| QuoteWithItems (id : Z) (q : Quote.t) (items : list QuoteItem.t)
| JobDoc (id : Z) (j : Job.t)
| InvoiceDoc (id : Z) (i : Invoice.t)
| InvoiceList (l : list (Z * Invoice.t))
| Chart (data : list bucket)
| Activities (activities : list activity).

Inductive body : Type :=
| Error (msg : string)                      (* {'error': msg} *)
| Failed (what : string) (e : Py.exn)       (* {'error': f'{what}: {str(e)}'} *)
| Success (message : option string) (doc : option document).

Record response : Type := Response { payload : body; code : Z }.

(** The [try: ... except Exception as e: db.session.rollback(); return
    ..., 500] around the body of a route. *)
Definition try_except (what : string) (d : db)
    (r : Py.result (response * db)) : response * db :=
  match r with
  | Py.Ok out => out
  | Py.Raise e => (Response (Failed what e) 500, d)
  end.

(** Columns written by an update: [if 'k' in data: row.k = data['k'].strip() or None] *)
Definition text_or_none (field old : option string) : option string :=
  match field with
  | Some s => Py.or_none (Py.strip s)
  | None => old
  end.

(** A date-valued key of a body: its text is empty, or [datetime.fromisoformat]
    parses it ([Some]) or raises [ValueError] ([None]). *)
Inductive date_text : Set :=
| EmptyText
| IsoText (parsed : option datetime).

(** ** [src/routes/customers.py] *)

Module Customers.

Record update_data : Set := mk_update {
  name : option string;
  email : option string;
  phone : option string;
  address : option string;
  city : option string;
  state : option string;
  zip_code : option string;
  notes : option string
}.

Definition get_customer (uid customer_id : Z) (d : db) : response * db :=
  try_except "Failed to fetch customer" d
    match Query.first_owned Customer.user_id (customers d) customer_id uid with
    | None => Py.Ok (Response (Error "Customer not found") 404, d)
    | Some customer =>
        Py.Ok (Response (Success None (Some (CustomerDoc customer_id customer))) 200, d)
    end.

Definition update_customer (uid customer_id : Z) (data : option update_data) (d : db)
    : response * db :=
  try_except "Failed to update customer" d
    match Query.first_owned Customer.user_id (customers d) customer_id uid with
    | None => Py.Ok (Response (Error "Customer not found") 404, d)
    | Some customer =>
        match data with
        | None => Py.Ok (Response (Error "No data provided") 400, d)
        | Some data =>
            let commit (name' : string) :=
              let customer' :=
                Customer.mk (Customer.user_id customer) name'
                  (text_or_none (email data) (Customer.email customer))
                  (text_or_none (phone data) (Customer.phone customer))
                  (text_or_none (address data) (Customer.address customer))
                  (text_or_none (city data) (Customer.city customer))
                  (text_or_none (state data) (Customer.state customer))
                  (text_or_none (zip_code data) (Customer.zip_code customer))
                  (text_or_none (notes data) (Customer.notes customer))
                  (Customer.created_at customer) in
              Py.Ok (Response (Success (Some "Customer updated successfully")
                                 (Some (CustomerDoc customer_id customer'))) 200,
                     set_customers (insert customer_id customer') d) in
            match name data with
            | Some n =>
                if Py.truthy (Py.strip n) then commit (Py.strip n)
                else Py.Ok (Response (Error "Customer name is required") 400, d)
            | None => commit (Customer.name customer)
            end
        end
    end.

Definition delete_customer (uid customer_id : Z) (d : db) : response * db :=
  try_except "Failed to delete customer" d
    match Query.first_owned Customer.user_id (customers d) customer_id uid with
    | None => Py.Ok (Response (Error "Customer not found") 404, d)
    | Some customer =>
        (* customer.quotes or customer.jobs or customer.invoices *)
        if Query.any_row (fun q => bool_decide (Quote.customer_id q = customer_id)) (quotes d)
           || Query.any_row (fun j => bool_decide (Job.customer_id j = customer_id)) (jobs d)
           || Query.any_row (fun i => bool_decide (Invoice.customer_id i = customer_id))
                (invoices d)
        then Py.Ok (Response
                      (Error "Cannot delete customer with associated quotes, jobs, or invoices")
                      400, d)
        else Py.Ok (Response (Success (Some "Customer deleted successfully") None) 200,
                    set_customers (delete customer_id) d)
    end.

(** The body of a creation has the keys of an update. *)
Definition create_customer (uid : Z) (data : option update_data) (utcnow : datetime) (d : db)
    : response * db :=
  try_except "Failed to create customer" d
    match data with
    | None => Py.Ok (Response (Error "No data provided") 400, d)
    | Some data =>
        let name := Py.strip (default ""%string (name data)) in
        if negb (Py.truthy name) then
          Py.Ok (Response (Error "Customer name is required") 400, d)
        else
          let blank_to_none (field : option string) : option string :=
            Py.or_none (Py.strip (default ""%string field)) in
          let customer :=
            Customer.mk uid name (blank_to_none (email data)) (blank_to_none (phone data))
              (blank_to_none (address data)) (blank_to_none (city data))
              (blank_to_none (state data)) (blank_to_none (zip_code data))
              (blank_to_none (notes data)) utcnow in
          let customer_id := Query.next_id (customers d) in
          Py.Ok (Response (Success (Some "Customer created successfully")
                             (Some (CustomerDoc customer_id customer))) 201,
                 set_customers (insert customer_id customer) d)
    end.

End Customers.

(** ** [src/routes/quotes.py] *)

Module Quotes.

(** One entry of the ['items'] list of a body. *)
Record item_data : Set := mk_item {
  item_description : option string;
  item_quantity : option Py.num;
  item_unit_price : option Py.num
}.

Record create_data : Set := mk_create {
  new_customer_id : option Z;
  new_title : option string;
  new_description : option string;
  new_tax_rate : option Py.num;
  new_notes : option string;
  new_items : option (list item_data)
}.

Record update_data : Set := mk_update {
  title : option string;
  description : option string;
  tax_rate : option Py.num;
  valid_until : option date_text;
  notes : option string;
  status : option string;
  items : option (list item_data)
}.

(** [f"QT-{datetime.now().strftime('%Y%m%d')}-{str(uuid.uuid4())[:8].upper()}"] *)
Definition generate_quote_number (now : datetime) (uuid4 : string) : string :=
  ("QT-" ++ DateTime.strftime_Ymd now ++ "-" ++ Py.upper (substring 0 8 uuid4))%string.

(** The loop over [items_data], shared by [create_quote] and
    [update_quote]: it returns the rows added to the session, in order, and
    the running [subtotal]. *)
Fixpoint add_items (quote_id : Z) (utcnow : datetime) (items_data : list item_data)
    (added : list QuoteItem.t) (subtotal : Py.num)
    : Py.result (list QuoteItem.t * Py.num) :=
  match items_data with
  | [] => Py.Ok (added, subtotal)
  | item_data :: rest =>
      let description := Py.strip (default ""%string (item_description item_data)) in
      quantity ← Py.to_float (default (Py.PyInt 1) (item_quantity item_data));
      unit_price ← Py.to_float (default (Py.PyInt 0) (item_unit_price item_data));
      let total_price := (quantity * unit_price)%float in
      if Py.truthy description then
        let item := QuoteItem.mk quote_id description (Py.PyFloat quantity)
                      (Py.PyFloat unit_price) (Py.PyFloat total_price) utcnow in
        subtotal' ← Py.add subtotal (Py.PyFloat total_price);
        add_items quote_id utcnow rest (added ++ [item]) subtotal'
      else add_items quote_id utcnow rest added subtotal
  end.

(** The three assignments under [# Calculate totals]. *)
Definition with_totals (quote : Quote.t) (subtotal : Py.num) : Py.result Quote.t :=
  rate ← Py.div_int (Quote.tax_rate quote) 100;
  tax_amount ← Py.mul subtotal rate;
  total ← Py.add subtotal tax_amount;
  mret (Quote.mk (Quote.user_id quote) (Quote.customer_id quote)
          (Quote.quote_number quote) (Quote.title quote) (Quote.description quote)
          subtotal (Quote.tax_rate quote) tax_amount total
          (Quote.status quote) (Quote.valid_until quote) (Quote.notes quote)
          (Quote.created_at quote)).

Definition create_quote (uid : Z) (data : option create_data)
    (now utcnow : datetime) (uuid4 : string) (d : db) : response * db :=
  try_except "Failed to create quote" d
    match data with
    | None => Py.Ok (Response (Error "No data provided") 400, d)
    | Some data =>
        let title := Py.strip (default ""%string (new_title data)) in
        match new_customer_id data with
        | Some customer_id =>
            if bool_decide (customer_id = 0) || negb (Py.truthy title) then
              Py.Ok (Response (Error "Customer ID and title are required") 400, d)
            else
              match Query.first_owned Customer.user_id (customers d) customer_id uid with
              | None => Py.Ok (Response (Error "Customer not found") 404, d)
              | Some _ =>
                  thirty ← DateTime.add_days utcnow 30;
                  let quote :=
                    Quote.mk uid customer_id (generate_quote_number now uuid4) title
                      (Py.or_none (Py.strip (default ""%string (new_description data))))
                      (Py.PyInt 0) (default (Py.PyInt 0) (new_tax_rate data))
                      (Py.PyInt 0) (Py.PyInt 0) "draft" (Some thirty)
                      (Py.or_none (Py.strip (default ""%string (new_notes data))))
                      utcnow in
                  let quote_id := Query.next_id (quotes d) in
                  '(added, subtotal) ←
                    add_items quote_id utcnow (default [] (new_items data)) [] (Py.PyInt 0);
                  quote ← with_totals quote subtotal;
                  mret (Response (Success (Some "Quote created successfully")
                                    (Some (QuoteDoc quote_id quote))) 201,
                        set_quote_items (fun rows => rows ++ added)
                          (set_quotes (insert quote_id quote) d))
              end
        | None => Py.Ok (Response (Error "Customer ID and title are required") 400, d)
        end
    end.

Definition items_of (quote_id : Z) (d : db) : list QuoteItem.t :=
  filter (fun i => QuoteItem.quote_id i = quote_id) (quote_items d).

Definition get_quote (uid quote_id : Z) (d : db) : response * db :=
  try_except "Failed to fetch quote" d
    match Query.first_owned Quote.user_id (quotes d) quote_id uid with
    | None => Py.Ok (Response (Error "Quote not found") 404, d)
    | Some quote =>
        Py.Ok (Response (Success None
                           (Some (QuoteWithItems quote_id quote (items_of quote_id d)))) 200, d)
    end.

Definition update_quote (uid quote_id : Z) (data : option update_data)
    (utcnow : datetime) (d : db) : response * db :=
  try_except "Failed to update quote" d
    match Query.first_owned Quote.user_id (quotes d) quote_id uid with
    | None => Py.Ok (Response (Error "Quote not found") 404, d)
    | Some quote =>
        match data with
        | None => Py.Ok (Response (Error "No data provided") 400, d)
        | Some data =>
            let continue (title' : string) : Py.result (response * db) :=
              let description' := text_or_none (description data) (Quote.description quote) in
              tax_rate' ← match tax_rate data with
                          | Some r => f ← Py.to_float r; mret (Py.PyFloat f)
                          | None => mret (Quote.tax_rate quote)
                          end;
              valid_until' ← match valid_until data with
                             | Some (IsoText (Some t)) => mret (Some t)
                             | Some (IsoText None) => Py.Raise Py.ValueError
                             | Some EmptyText | None => mret (Quote.valid_until quote)
                             end;
              let notes' := text_or_none (notes data) (Quote.notes quote) in
              let status' := default (Quote.status quote) (status data) in
              let quote :=
                Quote.mk (Quote.user_id quote) (Quote.customer_id quote)
                  (Quote.quote_number quote) title' description'
                  (Quote.subtotal quote) tax_rate' (Quote.tax_amount quote)
                  (Quote.total quote) status' valid_until' notes'
                  (Quote.created_at quote) in
              match items data with
              | Some items_data =>
                  (* QuoteItem.query.filter_by(quote_id=quote.id).delete() *)
                  let kept := filter (fun i => QuoteItem.quote_id i ≠ quote_id)
                                (quote_items d) in
                  '(added, subtotal) ←
                    add_items quote_id utcnow items_data [] (Py.PyInt 0);
                  quote ← with_totals quote subtotal;
                  mret (Response (Success (Some "Quote updated successfully")
                                    (Some (QuoteDoc quote_id quote))) 200,
                        set_quote_items (fun _ => kept ++ added)
                          (set_quotes (insert quote_id quote) d))
              | None =>
                  mret (Response (Success (Some "Quote updated successfully")
                                    (Some (QuoteDoc quote_id quote))) 200,
                        set_quotes (insert quote_id quote) d)
              end in
            match title data with
            | Some t =>
                if Py.truthy (Py.strip t) then continue (Py.strip t)
                else Py.Ok (Response (Error "Title is required") 400, d)
            | None => continue (Quote.title quote)
            end
        end
    end.

Definition delete_quote (uid quote_id : Z) (d : db) : response * db :=
  try_except "Failed to delete quote" d
    match Query.first_owned Quote.user_id (quotes d) quote_id uid with
    | None => Py.Ok (Response (Error "Quote not found") 404, d)
    | Some quote =>
        if Query.any_row (fun j => bool_decide (Job.quote_id j = Some quote_id)) (jobs d)
        then Py.Ok (Response (Error "Cannot delete quote with associated jobs") 400, d)
        else
          Py.Ok (Response (Success (Some "Quote deleted successfully") None) 200,
                 set_quotes (delete quote_id)
                   (set_quote_items
                      (filter (fun i => QuoteItem.quote_id i ≠ quote_id)) d))
    end.

Definition set_status (s : string) (quote : Quote.t) : Quote.t :=
  Quote.mk (Quote.user_id quote) (Quote.customer_id quote)
    (Quote.quote_number quote) (Quote.title quote) (Quote.description quote)
    (Quote.subtotal quote) (Quote.tax_rate quote) (Quote.tax_amount quote)
    (Quote.total quote) s (Quote.valid_until quote) (Quote.notes quote)
    (Quote.created_at quote).

Definition send_quote (uid quote_id : Z) (d : db) : response * db :=
  try_except "Failed to send quote" d
    match Query.first_owned Quote.user_id (quotes d) quote_id uid with
    | None => Py.Ok (Response (Error "Quote not found") 404, d)
    | Some quote =>
        if decide (Quote.status quote = "draft"%string) then
          let quote := set_status "sent" quote in
          Py.Ok (Response (Success (Some "Quote sent successfully")
                             (Some (QuoteDoc quote_id quote))) 200,
                 set_quotes (insert quote_id quote) d)
        else
          Py.Ok (Response (Success (Some "Quote sent successfully")
                             (Some (QuoteDoc quote_id quote))) 200, d)
    end.

Definition accept_quote (uid quote_id : Z) (d : db) : response * db :=
  try_except "Failed to accept quote" d
    match Query.first_owned Quote.user_id (quotes d) quote_id uid with
    | None => Py.Ok (Response (Error "Quote not found") 404, d)
    | Some quote =>
        let quote := set_status "accepted" quote in
        Py.Ok (Response (Success (Some "Quote accepted successfully")
                           (Some (QuoteDoc quote_id quote))) 200,
               set_quotes (insert quote_id quote) d)
    end.

Definition reject_quote (uid quote_id : Z) (d : db) : response * db :=
  try_except "Failed to reject quote" d
    match Query.first_owned Quote.user_id (quotes d) quote_id uid with
    | None => Py.Ok (Response (Error "Quote not found") 404, d)
    | Some quote =>
        let quote := set_status "rejected" quote in
        Py.Ok (Response (Success (Some "Quote rejected")
                           (Some (QuoteDoc quote_id quote))) 200,
               set_quotes (insert quote_id quote) d)
    end.

End Quotes.

(** ** [src/routes/jobs.py] *)

Module Jobs.

Record update_data : Set := mk_update {
  title : option string;
  description : option string;
  total_amount : option Py.num;
  notes : option string;
  status : option string;
  scheduled_date : option date_text;
  scheduled_time : option string;
  duration_hours : option (option Py.num)   (* [Some None]: JSON null *)
}.

Definition get_job (uid job_id : Z) (d : db) : response * db :=
  try_except "Failed to fetch job" d
    match Query.first_owned Job.user_id (jobs d) job_id uid with
    | None => Py.Ok (Response (Error "Job not found") 404, d)
    | Some job => Py.Ok (Response (Success None (Some (JobDoc job_id job))) 200, d)
    end.

Definition update_job (uid job_id : Z) (data : option update_data) (d : db)
    : response * db :=
  try_except "Failed to update job" d
    match Query.first_owned Job.user_id (jobs d) job_id uid with
    | None => Py.Ok (Response (Error "Job not found") 404, d)
    | Some job =>
        match data with
        | None => Py.Ok (Response (Error "No data provided") 400, d)
        | Some data =>
            let continue (title' : string) : Py.result (response * db) :=
              let description' := text_or_none (description data) (Job.description job) in
              total_amount' ← match total_amount data with
                              | Some a => f ← Py.to_float a; mret (Py.PyFloat f)
                              | None => mret (Job.total_amount job)
                              end;
              let notes' := text_or_none (notes data) (Job.notes job) in
              let status' := default (Job.status job) (status data) in
              let finish (scheduled_date' : option datetime) : Py.result (response * db) :=
                let scheduled_time' :=
                  match scheduled_time data with
                  | Some s => Py.or_none s
                  | None => Job.scheduled_time job
                  end in
                duration_hours' ←
                  match duration_hours data with
                  | Some (Some h) =>
                      if Py.num_truthy h
                      then f ← Py.to_float h; mret (Some (Py.PyFloat f))
                      else mret None
                  | Some None => mret None
                  | None => mret (Job.duration_hours job)
                  end;
                let job :=
                  Job.mk (Job.user_id job) (Job.customer_id job) (Job.quote_id job)
                    (Job.job_number job) title' description' scheduled_date'
                    scheduled_time' duration_hours' status' total_amount' notes'
                    (Job.created_at job) in
                mret (Response (Success (Some "Job updated successfully")
                                  (Some (JobDoc job_id job))) 200,
                      set_jobs (insert job_id job) d) in
              match scheduled_date data with
              | Some (IsoText (Some t)) => finish (Some t)
              | Some (IsoText None) =>
                  Py.Ok (Response (Error "Invalid scheduled date format") 400, d)
              | Some EmptyText => finish None
              | None => finish (Job.scheduled_date job)
              end in
            match title data with
            | Some t =>
                if Py.truthy (Py.strip t) then continue (Py.strip t)
                else Py.Ok (Response (Error "Title is required") 400, d)
            | None => continue (Job.title job)
            end
        end
    end.

Definition delete_job (uid job_id : Z) (d : db) : response * db :=
  try_except "Failed to delete job" d
    match Query.first_owned Job.user_id (jobs d) job_id uid with
    | None => Py.Ok (Response (Error "Job not found") 404, d)
    | Some job =>
        if Query.any_row (fun i => bool_decide (Invoice.job_id i = Some job_id)) (invoices d)
        then Py.Ok (Response (Error "Cannot delete job with associated invoices") 400, d)
        else Py.Ok (Response (Success (Some "Job deleted successfully") None) 200,
                    set_jobs (delete job_id) d)
    end.

Definition set_status (s : string) (job : Job.t) : Job.t :=
  Job.mk (Job.user_id job) (Job.customer_id job) (Job.quote_id job)
    (Job.job_number job) (Job.title job) (Job.description job)
    (Job.scheduled_date job) (Job.scheduled_time job) (Job.duration_hours job)
    s (Job.total_amount job) (Job.notes job) (Job.created_at job).

Definition start_job (uid job_id : Z) (d : db) : response * db :=
  try_except "Failed to start job" d
    match Query.first_owned Job.user_id (jobs d) job_id uid with
    | None => Py.Ok (Response (Error "Job not found") 404, d)
    | Some job =>
        if decide (Job.status job ≠ "scheduled"%string) then
          Py.Ok (Response (Error "Job must be scheduled to start") 400, d)
        else
          let job := set_status "in_progress" job in
          Py.Ok (Response (Success (Some "Job started successfully")
                             (Some (JobDoc job_id job))) 200,
                 set_jobs (insert job_id job) d)
    end.

Definition complete_job (uid job_id : Z) (d : db) : response * db :=
  try_except "Failed to complete job" d
    match Query.first_owned Job.user_id (jobs d) job_id uid with
    | None => Py.Ok (Response (Error "Job not found") 404, d)
    | Some job =>
        if negb (bool_decide (Job.status job ∈ ["scheduled"; "in_progress"]%string)) then
          Py.Ok (Response (Error "Job must be scheduled or in progress to complete") 400, d)
        else
          let job := set_status "completed" job in
          Py.Ok (Response (Success (Some "Job completed successfully")
                             (Some (JobDoc job_id job))) 200,
                 set_jobs (insert job_id job) d)
    end.

Definition cancel_job (uid job_id : Z) (d : db) : response * db :=
  try_except "Failed to cancel job" d
    match Query.first_owned Job.user_id (jobs d) job_id uid with
    | None => Py.Ok (Response (Error "Job not found") 404, d)
    | Some job =>
        if decide (Job.status job = "completed"%string) then
          Py.Ok (Response (Error "Cannot cancel completed job") 400, d)
        else
          let job := set_status "cancelled" job in
          Py.Ok (Response (Success (Some "Job cancelled successfully")
                             (Some (JobDoc job_id job))) 200,
                 set_jobs (insert job_id job) d)
    end.

Record create_data : Set := mk_create {
  new_customer_id : option Z;
  new_title : option string;
  new_description : option string;
  new_quote_id : option Z;
  new_total_amount : option Py.num;
  new_notes : option string;
  new_scheduled_date : option date_text;
  new_scheduled_time : option string;
  new_duration_hours : option (option Py.num)   (* [Some None]: JSON null *)
}.

(** [f"JB-{datetime.now().strftime('%Y%m%d')}-{str(uuid.uuid4())[:8].upper()}"] *)
Definition generate_job_number (now : datetime) (uuid4 : string) : string :=
  ("JB-" ++ DateTime.strftime_Ymd now ++ "-" ++ Py.upper (substring 0 8 uuid4))%string.

Definition create_job (uid : Z) (data : option create_data)
    (now utcnow : datetime) (uuid4 : string) (d : db) : response * db :=
  try_except "Failed to create job" d
    match data with
    | None => Py.Ok (Response (Error "No data provided") 400, d)
    | Some data =>
        let title := Py.strip (default ""%string (new_title data)) in
        match new_customer_id data with
        | Some customer_id =>
            if bool_decide (customer_id = 0) || negb (Py.truthy title) then
              Py.Ok (Response (Error "Customer ID and title are required") 400, d)
            else
              match Query.first_owned Customer.user_id (customers d) customer_id uid with
              | None => Py.Ok (Response (Error "Customer not found") 404, d)
              | Some _ =>
                  (* Quote.query.filter_by(id=quote_id, user_id=..., customer_id=...).first() *)
                  let quote_ok :=
                    match new_quote_id data with
                    | Some quote_id =>
                        if bool_decide (quote_id = 0) then true
                        else
                          match Query.first_owned Quote.user_id (quotes d) quote_id uid with
                          | Some quote => bool_decide (Quote.customer_id quote = customer_id)
                          | None => false
                          end
                    | None => true
                    end in
                  if negb quote_ok then Py.Ok (Response (Error "Quote not found") 404, d)
                  else
                    let finish (scheduled_date : option datetime)
                        : Py.result (response * db) :=
                      let scheduled_time :=
                        match new_scheduled_time data with
                        | Some s => Py.or_none s
                        | None => None
                        end in
                      duration_hours ←
                        match new_duration_hours data with
                        | Some (Some h) =>
                            if Py.num_truthy h
                            then f ← Py.to_float h; mret (Some (Py.PyFloat f))
                            else mret None
                        | Some None | None => mret None
                        end;
                      let job :=
                        Job.mk uid customer_id (new_quote_id data)
                          (generate_job_number now uuid4) title
                          (Py.or_none (Py.strip (default ""%string (new_description data))))
                          scheduled_date scheduled_time duration_hours "scheduled"
                          (default (Py.PyInt 0) (new_total_amount data))
                          (Py.or_none (Py.strip (default ""%string (new_notes data))))
                          utcnow in
                      let job_id := Query.next_id (jobs d) in
                      mret (Response (Success (Some "Job created successfully")
                                        (Some (JobDoc job_id job))) 201,
                            set_jobs (insert job_id job) d) in
                    match new_scheduled_date data with
                    | Some (IsoText (Some t)) => finish (Some t)
                    | Some (IsoText None) =>
                        Py.Ok (Response (Error "Invalid scheduled date format") 400, d)
                    | Some EmptyText | None => finish None
                    end
              end
        | None => Py.Ok (Response (Error "Customer ID and title are required") 400, d)
        end
    end.

End Jobs.

(** ** [src/routes/invoices.py] *)

Module Invoices.

Record update_data : Set := mk_update {
  subtotal : option Py.num;
  tax_rate : option Py.num;
  due_date : option date_text;
  notes : option string;
  status : option string
}.

Definition get_invoice (uid invoice_id : Z) (d : db) : response * db :=
  try_except "Failed to fetch invoice" d
    match Query.first_owned Invoice.user_id (invoices d) invoice_id uid with
    | None => Py.Ok (Response (Error "Invoice not found") 404, d)
    | Some invoice =>
        Py.Ok (Response (Success None (Some (InvoiceDoc invoice_id invoice))) 200, d)
    end.

Definition update_invoice (uid invoice_id : Z) (data : option update_data)
    (utcnow : datetime) (d : db) : response * db :=
  try_except "Failed to update invoice" d
    match Query.first_owned Invoice.user_id (invoices d) invoice_id uid with
    | None => Py.Ok (Response (Error "Invoice not found") 404, d)
    | Some invoice =>
        match data with
        | None => Py.Ok (Response (Error "No data provided") 400, d)
        | Some data =>
            subtotal' ← match subtotal data with
                        | Some s => f ← Py.to_float s; mret (Py.PyFloat f)
                        | None => mret (Invoice.subtotal invoice)
                        end;
            tax_rate' ← match tax_rate data with
                        | Some r => f ← Py.to_float r; mret (Py.PyFloat f)
                        | None => mret (Invoice.tax_rate invoice)
                        end;
            let finish (due_date' : option datetime) : Py.result (response * db) :=
              let notes' := text_or_none (notes data) (Invoice.notes invoice) in
              let status' := default (Invoice.status invoice) (status data) in
              let paid_date' :=
                match status data, Invoice.paid_date invoice with
                | Some s, None => if decide (s = "paid"%string) then Some utcnow else None
                | _, paid => paid
                end in
              (* Recalculate totals *)
              rate ← Py.div_int tax_rate' 100;
              tax_amount' ← Py.mul subtotal' rate;
              total' ← Py.add subtotal' tax_amount';
              let invoice :=
                Invoice.mk (Invoice.user_id invoice) (Invoice.customer_id invoice)
                  (Invoice.job_id invoice) (Invoice.invoice_number invoice)
                  subtotal' tax_rate' tax_amount' total' status' due_date' paid_date'
                  (Invoice.stripe_payment_intent_id invoice) notes'
                  (Invoice.created_at invoice) in
              mret (Response (Success (Some "Invoice updated successfully")
                                (Some (InvoiceDoc invoice_id invoice))) 200,
                    set_invoices (insert invoice_id invoice) d) in
            match due_date data with
            | Some (IsoText (Some t)) => finish (Some t)
            | Some (IsoText None) =>
                Py.Ok (Response (Error "Invalid due date format") 400, d)
            | Some EmptyText | None => finish (Invoice.due_date invoice)
            end
        end
    end.

Definition delete_invoice (uid invoice_id : Z) (d : db) : response * db :=
  try_except "Failed to delete invoice" d
    match Query.first_owned Invoice.user_id (invoices d) invoice_id uid with
    | None => Py.Ok (Response (Error "Invoice not found") 404, d)
    | Some invoice =>
        if decide (Invoice.status invoice = "paid"%string) then
          Py.Ok (Response (Error "Cannot delete paid invoice") 400, d)
        else Py.Ok (Response (Success (Some "Invoice deleted successfully") None) 200,
                    set_invoices (delete invoice_id) d)
    end.

Definition set_status (s : string) (paid : option datetime) (invoice : Invoice.t)
    : Invoice.t :=
  Invoice.mk (Invoice.user_id invoice) (Invoice.customer_id invoice)
    (Invoice.job_id invoice) (Invoice.invoice_number invoice)
    (Invoice.subtotal invoice) (Invoice.tax_rate invoice)
    (Invoice.tax_amount invoice) (Invoice.total invoice) s
    (Invoice.due_date invoice) paid
    (Invoice.stripe_payment_intent_id invoice) (Invoice.notes invoice)
    (Invoice.created_at invoice).

Definition send_invoice (uid invoice_id : Z) (d : db) : response * db :=
  try_except "Failed to send invoice" d
    match Query.first_owned Invoice.user_id (invoices d) invoice_id uid with
    | None => Py.Ok (Response (Error "Invoice not found") 404, d)
    | Some invoice =>
        if decide (Invoice.status invoice = "draft"%string) then
          let invoice := set_status "sent" (Invoice.paid_date invoice) invoice in
          Py.Ok (Response (Success (Some "Invoice sent successfully")
                             (Some (InvoiceDoc invoice_id invoice))) 200,
                 set_invoices (insert invoice_id invoice) d)
        else
          Py.Ok (Response (Success (Some "Invoice sent successfully")
                             (Some (InvoiceDoc invoice_id invoice))) 200, d)
    end.

Definition mark_invoice_paid (uid invoice_id : Z) (utcnow : datetime) (d : db)
    : response * db :=
  try_except "Failed to mark invoice as paid" d
    match Query.first_owned Invoice.user_id (invoices d) invoice_id uid with
    | None => Py.Ok (Response (Error "Invoice not found") 404, d)
    | Some invoice =>
        let invoice := set_status "paid" (Some utcnow) invoice in
        Py.Ok (Response (Success (Some "Invoice marked as paid")
                           (Some (InvoiceDoc invoice_id invoice))) 200,
               set_invoices (insert invoice_id invoice) d)
    end.

(** [Invoice.user_id == uid, Invoice.status.in_(['sent']), Invoice.due_date < utcnow] *)
Definition is_overdue (uid : Z) (utcnow : datetime) (invoice : Invoice.t) : bool :=
  bool_decide (Invoice.user_id invoice = uid)
  && bool_decide (Invoice.status invoice = "sent"%string)
  && match Invoice.due_date invoice with
     | Some due => DateTime.ltb due utcnow
     | None => false
     end.

Definition get_overdue_invoices (uid : Z) (utcnow : datetime) (d : db) : response * db :=
  try_except "Failed to fetch overdue invoices" d
    (let mark (invoice : Invoice.t) : Invoice.t :=
       if is_overdue uid utcnow invoice
       then set_status "overdue" (Invoice.paid_date invoice) invoice
       else invoice in
     let overdue :=
       filter (fun kv => is_overdue uid utcnow kv.2 = true) (Query.rows (invoices d)) in
     Py.Ok (Response (Success None
                        (Some (InvoiceList (map (fun kv => (kv.1, mark kv.2)) overdue)))) 200,
            set_invoices (fmap mark) d)).

Record create_data : Set := mk_create {
  new_customer_id : option Z;
  new_job_id : option Z;
  new_subtotal : option Py.num;
  new_tax_rate : option Py.num;
  new_notes : option string
}.

(** [f"INV-{datetime.now().strftime('%Y%m%d')}-{str(uuid.uuid4())[:8].upper()}"] *)
Definition generate_invoice_number (now : datetime) (uuid4 : string) : string :=
  ("INV-" ++ DateTime.strftime_Ymd now ++ "-" ++ Py.upper (substring 0 8 uuid4))%string.

Definition create_invoice (uid : Z) (data : option create_data)
    (now utcnow : datetime) (uuid4 : string) (d : db) : response * db :=
  try_except "Failed to create invoice" d
    match data with
    | None => Py.Ok (Response (Error "No data provided") 400, d)
    | Some data =>
        match new_customer_id data with
        | Some customer_id =>
            if bool_decide (customer_id = 0) then
              Py.Ok (Response (Error "Customer ID is required") 400, d)
            else
              match Query.first_owned Customer.user_id (customers d) customer_id uid with
              | None => Py.Ok (Response (Error "Customer not found") 404, d)
              | Some _ =>
                  (* Job.query.filter_by(id=job_id, user_id=..., customer_id=...).first() *)
                  let job_ok :=
                    match new_job_id data with
                    | Some job_id =>
                        if bool_decide (job_id = 0) then true
                        else
                          match Query.first_owned Job.user_id (jobs d) job_id uid with
                          | Some job => bool_decide (Job.customer_id job = customer_id)
                          | None => false
                          end
                    | None => true
                    end in
                  if negb job_ok then Py.Ok (Response (Error "Job not found") 404, d)
                  else
                    subtotal ← Py.to_float (default (Py.PyInt 0) (new_subtotal data));
                    tax_rate ← Py.to_float (default (Py.PyInt 0) (new_tax_rate data));
                    rate ← Py.div_int (Py.PyFloat tax_rate) 100;
                    tax_amount ← Py.mul (Py.PyFloat subtotal) rate;
                    total ← Py.add (Py.PyFloat subtotal) tax_amount;
                    thirty ← DateTime.add_days utcnow 30;
                    let invoice :=
                      Invoice.mk uid customer_id (new_job_id data)
                        (generate_invoice_number now uuid4)
                        (Py.PyFloat subtotal) (Py.PyFloat tax_rate) tax_amount total
                        "draft" (Some thirty) None None
                        (Py.or_none (Py.strip (default ""%string (new_notes data))))
                        utcnow in
                    let invoice_id := Query.next_id (invoices d) in
                    mret (Response (Success (Some "Invoice created successfully")
                                      (Some (InvoiceDoc invoice_id invoice))) 201,
                          set_invoices (insert invoice_id invoice) d)
              end
        | None => Py.Ok (Response (Error "Customer ID is required") 400, d)
        end
    end.

End Invoices.

(** ** [src/routes/dashboard.py] *)

Module Dashboard.

(** [func.sum(column)] over the selected rows, taken in key order: [None]
    when no row is selected. *)
Fixpoint sum_from (acc : Py.num) (l : list Py.num) : Py.result Py.num :=
  match l with
  | [] => Py.Ok acc
  | x :: l' => acc' ← Py.add acc x; sum_from acc' l'
  end.

Definition sql_sum (l : list Py.num) : Py.result (option Py.num) :=
  match l with
  | [] => Py.Ok None
  | x :: l' => s ← sum_from x l'; mret (Some s)
  end.

(** [Invoice.user_id == uid, Invoice.status == 'paid',
     Invoice.paid_date >= lo, Invoice.paid_date <= hi] *)
Definition paid_between (uid : Z) (lo hi : datetime) (invoice : Invoice.t) : bool :=
  bool_decide (Invoice.user_id invoice = uid)
  && bool_decide (Invoice.status invoice = "paid"%string)
  && match Invoice.paid_date invoice with
     | Some paid => DateTime.leb lo paid && DateTime.leb paid hi
     | None => false
     end.

(** [float(db.session.query(func.sum(Invoice.total)).filter(...).scalar() or 0)] *)
Definition revenue_between (uid : Z) (lo hi : datetime) (d : db) : Py.result float :=
  s ← sql_sum (map (fun kv => Invoice.total kv.2)
                 (filter (fun kv => paid_between uid lo hi kv.2 = true)
                    (Query.rows (invoices d))));
  match s with
  | Some x => if Py.num_truthy x then Py.to_float x else Py.to_float (Py.PyInt 0)
  | None => Py.to_float (Py.PyInt 0)
  end.

(** The bounds of the [i]-th bucket of the ['month'] chart. *)
Definition month_bounds (now : datetime) (i : Z) : Py.result (datetime * datetime) :=
  first ← DateTime.replace_day now 1;
  back ← DateTime.sub_days first (32 * i);
  month_start ← DateTime.replace_day back 1;
  ahead ← DateTime.add_days month_start 32;
  next_first ← DateTime.replace_day ahead 1;
  month_end ← DateTime.sub_days next_first 1;
  mret (month_start, month_end).

(** The body of [for i in range(12)], for the indices given. *)
Fixpoint months_data (uid : Z) (now : datetime) (d : db) (indices : list Z)
    : Py.result (list bucket) :=
  match indices with
  | [] => Py.Ok []
  | i :: rest =>
      '(month_start, month_end) ← month_bounds now i;
      revenue ← revenue_between uid month_start month_end d;
      data ← months_data uid now d rest;
      mret (mk_bucket (DateTime.strftime_Y_m month_start)
              (DateTime.strftime_b_Y month_start) revenue :: data)
  end.

Definition range (n : nat) : list Z := map Z.of_nat (seq 0 n).

(** [get_revenue_chart] with [period == 'month'], the default. *)
Definition get_revenue_chart (uid : Z) (now : datetime) (d : db) : response * db :=
  try_except "Failed to fetch revenue chart" d
    (data ← months_data uid now d (range 12);
     mret (Response (Success None (Some (Chart (rev data)))) 200, d)).

(** [Model.query.filter_by(user_id=uid).order_by(Model.created_at.desc()).limit(n).all()] *)
Definition recent {row : Type} (owner : row -> Z) (created : row -> datetime)
    (uid : Z) (n : nat) (tbl : gmap Z row) : list (Z * row) :=
  take n (Sort.descending DateTime.leb (fun kv => created kv.2)
            (filter (fun kv => owner kv.2 = uid) (Query.rows tbl))).

(** [row.customer.name] *)
Definition customer_name (customer_id : Z) (d : db) : Py.result string :=
  match customers d !! customer_id with
  | Some c => Py.Ok (Customer.name c)
  | None => Py.Raise Py.AttributeError
  end.

Definition quote_activity (d : db) (kv : Z * Quote.t) : Py.result activity :=
  let '(id, quote) := kv in
  name ← customer_name (Quote.customer_id quote) d;
  amount ← Py.to_float (Quote.total quote);
  mret (mk_activity "quote" id
          ("Quote " ++ Quote.quote_number quote ++ " created")
          ("Quote for " ++ name ++ ": " ++ Quote.title quote)
          (DateTime.isoformat (Quote.created_at quote))
          (Quote.status quote) amount)%string.

Definition job_activity (d : db) (kv : Z * Job.t) : Py.result activity :=
  let '(id, job) := kv in
  name ← customer_name (Job.customer_id job) d;
  amount ← Py.to_float (Job.total_amount job);
  mret (mk_activity "job" id
          ("Job " ++ Job.job_number job ++ " created")
          ("Job for " ++ name ++ ": " ++ Job.title job)
          (DateTime.isoformat (Job.created_at job))
          (Job.status job) amount)%string.

Definition invoice_activity (d : db) (kv : Z * Invoice.t) : Py.result activity :=
  let '(id, invoice) := kv in
  name ← customer_name (Invoice.customer_id invoice) d;
  amount ← Py.to_float (Invoice.total invoice);
  mret (mk_activity "invoice" id
          ("Invoice " ++ Invoice.invoice_number invoice ++ " created")
          ("Invoice for " ++ name)
          (DateTime.isoformat (Invoice.created_at invoice))
          (Invoice.status invoice) amount)%string.

(** [limit] is the [int] of the query string; it is a natural number here:
    what a negative [LIMIT] selects is the storage engine's choice. *)
Definition get_recent_activity (uid : Z) (limit : nat) (d : db) : response * db :=
  try_except "Failed to fetch recent activity" d
    (let recent_quotes := recent Quote.user_id Quote.created_at uid (limit / 2)%nat (quotes d) in
     let recent_jobs := recent Job.user_id Job.created_at uid (limit / 2)%nat (jobs d) in
     let recent_invoices :=
       recent Invoice.user_id Invoice.created_at uid (limit / 2)%nat (invoices d) in
     from_quotes ← Py.for_each (quote_activity d) recent_quotes;
     from_jobs ← Py.for_each (job_activity d) recent_jobs;
     from_invoices ← Py.for_each (invoice_activity d) recent_invoices;
     let activities := from_quotes ++ from_jobs ++ from_invoices in
     (* activities.sort(key=lambda x: x['date'], reverse=True) *)
     let activities := Sort.descending String.leb date activities in
     mret (Response (Success None (Some (Activities (take limit activities)))) 200, d)).

(** [float(query.scalar() or 0)] for the sum of a column over the selected
    rows. *)
Definition float_sum (l : list Py.num) : Py.result float :=
  s ← sql_sum l;
  match s with
  | Some x => if Py.num_truthy x then Py.to_float x else Py.to_float (Py.PyInt 0)
  | None => Py.to_float (Py.PyInt 0)
  end.

(** The bounds of the [i]-th bucket of the ['quarter'] chart. *)
Definition quarter_bounds (now : datetime) (i : Z) : Py.result (datetime * datetime) :=
  quarter_start ←
    DateTime.make (DateTime.year now)
      ((DateTime.month now - 1) / 3 * 3 + 1 - i * 3) 1;
  quarter_start ←
    (if DateTime.month quarter_start <=? 0
     then DateTime.replace_year_month quarter_start
            (DateTime.year quarter_start - 1) (DateTime.month quarter_start + 12)
     else mret quarter_start);
  ahead ← DateTime.add_days quarter_start 95;
  next_first ← DateTime.replace_day ahead 1;
  quarter_end ← DateTime.sub_days next_first 1;
  mret (quarter_start, quarter_end).

(** [((quarter_start.month - 1) // 3) + 1] *)
Definition quarter_number (quarter_start : datetime) : Z :=
  (DateTime.month quarter_start - 1) / 3 + 1.

(** The body of [for i in range(4)], for the indices given. *)
Fixpoint quarters_data (uid : Z) (now : datetime) (d : db) (indices : list Z)
    : Py.result (list bucket) :=
  match indices with
  | [] => Py.Ok []
  | i :: rest =>
      '(quarter_start, quarter_end) ← quarter_bounds now i;
      revenue ← revenue_between uid quarter_start quarter_end d;
      data ← quarters_data uid now d rest;
      mret (mk_bucket
              (Py.str_int (DateTime.year quarter_start) ++ "-Q"
               ++ Py.str_int (quarter_number quarter_start))
              ("Q" ++ Py.str_int (quarter_number quarter_start) ++ " "
               ++ Py.str_int (DateTime.year quarter_start))
              revenue :: data)%string
  end.

(** The body of [for i in range(3)] of the yearly chart. *)
Fixpoint years_data (uid : Z) (now : datetime) (d : db) (indices : list Z)
    : Py.result (list bucket) :=
  match indices with
  | [] => Py.Ok []
  | i :: rest =>
      let year := DateTime.year now - i in
      year_start ← DateTime.make year 1 1;
      year_end ← DateTime.make year 12 31;
      revenue ← revenue_between uid year_start year_end d;
      data ← years_data uid now d rest;
      mret (mk_bucket (Py.str_int year) (Py.str_int year) revenue :: data)
  end.

(** [get_revenue_chart] for any [period] of the query string: ['month'],
    ['quarter'], and the yearly chart for every other text. *)
Definition revenue_chart (uid : Z) (period : string) (now : datetime) (d : db)
    : response * db :=
  if decide (period = "month"%string) then get_revenue_chart uid now d
  else if decide (period = "quarter"%string) then
    try_except "Failed to fetch revenue chart" d
      (data ← quarters_data uid now d (range 4);
       mret (Response (Success None (Some (Chart (rev data)))) 200, d))
  else
    try_except "Failed to fetch revenue chart" d
      (data ← years_data uid now d (range 3);
       mret (Response (Success None (Some (Chart (rev data)))) 200, d)).

(** The ['stats'], ['recent_activity'] and ['upcoming_jobs'] of
    [get_dashboard_stats]. *)
Record dashboard_stats : Type := mk_stats {
  total_customers : nat;
  total_quotes : nat;
  total_jobs : nat;
  total_invoices : nat;
  total_revenue : float;
  outstanding_amount : float;
  monthly_revenue : float;
  monthly_jobs : nat;
  monthly_quotes : nat;
  overdue_invoices : nat;
  recent_quotes : list (Z * Quote.t);
  recent_jobs : list (Z * Job.t);
  upcoming_jobs : list (Z * Job.t)
}.

(** [Model.query.filter(...)]: the selected rows, in key order. *)
Definition select {row : Type} (p : row -> bool) (tbl : gmap Z row) : list (Z * row) :=
  filter (fun kv => p kv.2 = true) (Query.rows tbl).

(** A nullable date compared with a bound: NULL compares as unknown, and the
    row is not selected. *)
Definition on_or_after (bound : datetime) (t : option datetime) : bool :=
  match t with
  | Some t => DateTime.leb bound t
  | None => false
  end.

(** [get_dashboard_stats]: the payload of the 200 answer, or the exception
    that makes it a 500. *)
Definition get_dashboard_stats (uid : Z) (now utcnow : datetime) (d : db)
    : Py.result dashboard_stats :=
  let mine_c := select (fun c => bool_decide (Customer.user_id c = uid)) (customers d) in
  let mine_q := select (fun q => bool_decide (Quote.user_id q = uid)) (quotes d) in
  let mine_j := select (fun j => bool_decide (Job.user_id j = uid)) (jobs d) in
  let mine_i := select (fun i => bool_decide (Invoice.user_id i = uid)) (invoices d) in
  total_revenue ←
    float_sum (map (fun kv => Invoice.total kv.2)
                 (select (fun i => bool_decide (Invoice.user_id i = uid)
                                   && bool_decide (Invoice.status i = "paid"%string))
                    (invoices d)));
  outstanding_amount ←
    float_sum (map (fun kv => Invoice.total kv.2)
                 (select (fun i => bool_decide (Invoice.user_id i = uid)
                                   && bool_decide (Invoice.status i ∈ ["sent"; "overdue"]%string))
                    (invoices d)));
  current_month_start ← DateTime.start_of_month now;
  monthly_revenue ←
    float_sum (map (fun kv => Invoice.total kv.2)
                 (select (fun i => bool_decide (Invoice.user_id i = uid)
                                   && bool_decide (Invoice.status i = "paid"%string)
                                   && on_or_after current_month_start (Invoice.paid_date i))
                    (invoices d)));
  let monthly_jobs :=
    select (fun j => bool_decide (Job.user_id j = uid)
                     && DateTime.leb current_month_start (Job.created_at j)) (jobs d) in
  let monthly_quotes :=
    select (fun q => bool_decide (Quote.user_id q = uid)
                     && DateTime.leb current_month_start (Quote.created_at q)) (quotes d) in
  let upcoming :=
    take 5 (Sort.ascending DateTime.leb
              (fun kv => default now (Job.scheduled_date kv.2))
              (select (fun j => bool_decide (Job.user_id j = uid)
                                && on_or_after now (Job.scheduled_date j)
                                && bool_decide (Job.status j ∈ ["scheduled"; "in_progress"]%string))
                 (jobs d))) in
  let overdue := select (Invoices.is_overdue uid utcnow) (invoices d) in
  mret (mk_stats (length mine_c) (length mine_q) (length mine_j) (length mine_i)
          total_revenue outstanding_amount monthly_revenue
          (length monthly_jobs) (length monthly_quotes) (length overdue)
          (recent Quote.user_id Quote.created_at uid 5 (quotes d))
          (recent Job.user_id Job.created_at uid 5 (jobs d))
          upcoming).

End Dashboard.

(** ** The URL map

    The rules registered by the blueprints for a single document: the
    method and path select the route, the [<int:id>] segment names the
    document. *)

Module Api.

Inductive kind : Set := CustomerKind | QuoteKind | JobKind | InvoiceKind.

Inductive operation : Type :=
| GET_customer                                        (* GET /api/customers/<id> *)
| PUT_customer (data : option Customers.update_data)  (* PUT /api/customers/<id> *)
| DELETE_customer                                     (* DELETE /api/customers/<id> *)
| GET_quote
| PUT_quote (data : option Quotes.update_data) (utcnow : datetime)
| DELETE_quote
| POST_quote_send                                     (* POST /api/quotes/<id>/send *)
| POST_quote_accept
| POST_quote_reject
| GET_job
| PUT_job (data : option Jobs.update_data)
| DELETE_job
| POST_job_start
| POST_job_complete
| POST_job_cancel
| GET_invoice
| PUT_invoice (data : option Invoices.update_data) (utcnow : datetime)
| DELETE_invoice
| POST_invoice_send
| POST_invoice_mark_paid (utcnow : datetime).

Definition dispatch (uid : Z) (op : operation) (id : Z) (d : db) : response * db :=
  match op with
  | GET_customer => Customers.get_customer uid id d
  | PUT_customer data => Customers.update_customer uid id data d
  | DELETE_customer => Customers.delete_customer uid id d
  | GET_quote => Quotes.get_quote uid id d
  | PUT_quote data utcnow => Quotes.update_quote uid id data utcnow d
  | DELETE_quote => Quotes.delete_quote uid id d
  | POST_quote_send => Quotes.send_quote uid id d
  | POST_quote_accept => Quotes.accept_quote uid id d
  | POST_quote_reject => Quotes.reject_quote uid id d
  | GET_job => Jobs.get_job uid id d
  | PUT_job data => Jobs.update_job uid id data d
  | DELETE_job => Jobs.delete_job uid id d
  | POST_job_start => Jobs.start_job uid id d
  | POST_job_complete => Jobs.complete_job uid id d
  | POST_job_cancel => Jobs.cancel_job uid id d
  | GET_invoice => Invoices.get_invoice uid id d
  | PUT_invoice data utcnow => Invoices.update_invoice uid id data utcnow d
  | DELETE_invoice => Invoices.delete_invoice uid id d
  | POST_invoice_send => Invoices.send_invoice uid id d
  | POST_invoice_mark_paid utcnow => Invoices.mark_invoice_paid uid id utcnow d
  end.

(** The table whose row the [<int:id>] of an operation names. *)
Definition target (op : operation) : kind :=
  match op with
  | GET_customer | PUT_customer _ | DELETE_customer => CustomerKind
  | GET_quote | PUT_quote _ _ | DELETE_quote
  | POST_quote_send | POST_quote_accept | POST_quote_reject => QuoteKind
  | GET_job | PUT_job _ | DELETE_job
  | POST_job_start | POST_job_complete | POST_job_cancel => JobKind
  | GET_invoice | PUT_invoice _ _ | DELETE_invoice
  | POST_invoice_send | POST_invoice_mark_paid _ => InvoiceKind
  end.

(** The account that owns document [id] of a kind, when it exists. *)
Definition owner (k : kind) (id : Z) (d : db) : option Z :=
  match k with
  | CustomerKind => Customer.user_id <$> customers d !! id
  | QuoteKind => Quote.user_id <$> quotes d !! id
  | JobKind => Job.user_id <$> jobs d !! id
  | InvoiceKind => Invoice.user_id <$> invoices d !! id
  end.

(** The database in which document [id] of a kind does not exist. *)
Definition without (k : kind) (id : Z) (d : db) : db :=
  match k with
  | CustomerKind => set_customers (delete id) d
  | QuoteKind => set_quotes (delete id) d
  | JobKind => set_jobs (delete id) d
  | InvoiceKind => set_invoices (delete id) d
  end.

Definition not_found (k : kind) : response :=
  match k with
  | CustomerKind => Response (Error "Customer not found") 404
  | QuoteKind => Response (Error "Quote not found") 404
  | JobKind => Response (Error "Job not found") 404
  | InvoiceKind => Response (Error "Invoice not found") 404
  end.

End Api.

(** ** The totals of a quote, in the words of the specification

    Section 4.2: the entries whose description is empty after trimming are
    dropped; each surviving entry has line total quantity x unit price; the
    subtotal is their sum in insertion order. *)

Module Totals.

(** An entry of ['items'] once read: [description.strip()],
    [float(quantity)] and [float(unit_price)], with the defaults of
    [item_data.get]. *)
Record line : Set := mk_line {
  description : string;
  quantity : float;
  unit_price : float
}.

Definition read (item_data : Quotes.item_data) : Py.result line :=
  quantity ← Py.to_float (default (Py.PyInt 1) (Quotes.item_quantity item_data));
  unit_price ← Py.to_float (default (Py.PyInt 0) (Quotes.item_unit_price item_data));
  mret (mk_line (Py.strip (default ""%string (Quotes.item_description item_data)))
          quantity unit_price).

Definition surviving (lines : list line) : list line :=
  filter (fun l => Py.truthy (description l) = true) lines.

Definition line_total (l : line) : float := (quantity l * unit_price l)%float.

(** The row persisted for a surviving entry. *)
Definition row (quote_id : Z) (utcnow : datetime) (l : line) : QuoteItem.t :=
  QuoteItem.mk quote_id (description l) (Py.PyFloat (quantity l))
    (Py.PyFloat (unit_price l)) (Py.PyFloat (line_total l)) utcnow.

(** The sum of a list, left to right from the [int] 0. *)
Fixpoint sum_from (acc : Py.num) (l : list float) : Py.result Py.num :=
  match l with
  | [] => Py.Ok acc
  | x :: l' => acc' ← Py.add acc (Py.PyFloat x); sum_from acc' l'
  end.

Definition subtotal (lines : list line) : Py.result Py.num :=
  sum_from (Py.PyInt 0) (map line_total (surviving lines)).


End Totals.

(** ** Reading a dashboard response *)

Definition chart_data (r : response) : list bucket :=
  match payload r with
  | Success _ (Some (Chart data)) => data
  | _ => []
  end.

Definition activities_of (r : response) : list activity :=
  match payload r with
  | Success _ (Some (Activities activities)) => activities
  | _ => []
  end.

(** ** Calendar months, in the words of the specification *)

Module Calendar.

(** The calendar month [k] months before month [m] of year [y]. *)
Definition months_before (y m k : Z) : Z * Z :=
  let n := y * 12 + (m - 1) - k in (n / 12, n mod 12 + 1).

(** ['%Y-%m'] of a calendar month. *)
Definition period_of (ym : Z * Z) : string :=
  (DateTime.pad 4 ym.1 ++ "-" ++ DateTime.pad 2 ym.2)%string.

(** The periods of the chart that [get_revenue_chart] computes at any time
    of month [m] of year [y], oldest first: the months 12 to 2 months back,
    then the current month. *)
Definition periods_computed (y m : Z) : list string :=
  map (fun k => period_of (months_before y m k)) [12; 11; 10; 9; 8; 7; 6; 5; 4; 3; 2; 0].

(** Every month of the years [from], [from + 1], ..., [from + n - 1]. *)
Definition months_of_years (from : Z) (n : nat) : list (Z * Z) :=
  y ← map (fun i => from + Z.of_nat i) (seq 0 n);
  (fun m => (y, m)) <$> [1; 2; 3; 4; 5; 6; 7; 8; 9; 10; 11; 12].

End Calendar.

(** ** The recent-activity feed, in the words of the specification *)

Module Feed.

(** [a] is at least as recent as [b]. *)
Definition newer_row {row : Type} (created : row -> datetime) (a b : Z * row) : Prop :=
  DateTime.leb (created b.2) (created a.2) = true.

(** [l] holds the [n] most recent rows of account [uid] in a table, newest
    first: it has [n] rows, or all the rows of the account when there are
    fewer; its rows are distinct rows of the account; and no row of the
    account left out is more recent than a row taken. *)
Record most_recent {row : Type} (owner : row -> Z) (created : row -> datetime)
    (uid : Z) (n : nat) (tbl : gmap Z row) (l : list (Z * row)) : Prop := {
  taken_length :
    length l = Nat.min n (length (filter (fun kv => owner kv.2 = uid) (map_to_list tbl)));
  taken_rows : forall kv, kv ∈ l -> tbl !! kv.1 = Some kv.2 /\ owner kv.2 = uid;
  taken_distinct : NoDup l;
  taken_sorted : StronglySorted (newer_row created) l;
  taken_newest :
    forall kv kv', kv ∈ l -> tbl !! kv'.1 = Some kv'.2 -> owner kv'.2 = uid -> kv' ∉ l ->
      newer_row created kv kv'
}.

(** [a] is dated at least as late as [b], by the ['date'] text the feed
    sorts on. *)
Definition newer (a b : activity) : Prop := String.leb (date b) (date a) = true.

(** The entry of the feed made from a row. *)
Definition tagged {row : Type} (tag : string) (created : row -> datetime)
    (state : row -> string) (kv : Z * row) (a : activity) : Prop :=
  type a = tag /\ id a = kv.1 /\ date a = DateTime.isoformat (created kv.2)
  /\ status a = state kv.2.

(** [feed] is the recent-activity feed of account [uid] for a limit [n],
    when [k] documents of each type are taken: the [k] most recent quotes,
    jobs and invoices, each turned into a tagged entry, are merged; the
    merged entries are put newest first and the feed is the first [n] of
    them, [rest] being the entries cut off. *)
Definition is_feed (k : nat) (uid : Z) (n : nat) (d : db) (feed : list activity) : Prop :=
  exists (recent_quotes : list (Z * Quote.t)) (recent_jobs : list (Z * Job.t))
         (recent_invoices : list (Z * Invoice.t))
         (from_quotes from_jobs from_invoices rest : list activity),
    most_recent Quote.user_id Quote.created_at uid k (quotes d) recent_quotes
    /\ most_recent Job.user_id Job.created_at uid k (jobs d) recent_jobs
    /\ most_recent Invoice.user_id Invoice.created_at uid k (invoices d) recent_invoices
    /\ Forall2 (tagged "quote" Quote.created_at Quote.status) recent_quotes from_quotes
    /\ Forall2 (tagged "job" Job.created_at Job.status) recent_jobs from_jobs
    /\ Forall2 (tagged "invoice" Invoice.created_at Invoice.status)
         recent_invoices from_invoices
    /\ feed ++ rest ≡ₚ from_quotes ++ from_jobs ++ from_invoices
    /\ (length feed <= n)%nat
    /\ (rest <> [] -> length feed = n)
    /\ StronglySorted newer feed
    /\ (forall a b, a ∈ feed -> b ∈ rest -> newer a b).

End Feed.

(** ** Notions used by the further properties *)

(** The statuses the model documents for a job. *)
Definition job_statuses : list string :=
  ["scheduled"; "in_progress"; "completed"; "cancelled"]%string.

(** The three action routes on a job. *)
Inductive job_action : Set := Start | Complete | Cancel.

Definition run_job_action (a : job_action) (uid job_id : Z) (d : db) : response * db :=
  match a with
  | Start => Jobs.start_job uid job_id d
  | Complete => Jobs.complete_job uid job_id d
  | Cancel => Jobs.cancel_job uid job_id d
  end.

(** Some job refers to quote [quote_id]. *)
Definition quote_has_jobs (quote_id : Z) (d : db) : Prop :=
  exists (k : Z) (job : Job.t), jobs d !! k = Some job /\ Job.quote_id job = Some quote_id.

(** Some invoice refers to job [job_id]. *)
Definition job_has_invoices (job_id : Z) (d : db) : Prop :=
  exists (k : Z) (invoice : Invoice.t),
    invoices d !! k = Some invoice /\ Invoice.job_id invoice = Some job_id.

(** Some quote, job or invoice refers to customer [customer_id]. *)
Definition customer_has_documents (customer_id : Z) (d : db) : Prop :=
  (exists k quote, quotes d !! k = Some quote /\ Quote.customer_id quote = customer_id)
  \/ (exists k job, jobs d !! k = Some job /\ Job.customer_id job = customer_id)
  \/ (exists k invoice,
        invoices d !! k = Some invoice /\ Invoice.customer_id invoice = customer_id).

(** Requests made one after the other on the same job; the answers are kept
    in order. *)
Fixpoint run_job_actions (actions : list job_action) (uid job_id : Z) (d : db)
    : list response * db :=
  match actions with
  | [] => ([], d)
  | a :: rest =>
      let (r, d1) := run_job_action a uid job_id d in
      let (rs, d2) := run_job_actions rest uid job_id d1 in
      (r :: rs, d2)
  end.

(** The invoices listed by a response of [get_overdue_invoices]. *)
Definition invoices_listed (r : response) : list (Z * Invoice.t) :=
  match payload r with
  | Success _ (Some (InvoiceList l)) => l
  | _ => []
  end.

(** ** The routes of a collection

    The rules that take no [<int:id>] and write: the four creations and
    the listing of overdue invoices. *)

Module Collection.

Inductive operation : Type :=
| POST_customers (data : option Customers.update_data) (utcnow : datetime)
| POST_quotes (data : option Quotes.create_data) (now utcnow : datetime) (uuid4 : string)
| POST_jobs (data : option Jobs.create_data) (now utcnow : datetime) (uuid4 : string)
| POST_invoices (data : option Invoices.create_data) (now utcnow : datetime) (uuid4 : string)
| GET_invoices_overdue (utcnow : datetime).

Definition dispatch (uid : Z) (op : operation) (d : db) : response * db :=
  match op with
  | POST_customers data utcnow => Customers.create_customer uid data utcnow d
  | POST_quotes data now utcnow uuid4 => Quotes.create_quote uid data now utcnow uuid4 d
  | POST_jobs data now utcnow uuid4 => Jobs.create_job uid data now utcnow uuid4 d
  | POST_invoices data now utcnow uuid4 => Invoices.create_invoice uid data now utcnow uuid4 d
  | GET_invoices_overdue utcnow => Invoices.get_overdue_invoices uid utcnow d
  end.

End Collection.

(** ** Accounts

    Two states of a table that hold the same rows of every account but
    [uid]: no such row was changed, removed or added. *)
Definition same_elsewhere {row : Type} (owner : row -> Z) (uid : Z)
    (before after : gmap Z row) : Prop :=
  forall (id : Z) (r : row), owner r <> uid -> before !! id = Some r <-> after !! id = Some r.

(** Two states of the database that differ in the documents of account
    [uid] only; the line items follow their quote. *)
Definition isolated (uid : Z) (before after : db) : Prop :=
  same_elsewhere Customer.user_id uid (customers before) (customers after)
  /\ same_elsewhere Quote.user_id uid (quotes before) (quotes after)
  /\ same_elsewhere Job.user_id uid (jobs before) (jobs after)
  /\ same_elsewhere Invoice.user_id uid (invoices before) (invoices after)
  /\ forall (quote_id : Z) (quote : Quote.t),
       quotes before !! quote_id = Some quote -> Quote.user_id quote <> uid ->
       Quotes.items_of quote_id after = Quotes.items_of quote_id before.

(** A request of account [uid] that is confined: it leaves the documents
    of the other accounts as they are, and writes nothing unless it answers
    200 or 201. *)
Definition confined (uid : Z) (d : db) (out : response * db) : Prop :=
  isolated uid d out.2 /\ (code out.1 <> 200 -> code out.1 <> 201 -> out.2 = d).
(** A request for a document or for a collection, and the route that
    serves it. *)
Inductive request : Type :=
| Document (op : Api.operation) (id : Z)
| Collected (op : Collection.operation).

Definition serve (uid : Z) (req : request) (d : db) : response * db :=
  match req with
  | Document op id => Api.dispatch uid op id d
  | Collected op => Collection.dispatch uid op d
  end.



(** ** What a request may write

    The links between the tables.  [Customer.query.filter_by(id=...,
    user_id=...).first()] finds the customer of a document, and the
    [filter_by(id=..., user_id=..., customer_id=...)] of [create_job] and
    [create_invoice] the quote of a job and the job of an invoice; an
    absent or zero reference names no row. *)
Definition has_customer (uid customer_id : Z) (d : db) : bool :=
  match Query.first_owned Customer.user_id (customers d) customer_id uid with
  | Some _ => true
  | None => false
  end.

Definition follows_quote (job : Job.t) (d : db) : bool :=
  match Job.quote_id job with
  | Some quote_id =>
      bool_decide (quote_id = 0)
      || match Query.first_owned Quote.user_id (quotes d) quote_id (Job.user_id job) with
         | Some quote => bool_decide (Quote.customer_id quote = Job.customer_id job)
         | None => false
         end
  | None => true
  end.

Definition bills_job (invoice : Invoice.t) (d : db) : bool :=
  match Invoice.job_id invoice with
  | Some job_id =>
      bool_decide (job_id = 0)
      || match Query.first_owned Job.user_id (jobs d) job_id (Invoice.user_id invoice) with
         | Some job => bool_decide (Job.customer_id job = Invoice.customer_id invoice)
         | None => false
         end
  | None => true
  end.

(** A database whose links hold: every quote, job and invoice is for a
    customer of its own account, every job that follows a quote and every
    invoice that bills a job refers to a document of the same account and
    customer, and every line item belongs to a quote. *)
Definition consistent (d : db) : Prop :=
  map_Forall (fun _ q => has_customer (Quote.user_id q) (Quote.customer_id q) d = true)
    (quotes d)
  /\ map_Forall (fun _ j => has_customer (Job.user_id j) (Job.customer_id j) d = true
                            /\ follows_quote j d = true) (jobs d)
  /\ map_Forall (fun _ i => has_customer (Invoice.user_id i) (Invoice.customer_id i) d = true
                            /\ bills_job i d = true) (invoices d)
  /\ Forall (fun i => is_Some (quotes d !! QuoteItem.quote_id i)) (quote_items d).

#[global] Instance consistent_dec (d : db) : Decision (consistent d).
Proof. unfold consistent. apply _. Defined.

(** A database in which every customer has a name and every quote and job
    a title. *)
Definition named (d : db) : Prop :=
  map_Forall (fun _ c => Py.truthy (Customer.name c) = true) (customers d)
  /\ map_Forall (fun _ q => Py.truthy (Quote.title q) = true) (quotes d)
  /\ map_Forall (fun _ j => Py.truthy (Job.title j) = true) (jobs d).

#[global] Instance named_dec (d : db) : Decision (named d).
Proof. unfold named. apply _. Defined.

(** The columns of a row that no route assigns after the row is created. *)
Definition fixed_of_customer (c : Customer.t) : Z * datetime :=
  (Customer.user_id c, Customer.created_at c).

Definition fixed_of_quote (q : Quote.t) : Z * Z * string * datetime :=
  (Quote.user_id q, Quote.customer_id q, Quote.quote_number q, Quote.created_at q).

Definition fixed_of_job (j : Job.t) : Z * Z * option Z * string * datetime :=
  (Job.user_id j, Job.customer_id j, Job.quote_id j, Job.job_number j, Job.created_at j).

Definition fixed_of_invoice (i : Invoice.t) : Z * Z * option Z * string * datetime :=
  (Invoice.user_id i, Invoice.customer_id i, Invoice.job_id i, Invoice.invoice_number i,
   Invoice.created_at i).

(** An invoice that has its payment date if it is ['paid']. *)
Definition dated (i : Invoice.t) : Prop :=
  Invoice.status i = "paid"%string -> is_Some (Invoice.paid_date i).

(** The writes of the routes: what the database can be after a request of
    account [uid]. *)
Inductive effect (uid : Z) (d : db) : db -> Prop :=
| Nothing : effect uid d d
| PutCustomer (id : Z) (old new : Customer.t) :
    Query.first_owned Customer.user_id (customers d) id uid = Some old ->
    fixed_of_customer new = fixed_of_customer old ->
    Customer.name new = Customer.name old \/ Py.truthy (Customer.name new) = true ->
    effect uid d (set_customers (insert id new) d)
| AddCustomer (new : Customer.t) :
    Customer.user_id new = uid ->
    Py.truthy (Customer.name new) = true ->
    effect uid d (set_customers (insert (Query.next_id (customers d)) new) d)
| DeleteCustomer (id : Z) (old : Customer.t) :
    Query.first_owned Customer.user_id (customers d) id uid = Some old ->
    Query.any_row (fun q => bool_decide (Quote.customer_id q = id)) (quotes d) = false ->
    Query.any_row (fun j => bool_decide (Job.customer_id j = id)) (jobs d) = false ->
    Query.any_row (fun i => bool_decide (Invoice.customer_id i = id)) (invoices d) = false ->
    effect uid d (set_customers (delete id) d)
| PutQuote (id : Z) (old new : Quote.t) :
    Query.first_owned Quote.user_id (quotes d) id uid = Some old ->
    fixed_of_quote new = fixed_of_quote old ->
    Quote.title new = Quote.title old \/ Py.truthy (Quote.title new) = true ->
    effect uid d (set_quotes (insert id new) d)
| PutQuoteItems (id : Z) (old new : Quote.t) (added : list QuoteItem.t) :
    Query.first_owned Quote.user_id (quotes d) id uid = Some old ->
    fixed_of_quote new = fixed_of_quote old ->
    Quote.title new = Quote.title old \/ Py.truthy (Quote.title new) = true ->
    Forall (fun i => QuoteItem.quote_id i = id) added ->
    effect uid d
      (set_quote_items
         (fun _ => filter (fun i => QuoteItem.quote_id i ≠ id) (quote_items d) ++ added)
         (set_quotes (insert id new) d))
| AddQuote (new : Quote.t) (added : list QuoteItem.t) :
    Quote.user_id new = uid ->
    has_customer uid (Quote.customer_id new) d = true ->
    Py.truthy (Quote.title new) = true ->
    Forall (fun i => QuoteItem.quote_id i = Query.next_id (quotes d)) added ->
    effect uid d
      (set_quote_items (fun rows => rows ++ added)
         (set_quotes (insert (Query.next_id (quotes d)) new) d))
| DeleteQuote (id : Z) (old : Quote.t) :
    Query.first_owned Quote.user_id (quotes d) id uid = Some old ->
    Query.any_row (fun j => bool_decide (Job.quote_id j = Some id)) (jobs d) = false ->
    effect uid d
      (set_quotes (delete id)
         (set_quote_items (filter (fun i => QuoteItem.quote_id i ≠ id)) d))
| PutJob (id : Z) (old new : Job.t) :
    Query.first_owned Job.user_id (jobs d) id uid = Some old ->
    fixed_of_job new = fixed_of_job old ->
    Job.title new = Job.title old \/ Py.truthy (Job.title new) = true ->
    effect uid d (set_jobs (insert id new) d)
| AddJob (new : Job.t) :
    Job.user_id new = uid ->
    has_customer uid (Job.customer_id new) d = true ->
    follows_quote new d = true ->
    Py.truthy (Job.title new) = true ->
    effect uid d (set_jobs (insert (Query.next_id (jobs d)) new) d)
| DeleteJob (id : Z) (old : Job.t) :
    Query.first_owned Job.user_id (jobs d) id uid = Some old ->
    Query.any_row (fun i => bool_decide (Invoice.job_id i = Some id)) (invoices d) = false ->
    effect uid d (set_jobs (delete id) d)
| PutInvoice (id : Z) (old new : Invoice.t) :
    Query.first_owned Invoice.user_id (invoices d) id uid = Some old ->
    fixed_of_invoice new = fixed_of_invoice old ->
    (dated old -> dated new) ->
    effect uid d (set_invoices (insert id new) d)
| AddInvoice (new : Invoice.t) :
    Invoice.user_id new = uid ->
    has_customer uid (Invoice.customer_id new) d = true ->
    bills_job new d = true ->
    dated new ->
    effect uid d (set_invoices (insert (Query.next_id (invoices d)) new) d)
| DeleteInvoice (id : Z) (old : Invoice.t) :
    Query.first_owned Invoice.user_id (invoices d) id uid = Some old ->
    effect uid d (set_invoices (delete id) d)
| MarkInvoices (mark : Invoice.t -> Invoice.t) :
    (forall i, fixed_of_invoice (mark i) = fixed_of_invoice i) ->
    (forall i, dated i -> dated (mark i)) ->
    effect uid d (set_invoices (fmap mark) d).

(** Requests served one after the other, each for its account. *)
Fixpoint run (requests : list (Z * request)) (d : db) : db :=
  match requests with
  | [] => d
  | (uid, req) :: rest => run rest (serve uid req d).2
  end.

(** A database in which every ['paid'] invoice has its payment date. *)
Definition all_dated (d : db) : Prop := map_Forall (fun _ i => dated i) (invoices d).

#[global] Instance all_dated_dec (d : db) : Decision (all_dated d).
Proof. unfold all_dated, dated. apply _. Defined.

(** * Sample data

    Rows and requests on which the properties below are exercised. *)

Module Sample.

Definition scheduled_job : Job.t :=
  Job.mk 1 7 None "JB-20250110-0A1B2C3D" "Gutter repair" None
    (Some (mk_datetime 2025 1 10 0 0 0 0)) None None "scheduled"
    (Py.PyDec (Qmake 15000 100)) None (mk_datetime 2025 1 2 9 0 0 0).

Definition one_job (job : Job.t) : db := mk_db ∅ ∅ [] {[ 4 := job ]} ∅.

Definition t0 : datetime := mk_datetime 2025 1 15 9 30 0 0.
Definition t1 : datetime := mk_datetime 2025 2 20 16 45 0 0.
Definition t2 : datetime := mk_datetime 2025 3 15 10 30 0 0.

Definition acme : Customer.t :=
  Customer.mk 1 "Acme" None None None None None None None t0.

Definition completed_job : Job.t := Jobs.set_status "completed" scheduled_job.

Definition draft_quote : Quote.t :=
  Quote.mk 1 7 "QT-20250115-9F8E7D6C" "Roof repair" None
    (Py.PyDec (Qmake 100 1)) (Py.PyDec (Qmake 0 1))
    (Py.PyDec (Qmake 0 1)) (Py.PyDec (Qmake 100 1))
    "draft" None None t0.

Definition one_quote (quote : Quote.t) : db :=
  mk_db {[ 7 := acme ]} {[ 3 := quote ]} [] ∅ ∅.

(** Scenario B of the specification: subtotal 200.00 at 8.25 %. *)
Definition draft_invoice : Invoice.t :=
  Invoice.mk 1 7 None "INV-20250115-1A2B3C4D"
    (Py.PyDec (Qmake 20000 100)) (Py.PyDec (Qmake 82500 10000))
    (Py.PyDec (Qmake 1650 100)) (Py.PyDec (Qmake 21650 100))
    "draft" None None None None t0.

Definition paid_invoice : Invoice.t := Invoices.set_status "paid" (Some t1) draft_invoice.

Definition one_invoice (invoice : Invoice.t) : db :=
  mk_db {[ 7 := acme ]} ∅ [] ∅ {[ 5 := invoice ]}.

Definition status_only (s : string) : Jobs.update_data :=
  Jobs.mk_update None None None None (Some s) None None None.

Definition tax_rate_only (r : Py.num) : Quotes.update_data :=
  Quotes.mk_update None None (Some r) None None None None.

Definition notes_only (s : string) : Invoices.update_data :=
  Invoices.mk_update None None None (Some s) None.

Definition sent_invoice : Invoice.t := Invoices.set_status "sent" None draft_invoice.

(** Two accounts: 1 owns everything above, 2 owns nothing. *)
Definition shop : db :=
  mk_db {[ 7 := acme ]} {[ 3 := draft_quote ]} [] {[ 4 := scheduled_job ]}
    {[ 5 := draft_invoice ]}.

Definition item (description : string) (quantity unit_price : Py.num) : Quotes.item_data :=
  Quotes.mk_item (Some description) (Some quantity) (Some unit_price).

(** Scenario A of the specification, with an entry of blank description. *)
Definition scenario_A : Quotes.create_data :=
  Quotes.mk_create (Some 7) (Some "Roof repair") None (Some (Py.PyInt 10)) None
    (Some [item "Labor" (Py.PyInt 2) (Py.PyFloat 50);
           item "   " (Py.PyInt 3) (Py.PyFloat 9.99);
           item "Parts" (Py.PyInt 1) (Py.PyFloat 75)]).


Definition uuid4 : string := "3f2a9c1e-5b7d-4e8a-9c0f-1a2b3c4d5e6f".

Definition customers_only : db := mk_db {[ 7 := acme ]} ∅ [] ∅ ∅.

(** An invoice paid on 10 February 2025. *)
Definition february_invoice : Invoice.t :=
  Invoices.set_status "paid" (Some (mk_datetime 2025 2 10 12 0 0 0)) draft_invoice.

(** An invoice paid on 1 March 2025 at 08:00. *)
Definition early_march_invoice : Invoice.t :=
  Invoices.set_status "paid" (Some (mk_datetime 2025 3 1 8 0 0 0)) draft_invoice.

Definition empty_db : db := mk_db ∅ ∅ [] ∅ ∅.

(** Three quotes of account 1, created on 10, 12 and 14 January 2025. *)
Definition quote_of_day (day : Z) : Quote.t :=
  Quote.mk 1 7 "QT-20250110-00000000" "Roof repair" None
    (Py.PyDec (Qmake 100 1)) (Py.PyDec (Qmake 0 1))
    (Py.PyDec (Qmake 0 1)) (Py.PyDec (Qmake 100 1))
    "draft" None None (mk_datetime 2025 1 day 9 0 0 0).

Definition three_quotes : db :=
  mk_db {[ 7 := acme ]}
    (<[ 1 := quote_of_day 10 ]> (<[ 2 := quote_of_day 12 ]> {[ 3 := quote_of_day 14 ]}))
    [] ∅ ∅.

(** Invoice 5 of account 1 was sent and fell due on 14 February 2025;
    invoice 6 belongs to account 2 and is in the same state. *)
Definition due_invoice (uid : Z) : Invoice.t :=
  Invoice.mk uid 7 None "INV-20250115-0000AAAA"
    (Py.PyDec (Qmake 50 1)) (Py.PyDec (Qmake 0 1)) (Py.PyDec (Qmake 0 1))
    (Py.PyDec (Qmake 50 1)) "sent" (Some (mk_datetime 2025 2 14 9 30 0 0)) None None None t0.

Definition two_accounts : db :=
  mk_db {[ 7 := acme ]} ∅ [] ∅ (<[ 5 := due_invoice 1 ]> {[ 6 := due_invoice 2 ]}).

(** A job for customer 7 that follows quote 3, and an invoice for that job. *)
Definition job_request : Jobs.create_data :=
  Jobs.mk_create (Some 7) (Some "  Roof repair ") None (Some 3) (Some (Py.PyInt 1500)) None
    (Some (IsoText (Some (mk_datetime 2025 4 2 0 0 0 0)))) (Some "09:00") None.

Definition invoice_request : Invoices.create_data :=
  Invoices.mk_create (Some 7) (Some 4) (Some (Py.PyInt 200)) (Some (Py.PyFloat 8.25)) None.

Definition customer_request : Customers.update_data :=
  Customers.mk_update (Some "  Bolt & Sons ") (Some "   ") None None None None None
    (Some " call first ").

(** New line items, and no other key. *)
Definition items_only : Quotes.update_data :=
  Quotes.mk_update None None None None None None
    (Some [item "Labor" (Py.PyInt 2) (Py.PyFloat 50)]).

(** A new subtotal, and no other key. *)
Definition subtotal_only : Invoices.update_data :=
  Invoices.mk_update (Some (Py.PyInt 300)) None None None None.


(** An invoice paid on 31 December 2024 at 15:00. *)
Definition new_years_eve_invoice : Invoice.t :=
  Invoices.set_status "paid" (Some (mk_datetime 2024 12 31 15 0 0 0)) draft_invoice.

(** A day of account 1 in [shop]: a second customer, a job for it, the quote
    of the first customer accepted and its invoice sent, then the deletion
    of the first customer, which the route refuses. *)
Definition busy_day : list (Z * request) :=
  [ (1, Collected (Collection.POST_customers (Some customer_request) t1));
    (1, Collected (Collection.POST_jobs (Some job_request) t1 t1 uuid4));
    (1, Document Api.POST_quote_accept 3);
    (1, Document Api.POST_invoice_send 5);
    (2, Document Api.DELETE_quote 3);
    (1, Document Api.DELETE_customer 7) ].

(** The day goes on: invoice 5 is paid, then edited. *)
Definition pay_day : list (Z * request) :=
  busy_day ++
  [ (1, Document (Api.POST_invoice_mark_paid t2) 5);
    (1, Document (Api.PUT_invoice (Some (notes_only "thanks")) t2) 5);
    (1, Collected (Collection.GET_invoices_overdue t2)) ].

End Sample.

(** * Properties *)

(** ** Ownership lookups *)

Section FirstOwned.
Context {row : Type} (owner : row -> Z).

Lemma first_owned_own (tbl : gmap Z row) (id uid : Z) (r : row) :
  tbl !! id = Some r -> owner r = uid ->
  Query.first_owned owner tbl id uid = Some r.
Proof.
  intros Hrow Hown. unfold Query.first_owned. rewrite Hrow.
  destruct (decide (owner r = uid)); congruence.
Qed.

Lemma first_owned_foreign (tbl : gmap Z row) (id uid : Z) (r : row) :
  tbl !! id = Some r -> owner r <> uid ->
  Query.first_owned owner tbl id uid = None.
Proof.
  intros Hrow Hown. unfold Query.first_owned. rewrite Hrow.
  destruct (decide (owner r = uid)); congruence.
Qed.

Lemma first_owned_missing (tbl : gmap Z row) (id uid : Z) :
  tbl !! id = None -> Query.first_owned owner tbl id uid = None.
Proof. intros Hrow. unfold Query.first_owned. now rewrite Hrow. Qed.

Lemma first_owned_inv (tbl : gmap Z row) (id uid : Z) (r : row) :
  Query.first_owned owner tbl id uid = Some r ->
  tbl !! id = Some r /\ owner r = uid.
Proof.
  unfold Query.first_owned. destruct (tbl !! id) as [r'|]; [|discriminate].
  destruct (decide (owner r' = uid)); [|discriminate].
  intros [= ->]. auto.
Qed.
End FirstOwned.

(** ** The job state machine: [start] *)



(** ** Sending a quote or an invoice *)

Lemma send_quote_draft (uid id : Z) (d : db) (quote : Quote.t) :
  quotes d !! id = Some quote -> Quote.user_id quote = uid ->
  Quote.status quote = "draft"%string ->
  Quotes.send_quote uid id d =
    (Response (Success (Some "Quote sent successfully"%string)
                 (Some (QuoteDoc id (Quotes.set_status "sent" quote)))) 200,
     set_quotes (insert id (Quotes.set_status "sent" quote)) d).
Proof.
  intros Hrow Hown Hst. unfold Quotes.send_quote.
  rewrite (first_owned_own _ _ _ _ _ Hrow Hown), Hst. reflexivity.
Qed.

Lemma send_quote_sent (uid id : Z) (d : db) (quote : Quote.t) :
  quotes d !! id = Some quote -> Quote.user_id quote = uid ->
  Quote.status quote = "sent"%string ->
  Quotes.send_quote uid id d =
    (Response (Success (Some "Quote sent successfully"%string)
                 (Some (QuoteDoc id quote))) 200, d).
Proof.
  intros Hrow Hown Hst. unfold Quotes.send_quote.
  rewrite (first_owned_own _ _ _ _ _ Hrow Hown), Hst. reflexivity.
Qed.

Lemma send_invoice_draft (uid id : Z) (d : db) (invoice : Invoice.t) :
  invoices d !! id = Some invoice -> Invoice.user_id invoice = uid ->
  Invoice.status invoice = "draft"%string ->
  Invoices.send_invoice uid id d =
    (Response (Success (Some "Invoice sent successfully"%string)
                 (Some (InvoiceDoc id
                          (Invoices.set_status "sent" (Invoice.paid_date invoice) invoice))))
       200,
     set_invoices
       (insert id (Invoices.set_status "sent" (Invoice.paid_date invoice) invoice)) d).
Proof.
  intros Hrow Hown Hst. unfold Invoices.send_invoice.
  rewrite (first_owned_own _ _ _ _ _ Hrow Hown), Hst. reflexivity.
Qed.

Lemma send_invoice_sent (uid id : Z) (d : db) (invoice : Invoice.t) :
  invoices d !! id = Some invoice -> Invoice.user_id invoice = uid ->
  Invoice.status invoice = "sent"%string ->
  Invoices.send_invoice uid id d =
    (Response (Success (Some "Invoice sent successfully"%string)
                 (Some (InvoiceDoc id invoice))) 200, d).
Proof.
  intros Hrow Hown Hst. unfold Invoices.send_invoice.
  rewrite (first_owned_own _ _ _ _ _ Hrow Hown), Hst. reflexivity.
Qed.

(** C6.  For a quote and for an invoice of the caller, [send] answers 200
    and leaves the status ['sent'] when it was ['draft']; on a document that
    is already ['sent'] it answers 200 as well, without an error, and the
    database is untouched. *)
Theorem send_is_idempotent (uid id : Z) (d : db) :
  (forall quote, quotes d !! id = Some quote -> Quote.user_id quote = uid ->
     (Quote.status quote = "draft"%string ->
        code (Quotes.send_quote uid id d).1 = 200 /\
        Quote.status <$> quotes (Quotes.send_quote uid id d).2 !! id = Some "sent"%string)
     /\ (Quote.status quote = "sent"%string ->
           code (Quotes.send_quote uid id d).1 = 200 /\
           (Quotes.send_quote uid id d).2 = d))
  /\ (forall invoice, invoices d !! id = Some invoice -> Invoice.user_id invoice = uid ->
        (Invoice.status invoice = "draft"%string ->
           code (Invoices.send_invoice uid id d).1 = 200 /\
           Invoice.status <$> invoices (Invoices.send_invoice uid id d).2 !! id
             = Some "sent"%string)
        /\ (Invoice.status invoice = "sent"%string ->
              code (Invoices.send_invoice uid id d).1 = 200 /\
              (Invoices.send_invoice uid id d).2 = d)).
Proof.
  split.
  - intros quote Hrow Hown. split; intros Hst.
    + rewrite (send_quote_draft uid id d quote Hrow Hown Hst). simpl.
      rewrite lookup_insert_eq. auto.
    + rewrite (send_quote_sent uid id d quote Hrow Hown Hst). auto.
  - intros invoice Hrow Hown. split; intros Hst.
    + rewrite (send_invoice_draft uid id d invoice Hrow Hown Hst). simpl.
      rewrite lookup_insert_eq. auto.
    + rewrite (send_invoice_sent uid id d invoice Hrow Hown Hst). auto.
Qed.

Lemma send_is_idempotent_witness :
  (code (Quotes.send_quote 1 3 (Sample.one_quote Sample.draft_quote)).1 = 200 /\
   Quote.status <$> quotes (Quotes.send_quote 1 3 (Sample.one_quote Sample.draft_quote)).2 !! 3
     = Some "sent"%string)
  /\ (code (Invoices.send_invoice 1 5 (Sample.one_invoice Sample.sent_invoice)).1 = 200 /\
      (Invoices.send_invoice 1 5 (Sample.one_invoice Sample.sent_invoice)).2
        = Sample.one_invoice Sample.sent_invoice).
Proof.
  split.
  - apply (proj1 (send_is_idempotent 1 3 (Sample.one_quote Sample.draft_quote))
             Sample.draft_quote); reflexivity.
  - apply (proj2 (send_is_idempotent 1 5 (Sample.one_invoice Sample.sent_invoice))
             Sample.sent_invoice); reflexivity.
Defined.

(** Sending twice from ['draft']: both calls answer 200, the status is
    ['sent'] after the first and the second changes nothing. *)
Lemma send_quote_twice (uid id : Z) (d : db) (quote : Quote.t) :
  quotes d !! id = Some quote -> Quote.user_id quote = uid ->
  Quote.status quote = "draft"%string ->
  let (r1, d1) := Quotes.send_quote uid id d in
  let (r2, d2) := Quotes.send_quote uid id d1 in
  code r1 = 200 /\ code r2 = 200 /\
  Quote.status <$> quotes d1 !! id = Some "sent"%string /\ d2 = d1.
Proof.
  intros Hrow Hown Hst.
  rewrite (send_quote_draft uid id d quote Hrow Hown Hst).
  set (sent := Quotes.set_status "sent" quote).
  set (d1 := set_quotes (insert id sent) d).
  assert (Hrow1 : quotes d1 !! id = Some sent) by apply lookup_insert_eq.
  rewrite (send_quote_sent uid id d1 sent Hrow1 Hown eq_refl).
  rewrite Hrow1. auto.
Qed.

(** ** Invoice totals on update *)

(** Case analysis on the steps of a route body that may raise. *)
Ltac step_result :=
  match goal with
  | |- context [Py.bind ?r _] =>
      let E := fresh "E" in destruct r eqn:E; simpl
  | |- context [mbind _ ?r] =>
      let E := fresh "E" in destruct r eqn:E; simpl
  end.



(** Scenario B of the specification: 200.00 at 8.25 % keeps 16.50 and
    216.50 through an update of the notes alone. *)
Lemma update_invoice_scenario_B :
  (fun i => (Invoice.tax_amount i, Invoice.total i, Invoice.notes i))
    <$> invoices (Invoices.update_invoice 1 5 (Some (Sample.notes_only "net 30")) Sample.t2
                    (Sample.one_invoice Sample.draft_invoice)).2 !! 5
  = Some (Py.PyDec (Qmake 33 2), Py.PyDec (Qmake 433 2), Some "net 30"%string).
Proof. vm_compute. reflexivity. Qed.

(** A body that carries only one of [subtotal] and [tax_rate] mixes a
    [float] with the [Decimal] loaded from the row: the multiplication raises
    and the update is rolled back with a 500. *)
Lemma update_invoice_mixed_types_fail :
  Invoices.update_invoice 1 5
    (Some (Invoices.mk_update None (Some (Py.PyFloat 8.25)) None None None)) Sample.t2
    (Sample.one_invoice Sample.draft_invoice)
  = (Response (Failed "Failed to update invoice" Py.TypeError) 500,
     Sample.one_invoice Sample.draft_invoice).
Proof. vm_compute. reflexivity. Qed.

(** ** Marking an invoice paid *)

(** [mark_invoice_paid] stamps the clock on every call. *)
Lemma mark_invoice_paid_stamps_now
    (uid invoice_id : Z) (utcnow : datetime) (d : db) (invoice : Invoice.t) :
  invoices d !! invoice_id = Some invoice -> Invoice.user_id invoice = uid ->
  Invoices.mark_invoice_paid uid invoice_id utcnow d =
    (Response (Success (Some "Invoice marked as paid"%string)
                 (Some (InvoiceDoc invoice_id
                          (Invoices.set_status "paid" (Some utcnow) invoice)))) 200,
     set_invoices (insert invoice_id (Invoices.set_status "paid" (Some utcnow) invoice)) d).
Proof.
  intros Hrow Hown. unfold Invoices.mark_invoice_paid.
  now rewrite (first_owned_own _ _ _ _ _ Hrow Hown).
Qed.

(** C2, at the failing input.  An invoice paid at [t1] is marked paid again
    at [t2]: the route answers 200 and stores [paid_date = t2], although a
    paid date was set; the same request made through [update_invoice]
    keeps [t1]. *)
Theorem mark_invoice_paid_overwrites_paid_date :
  Invoice.paid_date Sample.paid_invoice = Some Sample.t1
  /\ Sample.t2 <> Sample.t1
  /\ code (Invoices.mark_invoice_paid 1 5 Sample.t2
             (Sample.one_invoice Sample.paid_invoice)).1 = 200
  /\ Invoice.paid_date
       <$> invoices (Invoices.mark_invoice_paid 1 5 Sample.t2
                       (Sample.one_invoice Sample.paid_invoice)).2 !! 5
     = Some (Some Sample.t2)
  /\ Invoice.paid_date
       <$> invoices (Invoices.update_invoice 1 5
                       (Some (Invoices.mk_update None None None None (Some "paid"%string)))
                       Sample.t2 (Sample.one_invoice Sample.paid_invoice)).2 !! 5
     = Some (Some Sample.t1).
Proof.
  split; [reflexivity|]. split; [discriminate|].
  rewrite (mark_invoice_paid_stamps_now 1 5 Sample.t2 _ Sample.paid_invoice)
    by reflexivity.
  split; [reflexivity|]. split; [|vm_compute; reflexivity].
  simpl. now rewrite lookup_insert_eq.
Qed.

(** ** Status written by the generic updates *)

(** [update_job] stores whatever text the body gives as ['status']. *)
Lemma update_job_sets_any_status (uid job_id : Z) (s : string) (d : db) (job : Job.t) :
  jobs d !! job_id = Some job -> Job.user_id job = uid ->
  Jobs.update_job uid job_id (Some (Sample.status_only s)) d =
    (Response (Success (Some "Job updated successfully"%string)
                 (Some (JobDoc job_id (Jobs.set_status s job)))) 200,
     set_jobs (insert job_id (Jobs.set_status s job)) d).
Proof.
  intros Hrow Hown. unfold Jobs.update_job.
  rewrite (first_owned_own _ _ _ _ _ Hrow Hown). reflexivity.
Qed.

(** [update_quote] does the same. *)
Lemma update_quote_sets_any_status
    (uid quote_id : Z) (s : string) (utcnow : datetime) (d : db) (quote : Quote.t) :
  quotes d !! quote_id = Some quote -> Quote.user_id quote = uid ->
  Quotes.update_quote uid quote_id
    (Some (Quotes.mk_update None None None None None (Some s) None)) utcnow d =
    (Response (Success (Some "Quote updated successfully"%string)
                 (Some (QuoteDoc quote_id (Quotes.set_status s quote)))) 200,
     set_quotes (insert quote_id (Quotes.set_status s quote)) d).
Proof.
  intros Hrow Hown. unfold Quotes.update_quote.
  rewrite (first_owned_own _ _ _ _ _ Hrow Hown). reflexivity.
Qed.

(** C1, at the failing input.  A completed job cannot be cancelled through
    [cancel_job], which answers 400 and changes nothing; the generic update
    with [{'status': 'cancelled'}] answers 200 and stores ['cancelled'], and
    with a status outside the documented ones stores that as well. *)
Theorem update_job_bypasses_state_machine :
  Job.status Sample.completed_job = "completed"%string
  /\ Jobs.cancel_job 1 4 (Sample.one_job Sample.completed_job)
     = (Response (Error "Cannot cancel completed job") 400,
        Sample.one_job Sample.completed_job)
  /\ code (Jobs.update_job 1 4 (Some (Sample.status_only "cancelled"))
             (Sample.one_job Sample.completed_job)).1 = 200
  /\ Job.status
       <$> jobs (Jobs.update_job 1 4 (Some (Sample.status_only "cancelled"))
                   (Sample.one_job Sample.completed_job)).2 !! 4
     = Some "cancelled"%string
  /\ Job.status
       <$> jobs (Jobs.update_job 1 4 (Some (Sample.status_only "on hold"))
                   (Sample.one_job Sample.completed_job)).2 !! 4
     = Some "on hold"%string.
Proof.
  split; [reflexivity|]. split; [reflexivity|].
  rewrite !(update_job_sets_any_status 1 4 _ _ Sample.completed_job) by reflexivity.
  simpl. rewrite !lookup_insert_eq. auto.
Qed.

(** ** Quote totals on update *)

(** Without an ['items'] key, [update_quote] writes no total: whatever else
    the body changes, [subtotal], [tax_amount] and [total] stay as stored. *)
Lemma update_quote_without_items_keeps_totals
    (uid quote_id : Z) (data : Quotes.update_data) (utcnow : datetime) (d : db)
    (quote : Quote.t) :
  quotes d !! quote_id = Some quote -> Quote.user_id quote = uid ->
  Quotes.items data = None ->
  code (Quotes.update_quote uid quote_id (Some data) utcnow d).1 = 200 ->
  exists quote' : Quote.t,
    quotes (Quotes.update_quote uid quote_id (Some data) utcnow d).2 !! quote_id
      = Some quote'
    /\ Quote.subtotal quote' = Quote.subtotal quote
    /\ Quote.tax_amount quote' = Quote.tax_amount quote
    /\ Quote.total quote' = Quote.total quote.
Proof.
  intros Hrow Hown Hitems. unfold Quotes.update_quote.
  rewrite (first_owned_own _ _ _ _ _ Hrow Hown), Hitems.
  unfold try_except.
  destruct (Quotes.title data) as [t|]; [destruct (Py.truthy (Py.strip t))|]; simpl;
    try discriminate.
  all: repeat (step_result; try discriminate).
  all: intros _; eexists; (split; [apply lookup_insert_eq|]); auto.
Qed.

(** C3, at the failing input.  A quote of subtotal 100.00 stored with tax
    rate 0 is updated with [{'tax_rate': 10}]: the route answers 200 and
    stores the new rate, while [tax_amount] stays 0 and [total] stays
    100.00. *)
Theorem update_quote_tax_rate_alone_keeps_totals :
  code (Quotes.update_quote 1 3 (Some (Sample.tax_rate_only (Py.PyInt 10))) Sample.t2
          (Sample.one_quote Sample.draft_quote)).1 = 200
  /\ (fun q => (Quote.tax_rate q, Quote.subtotal q, Quote.tax_amount q, Quote.total q))
       <$> quotes (Quotes.update_quote 1 3 (Some (Sample.tax_rate_only (Py.PyInt 10)))
                     Sample.t2 (Sample.one_quote Sample.draft_quote)).2 !! 3
     = Some (Py.PyFloat 10, Py.PyDec (Qmake 100 1), Py.PyDec (Qmake 0 1),
             Py.PyDec (Qmake 100 1)).
Proof. split; vm_compute; reflexivity. Qed.

(** ** Ownership isolation *)

Lemma owner_foreign_row (k : Api.kind) (id B A : Z) (d : db) :
  Api.owner k id d = Some B -> A <> B ->
  match k with
  | Api.CustomerKind => Query.first_owned Customer.user_id (customers d) id A = None
  | Api.QuoteKind => Query.first_owned Quote.user_id (quotes d) id A = None
  | Api.JobKind => Query.first_owned Job.user_id (jobs d) id A = None
  | Api.InvoiceKind => Query.first_owned Invoice.user_id (invoices d) id A = None
  end.
Proof.
  intros Hown Hne. destruct k; simpl in Hown;
    match type of Hown with
    | _ <$> ?m !! _ = _ => destruct (m !! id) as [r|] eqn:Hrow; [|discriminate]
    end;
    injection Hown as Hown;
    (eapply first_owned_foreign; [exact Hrow | congruence]).
Qed.

Lemma dispatch_not_found (A : Z) (op : Api.operation) (id : Z) (d : db) :
  match Api.target op with
  | Api.CustomerKind => Query.first_owned Customer.user_id (customers d) id A = None
  | Api.QuoteKind => Query.first_owned Quote.user_id (quotes d) id A = None
  | Api.JobKind => Query.first_owned Job.user_id (jobs d) id A = None
  | Api.InvoiceKind => Query.first_owned Invoice.user_id (invoices d) id A = None
  end ->
  Api.dispatch A op id d = (Api.not_found (Api.target op), d).
Proof.
  destruct op; simpl; intros Hnone;
    unfold Customers.get_customer, Customers.update_customer, Customers.delete_customer,
      Quotes.get_quote, Quotes.update_quote, Quotes.delete_quote, Quotes.send_quote,
      Quotes.accept_quote, Quotes.reject_quote,
      Jobs.get_job, Jobs.update_job, Jobs.delete_job, Jobs.start_job, Jobs.complete_job,
      Jobs.cancel_job,
      Invoices.get_invoice, Invoices.update_invoice, Invoices.delete_invoice,
      Invoices.send_invoice, Invoices.mark_invoice_paid;
    rewrite Hnone; reflexivity.
Qed.

(** C5.  Let document [id] of some kind (customer, quote, job or invoice)
    belong to account [B], and let another account [A] read, update,
    delete or transition it.  Every such request answers 404 with the
    not-found message of the kind, which is also the answer when the document
    does not exist, and leaves the database, hence the document of [B],
    as it was. *)
Theorem cross_owner_is_not_found (A B : Z) (op : Api.operation) (id : Z) (d : db) :
  Api.owner (Api.target op) id d = Some B ->
  A <> B ->
  Api.dispatch A op id d = (Api.not_found (Api.target op), d)
  /\ (Api.dispatch A op id (Api.without (Api.target op) id d)).1
     = (Api.dispatch A op id d).1
  /\ code (Api.dispatch A op id d).1 = 404.
Proof.
  intros Hown Hne.
  assert (Hhere : Api.dispatch A op id d = (Api.not_found (Api.target op), d)).
  { apply dispatch_not_found.
    pose proof (owner_foreign_row _ _ _ _ _ Hown Hne) as H.
    destruct (Api.target op); exact H. }
  assert (Hgone : Api.dispatch A op id (Api.without (Api.target op) id d)
                  = (Api.not_found (Api.target op), Api.without (Api.target op) id d)).
  { apply dispatch_not_found.
    destruct (Api.target op); simpl; apply first_owned_missing, lookup_delete_eq. }
  rewrite Hhere, Hgone. repeat split. now destruct (Api.target op).
Qed.

Lemma cross_owner_is_not_found_witness :
  Api.dispatch 2 (Api.PUT_invoice (Some (Sample.notes_only "mine")) Sample.t2) 5 Sample.shop
    = (Api.not_found Api.InvoiceKind, Sample.shop)
  /\ (Api.dispatch 2 (Api.PUT_invoice (Some (Sample.notes_only "mine")) Sample.t2) 5
        (Api.without Api.InvoiceKind 5 Sample.shop)).1
     = (Api.dispatch 2 (Api.PUT_invoice (Some (Sample.notes_only "mine")) Sample.t2) 5
          Sample.shop).1
  /\ code (Api.dispatch 2 (Api.PUT_invoice (Some (Sample.notes_only "mine")) Sample.t2) 5
             Sample.shop).1 = 404.
Proof.
  apply (cross_owner_is_not_found 2 1
           (Api.PUT_invoice (Some (Sample.notes_only "mine")) Sample.t2) 5 Sample.shop).
  - reflexivity.
  - discriminate.
Defined.

(** ** Quote totals on creation *)

Ltac unfold_monad := unfold mbind, result_bind, mret, result_ret in *.

(** The loop of [create_quote] and [update_quote] computes what the
    specification describes: it persists the surviving entries in order and
    accumulates their line totals. *)
Lemma add_items_refines (quote_id : Z) (utcnow : datetime) (items_data : list Quotes.item_data) :
  forall (added : list QuoteItem.t) (subtotal : Py.num) (out : list QuoteItem.t * Py.num),
    Quotes.add_items quote_id utcnow items_data added subtotal = Py.Ok out ->
    exists lines : list Totals.line,
      Py.for_each Totals.read items_data = Py.Ok lines
      /\ out.1 = added ++ map (Totals.row quote_id utcnow) (Totals.surviving lines)
      /\ Totals.sum_from subtotal (map Totals.line_total (Totals.surviving lines))
         = Py.Ok out.2.
Proof.
  induction items_data as [|item_data rest IH]; intros added subtotal out; simpl.
  - intros [= <-]. exists []. simpl. rewrite app_nil_r. auto.
  - unfold_monad.
    destruct (Py.to_float (default (Py.PyInt 1) (Quotes.item_quantity item_data)))
      as [quantity|] eqn:Hquantity; simpl; [|discriminate].
    destruct (Py.to_float (default (Py.PyInt 0) (Quotes.item_unit_price item_data)))
      as [unit_price|] eqn:Hprice; simpl; [|discriminate].
    set (description := Py.strip (default ""%string (Quotes.item_description item_data))).
    assert (Hline : Totals.read item_data
                    = Py.Ok (Totals.mk_line description quantity unit_price)).
    { unfold Totals.read. unfold_monad. now rewrite Hquantity, Hprice. }
    destruct (Py.truthy description) eqn:Hdesc.
    + destruct (Py.add subtotal (Py.PyFloat (quantity * unit_price))) as [subtotal'|] eqn:Hadd;
        simpl; [|discriminate].
      intros Hloop. destruct (IH _ _ _ Hloop) as (lines & Hread & Hrows & Hsum).
      exists (Totals.mk_line description quantity unit_price :: lines).
      rewrite Hline, Hread. simpl. split; [reflexivity|].
      unfold Totals.surviving in *. rewrite filter_cons_True by exact Hdesc.
      simpl. unfold_monad. unfold Totals.line_total at 1. simpl. rewrite Hadd. simpl.
      split; [|exact Hsum]. rewrite Hrows, <- app_assoc. reflexivity.
    + intros Hloop. destruct (IH _ _ _ Hloop) as (lines & Hread & Hrows & Hsum).
      exists (Totals.mk_line description quantity unit_price :: lines).
      rewrite Hline, Hread. simpl. split; [reflexivity|].
      unfold Totals.surviving in *. rewrite filter_cons_False; [auto|].
      simpl. rewrite Hdesc. discriminate.
Qed.




(** Scenario A of the specification: two units of labour at 50.00 and one
    part at 75.00, taxed at 10 %, give 175.00, 17.50 and 192.50; the entry
    of blank description is not persisted. *)
Lemma create_quote_scenario_A :
  let out := Quotes.create_quote 1 (Some Sample.scenario_A) Sample.t0 Sample.t0
               Sample.uuid4 Sample.customers_only in
  code out.1 = 201
  /\ (fun q => (Quote.subtotal q, Quote.tax_amount q, Quote.total q)) <$> quotes out.2 !! 1
     = Some (Py.PyFloat 175, Py.PyFloat 17.5, Py.PyFloat 192.5)
  /\ map (fun i => (QuoteItem.description i, QuoteItem.total_price i)) (quote_items out.2)
     = [("Labor"%string, Py.PyFloat 100); ("Parts"%string, Py.PyFloat 75)].
Proof. vm_compute. auto. Qed.



(** ** The monthly revenue chart *)

(** C8, at the failing input.  On 15 March 2025 the chart has twelve
    buckets, oldest first, but they are March 2024 to January 2025 and
    March 2025: February 2025 has no bucket, and an invoice of 216.50 paid
    on 10 February 2025 is counted in none (every revenue is 0). *)
Theorem revenue_chart_skips_previous_month :
  let out := Dashboard.get_revenue_chart 1 Sample.t2
               (Sample.one_invoice Sample.february_invoice) in
  code out.1 = 200
  /\ map period (chart_data out.1)
     = ["2024-03"; "2024-04"; "2024-05"; "2024-06"; "2024-07"; "2024-08";
        "2024-09"; "2024-10"; "2024-11"; "2024-12"; "2025-01"; "2025-03"]%string
  /\ ("2025-02"%string ∉ map period (chart_data out.1))
  /\ Invoice.status Sample.february_invoice = "paid"%string
  /\ Invoice.total Sample.february_invoice = Py.PyDec (Qmake 21650 100)
  /\ map revenue (chart_data out.1) = replicate 12 0%float.
Proof.
  vm_compute. repeat split; try reflexivity.
  intros H. repeat (apply elem_of_cons in H as [H|H]; [discriminate|]).
  now apply elem_of_nil in H.
Qed.

(** The second bucket starts 32 days before the first of the month, which
    is never in the previous month: for every month of 1970 to 2099 the
    periods are those of the months 12 to 2 months back and of the current
    month, the previous month being absent. *)
Lemma revenue_chart_periods_1970_2099 :
  forallb
    (fun ym =>
       bool_decide
         (map period
            (chart_data
               (Dashboard.get_revenue_chart 1 (mk_datetime ym.1 ym.2 15 10 30 0 0)
                  Sample.empty_db).1)
          = Calendar.periods_computed ym.1 ym.2))
    (Calendar.months_of_years 1970 130)
  = true.
Proof. vm_compute. reflexivity. Qed.

(** The bounds of a bucket carry the time of day of the request: at 10:30
    the bucket of March 2025 starts on 1 March at 10:30, and misses an
    invoice paid that day at 08:00. *)
Lemma revenue_chart_bounds_keep_time_of_day :
  Dashboard.month_bounds Sample.t2 0
    = Py.Ok (mk_datetime 2025 3 1 10 30 0 0, mk_datetime 2025 3 31 10 30 0 0)
  /\ map revenue
       (chart_data
          (Dashboard.get_revenue_chart 1 Sample.t2
             (Sample.one_invoice Sample.early_march_invoice)).1)
     = replicate 12 0%float.
Proof. vm_compute. split; reflexivity. Qed.

(** ** Sorting *)

Section SortPermutation.
Context {A : Type} (le : A -> A -> bool).

Lemma insert_Permutation (x : A) (l : list A) : Sort.insert le x l ≡ₚ x :: l.
Proof.
  induction l as [|y l IH]; simpl; [reflexivity|].
  destruct (le x y); [reflexivity|].
  rewrite IH. apply Permutation_swap.
Qed.

Lemma sort_Permutation (l : list A) : Sort.sort le l ≡ₚ l.
Proof.
  induction l as [|x l IH]; simpl; [reflexivity|].
  unfold Sort.sort in IH. now rewrite insert_Permutation, IH.
Qed.
End SortPermutation.

Section SortSorted.
Context {A : Type} (le : A -> A -> bool).
Hypothesis le_total : forall x y, le x y = true \/ le y x = true.
Hypothesis le_trans : forall x y z, le x y = true -> le y z = true -> le x z = true.

Lemma insert_StronglySorted (x : A) (l : list A) :
  StronglySorted (fun a b => le a b = true) l ->
  StronglySorted (fun a b => le a b = true) (Sort.insert le x l).
Proof.
  induction 1 as [|y l Hl IH Hy]; simpl.
  - repeat constructor.
  - destruct (le x y) eqn:Hxy.
    + constructor; [now constructor|].
      constructor; [exact Hxy|].
      eapply Forall_impl; [exact Hy|]. intros z Hz. simpl in *. eauto.
    + constructor; [exact IH|].
      rewrite (insert_Permutation le x l). constructor; [|exact Hy].
      destruct (le_total x y); congruence.
Qed.

Lemma sort_StronglySorted (l : list A) :
  StronglySorted (fun a b => le a b = true) (Sort.sort le l).
Proof.
  induction l as [|x l IH]; simpl; [constructor|].
  now apply insert_StronglySorted.
Qed.
End SortSorted.

(** ** The orders the feed sorts by *)

Lemma lex_compare_antisym (a b : list Z) :
  DateTime.lex_compare b a = CompOpp (DateTime.lex_compare a b).
Proof.
  revert b. induction a as [|x a IH]; intros [|y b]; simpl; try reflexivity.
  rewrite (Z.compare_antisym x y). destruct (x ?= y); simpl; auto.
Qed.

Lemma lex_compare_trans (a b c : list Z) :
  DateTime.lex_compare a b <> Gt -> DateTime.lex_compare b c <> Gt ->
  DateTime.lex_compare a c <> Gt.
Proof.
  revert b c. induction a as [|x a IH]; intros [|y b] [|z c]; simpl; try congruence.
  destruct (Z.compare_spec x y), (Z.compare_spec y z), (Z.compare_spec x z);
    try congruence; try lia; subst; eauto.
Qed.

Lemma datetime_leb_total (s t : datetime) :
  DateTime.leb s t = true \/ DateTime.leb t s = true.
Proof.
  unfold DateTime.leb, DateTime.compare.
  rewrite (lex_compare_antisym (DateTime.fields s) (DateTime.fields t)).
  destruct (DateTime.lex_compare _ _); simpl; auto.
Qed.

Lemma datetime_leb_trans (s t u : datetime) :
  DateTime.leb s t = true -> DateTime.leb t u = true -> DateTime.leb s u = true.
Proof.
  unfold DateTime.leb, DateTime.compare. intros Hst Htu.
  pose proof (lex_compare_trans (DateTime.fields s) (DateTime.fields t) (DateTime.fields u)) as H.
  destruct (DateTime.lex_compare (DateTime.fields s) (DateTime.fields t));
    destruct (DateTime.lex_compare (DateTime.fields t) (DateTime.fields u));
    destruct (DateTime.lex_compare (DateTime.fields s) (DateTime.fields u));
    try discriminate; try reflexivity; exfalso; apply H; congruence.
Qed.

Lemma string_compare_trans (a b c : string) :
  String.compare a b <> Gt -> String.compare b c <> Gt -> String.compare a c <> Gt.
Proof.
  revert b c. induction a as [|x a IH]; intros [|y b] [|z c]; simpl; try congruence.
  unfold Ascii.compare.
  destruct (N.compare_spec (N_of_ascii x) (N_of_ascii y)) as [Hxy|Hxy|Hxy],
    (N.compare_spec (N_of_ascii y) (N_of_ascii z)) as [Hyz|Hyz|Hyz],
    (N.compare_spec (N_of_ascii x) (N_of_ascii z)) as [Hxz|Hxz|Hxz];
    try congruence; try lia; eauto.
Qed.

Lemma string_leb_trans (a b c : string) :
  String.leb a b = true -> String.leb b c = true -> String.leb a c = true.
Proof.
  unfold String.leb. intros Hab Hbc.
  pose proof (string_compare_trans a b c) as H.
  destruct (String.compare a b); destruct (String.compare b c);
    destruct (String.compare a c);
    try discriminate; try reflexivity; exfalso; apply H; congruence.
Qed.

(** ** The most recent rows of a table *)

Lemma rows_Permutation {row : Type} (tbl : gmap Z row) : Query.rows tbl ≡ₚ map_to_list tbl.
Proof. apply sort_Permutation. Qed.

Section Recent.
Context {row : Type} (owner : row -> Z) (created : row -> datetime).

Lemma descending_created_sorted (l : list (Z * row)) :
  StronglySorted (Feed.newer_row created)
    (Sort.descending DateTime.leb (fun kv => created kv.2) l).
Proof.
  apply (sort_StronglySorted (fun x y => DateTime.leb (created y.2) (created x.2))).
  - intros x y. apply datetime_leb_total.
  - intros x y z Hxy Hyz. eapply datetime_leb_trans; eassumption.
Qed.

(** [recent] selects the [n] most recent rows of the account. *)
Lemma recent_most_recent (uid : Z) (n : nat) (tbl : gmap Z row) :
  Feed.most_recent owner created uid n tbl (Dashboard.recent owner created uid n tbl).
Proof.
  unfold Dashboard.recent.
  set (owned := filter (fun kv => owner kv.2 = uid) (Query.rows tbl)).
  set (sorted := Sort.descending DateTime.leb (fun kv => created kv.2) owned).
  assert (Hperm : sorted ≡ₚ filter (fun kv => owner kv.2 = uid) (map_to_list tbl)).
  { unfold sorted, Sort.descending. rewrite sort_Permutation. unfold owned.
    now rewrite rows_Permutation. }
  assert (Hsorted : StronglySorted (Feed.newer_row created) sorted)
    by apply descending_created_sorted.
  assert (Hin : forall kv, kv ∈ sorted <-> tbl !! kv.1 = Some kv.2 /\ owner kv.2 = uid).
  { intros [k r]. rewrite Hperm, list_elem_of_filter, elem_of_map_to_list. simpl. tauto. }
  assert (Hnodup : NoDup sorted).
  { rewrite Hperm. apply NoDup_filter, NoDup_map_to_list. }
  rewrite <- (take_drop n sorted) in Hsorted, Hnodup.
  split.
  - rewrite length_take. now rewrite Hperm.
  - intros kv Hkv. apply Hin. rewrite <- (take_drop n sorted). apply elem_of_app. auto.
  - now apply NoDup_app in Hnodup as (? & _ & _).
  - eapply StronglySorted_app_1_l, Hsorted.
  - intros kv kv' Hkv Hrow Hown Hout.
    apply (StronglySorted_app_1_elem_of _ _ _ kv kv' Hsorted Hkv).
    assert (Hkv' : kv' ∈ sorted) by (apply Hin; auto).
    rewrite <- (take_drop n sorted) in Hkv'. apply elem_of_app in Hkv' as [|]; tauto.
Qed.
End Recent.

(** ** The entries of the feed *)

Lemma for_each_Forall2 {A B : Type} (f : A -> Py.result B) (P : A -> B -> Prop) :
  (forall x y, f x = Py.Ok y -> P x y) ->
  forall (l : list A) (out : list B), Py.for_each f l = Py.Ok out -> Forall2 P l out.
Proof.
  intros Hf. induction l as [|x l IH]; simpl; intros out.
  - intros [= <-]. constructor.
  - destruct (f x) as [y|] eqn:Hy; simpl; [|discriminate].
    destruct (Py.for_each f l) as [ys|]; simpl; [|discriminate].
    intros [= <-]. constructor; auto.
Qed.

Lemma quote_activity_tagged (d : db) (kv : Z * Quote.t) (a : activity) :
  Dashboard.quote_activity d kv = Py.Ok a ->
  Feed.tagged "quote" Quote.created_at Quote.status kv a.
Proof.
  destruct kv as [k quote]. unfold Dashboard.quote_activity. unfold_monad.
  destruct (Dashboard.customer_name _ d); simpl; [|discriminate].
  destruct (Py.to_float _); simpl; [|discriminate].
  intros [= <-]. repeat split.
Qed.

Lemma job_activity_tagged (d : db) (kv : Z * Job.t) (a : activity) :
  Dashboard.job_activity d kv = Py.Ok a ->
  Feed.tagged "job" Job.created_at Job.status kv a.
Proof.
  destruct kv as [k job]. unfold Dashboard.job_activity. unfold_monad.
  destruct (Dashboard.customer_name _ d); simpl; [|discriminate].
  destruct (Py.to_float _); simpl; [|discriminate].
  intros [= <-]. repeat split.
Qed.

Lemma invoice_activity_tagged (d : db) (kv : Z * Invoice.t) (a : activity) :
  Dashboard.invoice_activity d kv = Py.Ok a ->
  Feed.tagged "invoice" Invoice.created_at Invoice.status kv a.
Proof.
  destruct kv as [k invoice]. unfold Dashboard.invoice_activity. unfold_monad.
  destruct (Dashboard.customer_name _ d); simpl; [|discriminate].
  destruct (Py.to_float _); simpl; [|discriminate].
  intros [= <-]. repeat split.
Qed.

Lemma descending_date_sorted (l : list activity) :
  StronglySorted Feed.newer (Sort.descending String.leb date l).
Proof.
  apply (sort_StronglySorted (fun x y => String.leb (date y) (date x))).
  - intros x y. apply String.leb_total.
  - intros x y z Hxy Hyz. eapply string_leb_trans; eassumption.
Qed.

(** C9, as amended.  Whenever the feed answers 200 for a limit [N], it is
    made of the [N // 2] most recent quotes, the [N // 2] most recent jobs
    and the [N // 2] most recent invoices of the account, each turned into
    an entry tagged with its type, its key, its creation date and its
    status; the merged entries are sorted by date, newest first, and the
    feed is the first [N] of them: it has at most [N] entries, it is sorted,
    and no entry left out is dated later than an entry kept. *)
Theorem recent_activity_feed (uid : Z) (limit : nat) (d : db) :
  code (Dashboard.get_recent_activity uid limit d).1 = 200 ->
  Feed.is_feed (limit / 2)%nat uid limit d
    (activities_of (Dashboard.get_recent_activity uid limit d).1).
Proof.
  unfold Feed.is_feed, Dashboard.get_recent_activity, try_except. unfold_monad.
  set (recent_quotes := Dashboard.recent Quote.user_id Quote.created_at uid _ (quotes d)).
  set (recent_jobs := Dashboard.recent Job.user_id Job.created_at uid _ (jobs d)).
  set (recent_invoices :=
         Dashboard.recent Invoice.user_id Invoice.created_at uid _ (invoices d)).
  destruct (Py.for_each (Dashboard.quote_activity d) _) as [from_quotes|] eqn:Hq; simpl;
    [|discriminate].
  destruct (Py.for_each (Dashboard.job_activity d) _) as [from_jobs|] eqn:Hj; simpl;
    [|discriminate].
  destruct (Py.for_each (Dashboard.invoice_activity d) _) as [from_invoices|] eqn:Hi; simpl;
    [|discriminate].
  intros _. unfold activities_of. simpl.
  set (merged := from_quotes ++ from_jobs ++ from_invoices).
  set (sorted := Sort.descending String.leb date merged).
  pose proof (descending_date_sorted merged) as Hsorted. fold sorted in Hsorted.
  rewrite <- (take_drop limit sorted) in Hsorted.
  exists recent_quotes, recent_jobs, recent_invoices,
    from_quotes, from_jobs, from_invoices, (drop limit sorted).
  split; [apply recent_most_recent|].
  split; [apply recent_most_recent|].
  split; [apply recent_most_recent|].
  split; [eapply for_each_Forall2, Hq; apply quote_activity_tagged|].
  split; [eapply for_each_Forall2, Hj; apply job_activity_tagged|].
  split; [eapply for_each_Forall2, Hi; apply invoice_activity_tagged|].
  split; [rewrite take_drop; apply sort_Permutation|].
  split; [rewrite length_take; lia|].
  split.
  { intros Hrest. rewrite length_take. apply Nat.min_l.
    destruct (Nat.le_gt_cases limit (length sorted)) as [|Hshort]; [assumption|].
    exfalso. apply Hrest, drop_ge. lia. }
  split; [eapply StronglySorted_app_1_l, Hsorted|].
  intros a b Ha Hb. exact (StronglySorted_app_1_elem_of _ _ _ a b Hsorted Ha Hb).
Qed.

Lemma recent_activity_feed_witness :
  Feed.is_feed (6 / 2)%nat 1 6 Sample.three_quotes
    (activities_of (Dashboard.get_recent_activity 1 6 Sample.three_quotes).1).
Proof.
  apply (recent_activity_feed 1 6 Sample.three_quotes). vm_compute. reflexivity.
Defined.

(** C9, as stated, fails: with a limit of 6 the feed of an account that has
    three quotes shows the three of them, so it is not made of the
    6 / 3 = 2 most recent documents of each type. *)
Lemma recent_activity_takes_half_not_third :
  map (fun a => (type a, id a))
    (activities_of (Dashboard.get_recent_activity 1 6 Sample.three_quotes).1)
  = [("quote"%string, 3); ("quote"%string, 2); ("quote"%string, 1)]
  /\ ~ Feed.is_feed (6 / 3)%nat 1 6 Sample.three_quotes
         (activities_of (Dashboard.get_recent_activity 1 6 Sample.three_quotes).1).
Proof.
  split; [vm_compute; reflexivity|].
  intros (rq & rj & ri & fq & fj & fi & rest & Hq & Hj & Hi & Tq & Tj & Ti & Hperm & _).
  apply Permutation_length in Hperm.
  apply Forall2_length in Tq, Tj, Ti.
  pose proof (Feed.taken_length _ _ _ _ _ _ Hq) as Lq.
  pose proof (Feed.taken_length _ _ _ _ _ _ Hj) as Lj.
  pose proof (Feed.taken_length _ _ _ _ _ _ Hi) as Li.
  rewrite !length_app in Hperm.
  assert (Hfeed : length (activities_of
                            (Dashboard.get_recent_activity 1 6 Sample.three_quotes).1) = 3%nat)
    by (vm_compute; reflexivity).
  assert (Hrq : (length rq <= 2)%nat) by (rewrite Lq; apply Nat.le_min_l).
  assert (Hrj : length rj = 0%nat) by (rewrite Lj; vm_compute; reflexivity).
  assert (Hri : length ri = 0%nat) by (rewrite Li; vm_compute; reflexivity).
  lia.
Qed.

(** * Further properties of the routes *)

(** ** Deletion guards *)

Lemma any_row_true {row : Type} (p : row -> bool) (tbl : gmap Z row) :
  Query.any_row p tbl = true <-> exists k r, tbl !! k = Some r /\ p r = true.
Proof.
  unfold Query.any_row. rewrite existsb_exists. split.
  - intros ([k r] & Hin & Hp). exists k, r. split; [|exact Hp].
    now apply elem_of_map_to_list, list_elem_of_In.
  - intros (k & r & Hrow & Hp). exists (k, r). split; [|exact Hp].
    now apply list_elem_of_In, elem_of_map_to_list.
Qed.

Lemma any_row_false {row : Type} (p : row -> bool) (tbl : gmap Z row) :
  Query.any_row p tbl = false <-> forall k r, tbl !! k = Some r -> p r = false.
Proof.
  split.
  - intros Hnone k r Hrow. destruct (p r) eqn:Hp; [|reflexivity].
    assert (Query.any_row p tbl = true) by (apply any_row_true; eauto). congruence.
  - intros Hall. destruct (Query.any_row p tbl) eqn:Hany; [|reflexivity].
    apply any_row_true in Hany as (k & r & Hrow & Hp). rewrite (Hall k r Hrow) in Hp.
    discriminate.
Qed.

(** X1.  An invoice of the caller whose status is ['paid'] is never deleted:
    [delete_invoice] answers 400 and changes nothing.  With any other status
    it answers 200, the invoice is gone and every other row of the database
    is as before. *)
Theorem delete_invoice_unless_paid (uid invoice_id : Z) (d : db) (invoice : Invoice.t) :
  invoices d !! invoice_id = Some invoice ->
  Invoice.user_id invoice = uid ->
  (Invoice.status invoice = "paid"%string ->
     Invoices.delete_invoice uid invoice_id d
     = (Response (Error "Cannot delete paid invoice") 400, d))
  /\ (Invoice.status invoice <> "paid"%string ->
        let out := Invoices.delete_invoice uid invoice_id d in
        code out.1 = 200
        /\ invoices out.2 !! invoice_id = None
        /\ (forall k, k <> invoice_id -> invoices out.2 !! k = invoices d !! k)
        /\ customers out.2 = customers d /\ quotes out.2 = quotes d
        /\ quote_items out.2 = quote_items d /\ jobs out.2 = jobs d).
Proof.
  intros Hrow Hown. unfold Invoices.delete_invoice.
  rewrite (first_owned_own _ _ _ _ _ Hrow Hown).
  destruct (decide (Invoice.status invoice = "paid"%string)) as [Hpaid|Hnot]; simpl.
  - split; [reflexivity|]. intros Hne. contradiction.
  - split; [intros Hpaid; contradiction|]. intros _.
    split; [reflexivity|]. split; [apply lookup_delete_eq|].
    split; [intros k Hk; now apply lookup_delete_ne|]. auto.
Qed.

Lemma delete_invoice_unless_paid_witness :
  Invoices.delete_invoice 1 5 (Sample.one_invoice Sample.paid_invoice)
  = (Response (Error "Cannot delete paid invoice") 400, Sample.one_invoice Sample.paid_invoice).
Proof.
  apply (delete_invoice_unless_paid 1 5 (Sample.one_invoice Sample.paid_invoice)
           Sample.paid_invoice); reflexivity.
Defined.

(** X2.  A job of the caller is deleted exactly when no invoice refers to
    it: otherwise [delete_job] answers 400 and changes nothing.  On success
    only that job is removed. *)
Theorem delete_job_unless_invoiced (uid job_id : Z) (d : db) (job : Job.t) :
  jobs d !! job_id = Some job ->
  Job.user_id job = uid ->
  (job_has_invoices job_id d ->
     Jobs.delete_job uid job_id d
     = (Response (Error "Cannot delete job with associated invoices") 400, d))
  /\ (~ job_has_invoices job_id d ->
        Jobs.delete_job uid job_id d
        = (Response (Success (Some "Job deleted successfully"%string) None) 200,
           set_jobs (delete job_id) d))
  /\ (code (Jobs.delete_job uid job_id d).1 = 200 <-> ~ job_has_invoices job_id d).
Proof.
  intros Hrow Hown. unfold Jobs.delete_job.
  rewrite (first_owned_own _ _ _ _ _ Hrow Hown).
  destruct (Query.any_row _ (invoices d)) eqn:Hany.
  - apply any_row_true in Hany as (k & invoice & Hinv & Href).
    apply bool_decide_eq_true in Href.
    assert (Hhas : job_has_invoices job_id d) by (exists k, invoice; auto).
    split; [reflexivity|]. split; [intros Hno; contradiction|].
    simpl. split; [discriminate|]. intros Hno. contradiction.
  - assert (Hno : ~ job_has_invoices job_id d).
    { intros (k & invoice & Hinv & Href).
      rewrite any_row_false in Hany. specialize (Hany k invoice Hinv).
      apply bool_decide_eq_false in Hany. contradiction. }
    split; [intros Hhas; contradiction|]. split; [reflexivity|].
    simpl. split; auto.
Qed.

Lemma delete_job_unless_invoiced_witness :
  code (Jobs.delete_job 1 4 Sample.shop).1 = 200 <-> ~ job_has_invoices 4 Sample.shop.
Proof.
  apply (delete_job_unless_invoiced 1 4 Sample.shop Sample.scheduled_job); reflexivity.
Defined.

Lemma items_filter_other (quote_id other : Z) (l : list QuoteItem.t) :
  other <> quote_id ->
  filter (fun i => QuoteItem.quote_id i = other)
    (filter (fun i => QuoteItem.quote_id i ≠ quote_id) l)
  = filter (fun i => QuoteItem.quote_id i = other) l.
Proof.
  intros Hne. induction l as [|i l IH]; [reflexivity|].
  destruct (decide (QuoteItem.quote_id i = quote_id)) as [Heq|Hneq].
  - rewrite (filter_cons_False _ i l) by (intros H; apply H; exact Heq).
    rewrite IH. rewrite (filter_cons_False _ i l); [reflexivity|]. congruence.
  - rewrite (filter_cons_True _ i l) by exact Hneq.
    destruct (decide (QuoteItem.quote_id i = other)) as [Ho|Ho].
    + rewrite !filter_cons_True by exact Ho. now rewrite IH.
    + rewrite !filter_cons_False by exact Ho. exact IH.
Qed.

Lemma items_filter_self (quote_id : Z) (l : list QuoteItem.t) :
  filter (fun i => QuoteItem.quote_id i = quote_id)
    (filter (fun i => QuoteItem.quote_id i ≠ quote_id) l) = [].
Proof.
  induction l as [|i l IH]; [reflexivity|].
  destruct (decide (QuoteItem.quote_id i = quote_id)) as [Heq|Hneq].
  - rewrite (filter_cons_False _ i l) by (intros H; apply H; exact Heq). exact IH.
  - rewrite (filter_cons_True _ i l) by exact Hneq.
    rewrite filter_cons_False by exact Hneq. exact IH.
Qed.

(** X3.  A quote of the caller is deleted exactly when no job refers to it;
    otherwise [delete_quote] answers 400 and changes nothing.  On success the
    quote and its line items are gone, and the line items of every other
    quote are kept. *)
Theorem delete_quote_unless_scheduled (uid quote_id : Z) (d : db) (quote : Quote.t) :
  quotes d !! quote_id = Some quote ->
  Quote.user_id quote = uid ->
  (quote_has_jobs quote_id d ->
     Quotes.delete_quote uid quote_id d
     = (Response (Error "Cannot delete quote with associated jobs") 400, d))
  /\ (~ quote_has_jobs quote_id d ->
        let out := Quotes.delete_quote uid quote_id d in
        code out.1 = 200
        /\ quotes out.2 = delete quote_id (quotes d)
        /\ Quotes.items_of quote_id out.2 = []
        /\ (forall other, other <> quote_id ->
              Quotes.items_of other out.2 = Quotes.items_of other d)
        /\ customers out.2 = customers d /\ jobs out.2 = jobs d
        /\ invoices out.2 = invoices d)
  /\ (code (Quotes.delete_quote uid quote_id d).1 = 200 <-> ~ quote_has_jobs quote_id d).
Proof.
  intros Hrow Hown. unfold Quotes.delete_quote.
  rewrite (first_owned_own _ _ _ _ _ Hrow Hown).
  destruct (Query.any_row _ (jobs d)) eqn:Hany.
  - apply any_row_true in Hany as (k & job & Hjob & Href).
    apply bool_decide_eq_true in Href.
    assert (Hhas : quote_has_jobs quote_id d) by (exists k, job; auto).
    split; [reflexivity|]. split; [intros Hno; contradiction|].
    simpl. split; [discriminate|]. intros Hno. contradiction.
  - assert (Hno : ~ quote_has_jobs quote_id d).
    { intros (k & job & Hjob & Href).
      rewrite any_row_false in Hany. specialize (Hany k job Hjob).
      apply bool_decide_eq_false in Hany. contradiction. }
    split; [intros Hhas; contradiction|]. simpl. split; [|tauto].
    intros _. split; [reflexivity|]. split; [reflexivity|].
    unfold Quotes.items_of. simpl.
    split; [apply items_filter_self|].
    split; [intros other Hother; now apply items_filter_other|]. auto.
Qed.

Lemma delete_quote_unless_scheduled_witness :
  code (Quotes.delete_quote 1 3 Sample.shop).1 = 200 <-> ~ quote_has_jobs 3 Sample.shop.
Proof.
  apply (delete_quote_unless_scheduled 1 3 Sample.shop Sample.draft_quote); reflexivity.
Defined.

(** X4.  A customer of the caller is deleted exactly when no quote, job or
    invoice refers to it; otherwise [delete_customer] answers 400 and
    changes nothing: dependents are never deleted with their customer. *)
Theorem delete_customer_unless_referenced (uid customer_id : Z) (d : db) (c : Customer.t) :
  customers d !! customer_id = Some c ->
  Customer.user_id c = uid ->
  (customer_has_documents customer_id d ->
     Customers.delete_customer uid customer_id d
     = (Response (Error "Cannot delete customer with associated quotes, jobs, or invoices")
          400, d))
  /\ (~ customer_has_documents customer_id d ->
        Customers.delete_customer uid customer_id d
        = (Response (Success (Some "Customer deleted successfully"%string) None) 200,
           set_customers (delete customer_id) d))
  /\ (code (Customers.delete_customer uid customer_id d).1 = 200
      <-> ~ customer_has_documents customer_id d).
Proof.
  intros Hrow Hown. unfold Customers.delete_customer.
  rewrite (first_owned_own _ _ _ _ _ Hrow Hown).
  destruct (Query.any_row _ (quotes d)) eqn:Hq; simpl.
  { apply any_row_true in Hq as (k & q & Hk & Href). apply bool_decide_eq_true in Href.
    assert (Hhas : customer_has_documents customer_id d) by (left; eauto).
    split; [reflexivity|]. split; [intros Hno; contradiction|].
    split; [discriminate|]. intros Hno. contradiction. }
  destruct (Query.any_row _ (jobs d)) eqn:Hj; simpl.
  { apply any_row_true in Hj as (k & j & Hk & Href). apply bool_decide_eq_true in Href.
    assert (Hhas : customer_has_documents customer_id d) by (right; left; eauto).
    split; [reflexivity|]. split; [intros Hno; contradiction|].
    split; [discriminate|]. intros Hno. contradiction. }
  destruct (Query.any_row _ (invoices d)) eqn:Hi; simpl.
  { apply any_row_true in Hi as (k & i & Hk & Href). apply bool_decide_eq_true in Href.
    assert (Hhas : customer_has_documents customer_id d) by (right; right; eauto).
    split; [reflexivity|]. split; [intros Hno; contradiction|].
    split; [discriminate|]. intros Hno. contradiction. }
  assert (Hno : ~ customer_has_documents customer_id d).
  { rewrite any_row_false in Hq. rewrite any_row_false in Hj. rewrite any_row_false in Hi.
    intros [(k & r & Hk & Href)|[(k & r & Hk & Href)|(k & r & Hk & Href)]].
    - specialize (Hq k r Hk). apply bool_decide_eq_false in Hq. contradiction.
    - specialize (Hj k r Hk). apply bool_decide_eq_false in Hj. contradiction.
    - specialize (Hi k r Hk). apply bool_decide_eq_false in Hi. contradiction. }
  split; [intros Hhas; contradiction|]. split; [reflexivity|]. split; auto.
Qed.

Lemma delete_customer_unless_referenced_witness :
  Customers.delete_customer 1 7 Sample.shop
  = (Response (Error "Cannot delete customer with associated quotes, jobs, or invoices")
       400, Sample.shop).
Proof.
  apply (delete_customer_unless_referenced 1 7 Sample.shop Sample.acme);
    [reflexivity|reflexivity|].
  left. exists 3, Sample.draft_quote. split; reflexivity.
Defined.

(** ** The job state machine: [complete], [cancel] and sequences of actions *)

(** The three action routes on a job of the caller, as functions of its
    status. *)
Lemma start_job_owned (uid job_id : Z) (d : db) (job : Job.t) :
  jobs d !! job_id = Some job -> Job.user_id job = uid ->
  Jobs.start_job uid job_id d =
    if decide (Job.status job = "scheduled"%string) then
      (Response (Success (Some "Job started successfully"%string)
                   (Some (JobDoc job_id (Jobs.set_status "in_progress" job)))) 200,
       set_jobs (insert job_id (Jobs.set_status "in_progress" job)) d)
    else (Response (Error "Job must be scheduled to start") 400, d).
Proof.
  intros Hrow Hown. unfold Jobs.start_job.
  rewrite (first_owned_own _ _ _ _ _ Hrow Hown).
  destruct (decide (Job.status job <> "scheduled"%string)) as [Hne|Heq];
    destruct (decide (Job.status job = "scheduled"%string)); try reflexivity; contradiction.
Qed.

Lemma complete_job_owned (uid job_id : Z) (d : db) (job : Job.t) :
  jobs d !! job_id = Some job -> Job.user_id job = uid ->
  Jobs.complete_job uid job_id d =
    if decide (Job.status job = "scheduled"%string \/ Job.status job = "in_progress"%string)
    then
      (Response (Success (Some "Job completed successfully"%string)
                   (Some (JobDoc job_id (Jobs.set_status "completed" job)))) 200,
       set_jobs (insert job_id (Jobs.set_status "completed" job)) d)
    else (Response (Error "Job must be scheduled or in progress to complete") 400, d).
Proof.
  intros Hrow Hown. unfold Jobs.complete_job.
  rewrite (first_owned_own _ _ _ _ _ Hrow Hown).
  destruct (bool_decide (Job.status job ∈ ["scheduled"; "in_progress"]%string)) eqn:Hin; simpl.
  - apply bool_decide_eq_true in Hin. rewrite !elem_of_cons, elem_of_nil in Hin.
    destruct (decide _) as [|Hno]; [reflexivity|]. tauto.
  - apply bool_decide_eq_false in Hin. rewrite !elem_of_cons, elem_of_nil in Hin.
    destruct (decide _) as [Hyes|]; [|reflexivity]. tauto.
Qed.

Lemma cancel_job_owned (uid job_id : Z) (d : db) (job : Job.t) :
  jobs d !! job_id = Some job -> Job.user_id job = uid ->
  Jobs.cancel_job uid job_id d =
    if decide (Job.status job = "completed"%string) then
      (Response (Error "Cannot cancel completed job") 400, d)
    else
      (Response (Success (Some "Job cancelled successfully"%string)
                   (Some (JobDoc job_id (Jobs.set_status "cancelled" job)))) 200,
       set_jobs (insert job_id (Jobs.set_status "cancelled" job)) d).
Proof.
  intros Hrow Hown. unfold Jobs.cancel_job.
  rewrite (first_owned_own _ _ _ _ _ Hrow Hown).
  destruct (decide _); reflexivity.
Qed.





(** One action on an owned job: the answer and the database depend on the
    status alone, and only the status of that job can change. *)
Lemma run_job_action_step (a : job_action) (uid job_id : Z) (d : db) (job : Job.t) :
  jobs d !! job_id = Some job -> Job.user_id job = uid ->
  (code (run_job_action a uid job_id d).1 = 400 /\ (run_job_action a uid job_id d).2 = d)
  \/ (exists s : string,
        code (run_job_action a uid job_id d).1 = 200
        /\ (run_job_action a uid job_id d).2 = set_jobs (insert job_id (Jobs.set_status s job)) d
        /\ match a with
           | Start => Job.status job = "scheduled"%string /\ s = "in_progress"%string
           | Complete => (Job.status job = "scheduled"%string
                          \/ Job.status job = "in_progress"%string)
                         /\ s = "completed"%string
           | Cancel => Job.status job <> "completed"%string /\ s = "cancelled"%string
           end).
Proof.
  intros Hrow Hown. destruct a; simpl.
  - rewrite (start_job_owned uid job_id d job Hrow Hown).
    destruct (decide _); [right; exists "in_progress"%string|left]; auto.
  - rewrite (complete_job_owned uid job_id d job Hrow Hown).
    destruct (decide _); [right; exists "completed"%string|left]; auto.
  - rewrite (cancel_job_owned uid job_id d job Hrow Hown).
    destruct (decide _); [left|right; exists "cancelled"%string]; auto.
Qed.

Lemma set_status_same (job : Job.t) : Jobs.set_status (Job.status job) job = job.
Proof. now destruct job. Qed.

Lemma set_status_twice (s s' : string) (job : Job.t) :
  Jobs.set_status s' (Jobs.set_status s job) = Jobs.set_status s' job.
Proof. reflexivity. Qed.

Lemma set_jobs_insert_twice (job_id : Z) (j j' : Job.t) (d : db) :
  set_jobs (insert job_id j') (set_jobs (insert job_id j) d) = set_jobs (insert job_id j') d.
Proof. unfold set_jobs. simpl. now rewrite insert_insert_eq. Qed.

(** X7.  The three actions in a row, for every job: a scheduled job of the
    caller is started, completed and then cancelled; the answers are 200,
    200 and 400, and the job ends ['completed'] with nothing but its status
    changed. *)
Theorem start_complete_cancel (uid job_id : Z) (d : db) (job : Job.t) :
  jobs d !! job_id = Some job ->
  Job.user_id job = uid ->
  Job.status job = "scheduled"%string ->
  let out := run_job_actions [Start; Complete; Cancel] uid job_id d in
  map code out.1 = [200; 200; 400]
  /\ out.2 = set_jobs (insert job_id (Jobs.set_status "completed" job)) d.
Proof.
  intros Hrow Hown Hst. simpl.
  rewrite (start_job_owned uid job_id d job Hrow Hown).
  destruct (decide (Job.status job = "scheduled"%string)); [|contradiction].
  set (d1 := set_jobs (insert job_id (Jobs.set_status "in_progress" job)) d).
  assert (H1 : jobs d1 !! job_id = Some (Jobs.set_status "in_progress" job))
    by apply lookup_insert_eq.
  rewrite (complete_job_owned uid job_id d1 _ H1 Hown). simpl.
  set (d2 := set_jobs (insert job_id _) d1).
  assert (H2 : jobs d2 !! job_id = Some (Jobs.set_status "completed" job))
    by apply lookup_insert_eq.
  rewrite (cancel_job_owned uid job_id d2 _ H2 Hown). simpl.
  split; [reflexivity|]. unfold d2, d1. apply set_jobs_insert_twice.
Qed.

Lemma start_complete_cancel_witness :
  map code (run_job_actions [Start; Complete; Cancel] 1 4
              (Sample.one_job Sample.scheduled_job)).1 = [200; 200; 400]
  /\ (run_job_actions [Start; Complete; Cancel] 1 4 (Sample.one_job Sample.scheduled_job)).2
     = set_jobs (insert 4 (Jobs.set_status "completed" Sample.scheduled_job))
         (Sample.one_job Sample.scheduled_job).
Proof.
  apply (start_complete_cancel 1 4 (Sample.one_job Sample.scheduled_job)
           Sample.scheduled_job); reflexivity.
Defined.

(** X8.  Whatever actions (start, complete, cancel) are requested, in any
    order and number, on a job of the caller whose status is one of the four
    documented ones: the job keeps a documented status and all its other
    columns, every other row of the database is untouched, and a job that is
    ['completed'] or ['cancelled'] never leaves that status. *)
Theorem job_actions_keep_documented_status
    (actions : list job_action) (uid job_id : Z) (d : db) (job : Job.t) :
  jobs d !! job_id = Some job ->
  Job.user_id job = uid ->
  Job.status job ∈ job_statuses ->
  exists s : string,
    (run_job_actions actions uid job_id d).2
      = set_jobs (insert job_id (Jobs.set_status s job)) d
    /\ s ∈ job_statuses
    /\ (Job.status job = "completed"%string -> s = "completed"%string)
    /\ (Job.status job = "cancelled"%string -> s = "cancelled"%string).
Proof.
  revert d job. induction actions as [|a rest IH]; intros d job Hrow Hown Hdoc.
  - exists (Job.status job). simpl. rewrite set_status_same.
    split; [|auto]. unfold set_jobs. rewrite insert_id by exact Hrow. now destruct d.
  - simpl.
    destruct (run_job_action a uid job_id d) as [r d1] eqn:Hstep.
    destruct (run_job_actions rest uid job_id d1) as [rs d2] eqn:Hrest. simpl.
    pose proof (run_job_action_step a uid job_id d job Hrow Hown) as Hcase.
    rewrite Hstep in Hcase. simpl in Hcase.
    destruct Hcase as [[_ ->]|(s & _ & -> & Ha)].
    + specialize (IH d job Hrow Hown Hdoc). now rewrite Hrest in IH.
    + set (job1 := Jobs.set_status s job) in *.
      assert (Hrow1 : jobs (set_jobs (insert job_id job1) d) !! job_id = Some job1)
        by apply lookup_insert_eq.
      assert (Hdoc1 : Job.status job1 ∈ job_statuses).
      { unfold job_statuses. simpl. rewrite !elem_of_cons.
        destruct a; destruct Ha as [_ ->]; auto. }
      destruct (IH _ job1 Hrow1 Hown Hdoc1) as (s' & Hout & Hs' & Hdone & Hcancelled).
      rewrite Hrest in Hout. simpl in Hout.
      exists s'. rewrite Hout. unfold job1. rewrite set_jobs_insert_twice.
      split; [reflexivity|]. split; [exact Hs'|].
      split; intros Hst.
      * destruct a; destruct Ha as [Ha ->]; simpl in *; rewrite Hst in Ha;
          try discriminate; try contradiction; destruct Ha; discriminate.
      * destruct a; destruct Ha as [Ha ->]; simpl in *; rewrite Hst in Ha;
          try discriminate; try (destruct Ha; discriminate).
        apply Hcancelled. reflexivity.
Qed.

Lemma job_actions_keep_documented_status_witness :
  exists s : string,
    (run_job_actions [Cancel; Start; Complete] 1 4 (Sample.one_job Sample.scheduled_job)).2
      = set_jobs (insert 4 (Jobs.set_status s Sample.scheduled_job))
          (Sample.one_job Sample.scheduled_job)
    /\ s ∈ job_statuses
    /\ (Job.status Sample.scheduled_job = "completed"%string -> s = "completed"%string)
    /\ (Job.status Sample.scheduled_job = "cancelled"%string -> s = "cancelled"%string).
Proof.
  apply (job_actions_keep_documented_status [Cancel; Start; Complete] 1 4
           (Sample.one_job Sample.scheduled_job) Sample.scheduled_job);
    [reflexivity|reflexivity|].
  unfold job_statuses. rewrite !elem_of_cons. auto.
Defined.

(** ** The rows of a table, in key order *)

Section Rows.
Context {row : Type}.
Implicit Types (tbl : gmap Z row) (kv : Z * row).

Lemma elem_of_rows tbl kv : kv ∈ Query.rows tbl <-> tbl !! kv.1 = Some kv.2.
Proof. rewrite rows_Permutation. destruct kv. apply elem_of_map_to_list. Qed.

Lemma NoDup_rows tbl : NoDup (Query.rows tbl).
Proof. rewrite rows_Permutation. apply NoDup_map_to_list. Qed.

Lemma rows_sorted tbl : StronglySorted (fun a b : Z * row => (a.1 <=? b.1) = true) (Query.rows tbl).
Proof.
  apply (sort_StronglySorted (fun x y : Z * row => x.1 <=? y.1)).
  - intros x y. rewrite !Z.leb_le. lia.
  - intros x y z. rewrite !Z.leb_le. lia.
Qed.

Lemma StronglySorted_filter {A : Type} (R : relation A) (P : A -> Prop)
    `{forall x, Decision (P x)} (l : list A) :
  StronglySorted R l -> StronglySorted R (filter P l).
Proof.
  induction 1 as [|x l Hl IH Hx]; [constructor|].
  rewrite filter_cons. destruct (decide (P x)); [|exact IH].
  constructor; [exact IH|].
  apply list.Forall_forall. intros y Hy. apply list_elem_of_filter in Hy as [_ Hy].
  rewrite list.Forall_forall in Hx. auto.
Qed.

(** Two lists sorted by key with the same elements, no key twice, are the
    same list. *)
Lemma sorted_by_key_unique (l1 l2 : list (Z * row)) :
  StronglySorted (fun a b : Z * row => (a.1 <=? b.1) = true) l1 ->
  StronglySorted (fun a b : Z * row => (a.1 <=? b.1) = true) l2 ->
  (forall x y, x ∈ l1 -> y ∈ l1 -> x.1 = y.1 -> x = y) ->
  NoDup l1 -> NoDup l2 ->
  (forall x, x ∈ l1 <-> x ∈ l2) ->
  l1 = l2.
Proof.
  intros S1 S2 Hinj N1 N2 Hsame.
  eapply StronglySorted_unique_strong; [|exact S1|exact S2|now apply NoDup_Permutation].
  intros x1 x2 H1 H2 Hle Hge. apply Hinj; [exact H1|now apply Hsame|].
  apply Z.leb_le in Hle, Hge. lia.
Qed.

(** The selected rows depend only on the rows that satisfy the condition. *)
Lemma filter_rows_ext (P : Z * row -> Prop) `{forall x, Decision (P x)} tbl1 tbl2 :
  (forall k r, P (k, r) -> (tbl1 !! k = Some r <-> tbl2 !! k = Some r)) ->
  filter P (Query.rows tbl1) = filter P (Query.rows tbl2).
Proof.
  intros Hsame. apply sorted_by_key_unique.
  - apply StronglySorted_filter, rows_sorted.
  - apply StronglySorted_filter, rows_sorted.
  - intros [k r] [k' r'] Hx Hy Hk. simpl in Hk. subst k'.
    apply list_elem_of_filter in Hx as [_ Hx], Hy as [_ Hy].
    apply elem_of_rows in Hx, Hy. simpl in *. congruence.
  - apply NoDup_filter, NoDup_rows.
  - apply NoDup_filter, NoDup_rows.
  - intros [k r]. rewrite !list_elem_of_filter, !elem_of_rows. simpl.
    split; intros [HP Hrow]; (split; [exact HP|]); now apply (Hsame k r HP).
Qed.
End Rows.

Lemma rows_fmap {row row' : Type} (f : row -> row') (tbl : gmap Z row) :
  Query.rows (f <$> tbl) = (fun kv => (kv.1, f kv.2)) <$> Query.rows tbl.
Proof.
  apply sorted_by_key_unique.
  - apply rows_sorted.
  - pose proof (rows_sorted tbl) as Hs. induction Hs as [|x l Hl IH Hx]; [constructor|].
    rewrite fmap_cons. constructor; [exact IH|].
    apply list.Forall_forall. intros y Hy. apply list_elem_of_fmap in Hy as (z & -> & Hz).
    rewrite list.Forall_forall in Hx. simpl. auto.
  - intros [k r] [k' r'] Hx Hy Hk. simpl in Hk. subst k'.
    apply elem_of_rows in Hx, Hy. simpl in *. congruence.
  - apply NoDup_rows.
  - apply NoDup_fmap_2_strong; [|apply NoDup_rows].
    intros [k r] [k' r'] Hx Hy [= Hk _]. subst k'.
    apply elem_of_rows in Hx, Hy. simpl in *. congruence.
  - intros [k r']. rewrite elem_of_rows, lookup_fmap, list_elem_of_fmap. simpl.
    split.
    + destruct (tbl !! k) as [r|] eqn:Hrow; [|discriminate]. intros [= <-].
      exists (k, r). split; [reflexivity|]. now apply elem_of_rows.
    + intros ([k0 r] & [= -> ->] & Hin). apply elem_of_rows in Hin. simpl in Hin.
      now rewrite Hin.
Qed.

(** ** Accepting and rejecting a quote *)





(** ** Paid invoices *)

(** X10.  Once [mark_invoice_paid] has answered for an invoice of the
    caller, [delete_invoice] on it answers 400 ['Cannot delete paid invoice']
    and the invoice stays, whatever its status was before. *)
Theorem paid_invoice_cannot_be_deleted
    (uid invoice_id : Z) (utcnow : datetime) (d : db) (invoice : Invoice.t) :
  invoices d !! invoice_id = Some invoice ->
  Invoice.user_id invoice = uid ->
  let d1 := (Invoices.mark_invoice_paid uid invoice_id utcnow d).2 in
  Invoices.delete_invoice uid invoice_id d1
  = (Response (Error "Cannot delete paid invoice") 400, d1)
  /\ Invoice.status <$> invoices d1 !! invoice_id = Some "paid"%string.
Proof.
  intros Hrow Hown.
  rewrite (mark_invoice_paid_stamps_now uid invoice_id utcnow d invoice Hrow Hown). simpl.
  set (paid := Invoices.set_status "paid" (Some utcnow) invoice).
  assert (H1 : invoices (set_invoices (insert invoice_id paid) d) !! invoice_id = Some paid)
    by apply lookup_insert_eq.
  unfold Invoices.delete_invoice.
  rewrite (first_owned_own _ _ _ _ _ H1 Hown). simpl in *. rewrite H1. auto.
Qed.

Lemma paid_invoice_cannot_be_deleted_witness :
  let d1 := (Invoices.mark_invoice_paid 1 5 Sample.t2
               (Sample.one_invoice Sample.draft_invoice)).2 in
  Invoices.delete_invoice 1 5 d1 = (Response (Error "Cannot delete paid invoice") 400, d1)
  /\ Invoice.status <$> invoices d1 !! 5 = Some "paid"%string.
Proof.
  apply (paid_invoice_cannot_be_deleted 1 5 Sample.t2
           (Sample.one_invoice Sample.draft_invoice) Sample.draft_invoice); reflexivity.
Defined.

(** ** Overdue invoices *)

(** The reclassification applied by [get_overdue_invoices]. *)
Lemma overdue_mark_not_overdue (uid : Z) (utcnow : datetime) (invoice : Invoice.t) :
  Invoices.is_overdue uid utcnow
    (if Invoices.is_overdue uid utcnow invoice
     then Invoices.set_status "overdue" (Invoice.paid_date invoice) invoice
     else invoice) = false.
Proof.
  destruct (Invoices.is_overdue uid utcnow invoice) eqn:Hov; [|exact Hov].
  unfold Invoices.is_overdue. simpl.
  now rewrite andb_false_r.
Qed.


(** X12.  Asking again at the same time finds nothing left to reclassify:
    the second [get_overdue_invoices] lists no invoice and leaves the
    database as the first one left it. *)
Theorem overdue_invoices_are_listed_once (uid : Z) (utcnow : datetime) (d : db) :
  let d1 := (Invoices.get_overdue_invoices uid utcnow d).2 in
  Invoices.get_overdue_invoices uid utcnow d1
  = (Response (Success None (Some (InvoiceList []))) 200, d1).
Proof.
  unfold Invoices.get_overdue_invoices. simpl.
  set (mark := fun invoice : Invoice.t =>
                 if Invoices.is_overdue uid utcnow invoice
                 then Invoices.set_status "overdue" (Invoice.paid_date invoice) invoice
                 else invoice).
  assert (Hnone : filter (fun kv : Z * Invoice.t => Invoices.is_overdue uid utcnow kv.2 = true)
                    (Query.rows (mark <$> invoices d)) = []).
  { rewrite rows_fmap. induction (Query.rows (invoices d)) as [|kv l IH]; [reflexivity|].
    rewrite fmap_cons, filter_cons_False; [exact IH|].
    intros Hov. change (Invoices.is_overdue uid utcnow (mark kv.2) = true) in Hov.
    unfold mark in Hov. rewrite overdue_mark_not_overdue in Hov. discriminate. }
  rewrite Hnone. simpl. f_equal. unfold set_invoices. simpl. f_equal.
  rewrite <- map_fmap_compose. apply map_fmap_ext. intros k i _.
  change ((mark ∘ mark) i) with (mark (mark i)).
  unfold mark at 1. unfold mark. now rewrite overdue_mark_not_overdue.
Qed.

Lemma nothing_overdue_after_listing (uid : Z) (utcnow : datetime) (d : db) :
  filter (fun kv : Z * Invoice.t => Invoices.is_overdue uid utcnow kv.2 = true)
    (Query.rows (invoices (Invoices.get_overdue_invoices uid utcnow d).2)) = [].
Proof.
  unfold Invoices.get_overdue_invoices. simpl.
  set (mark := fun invoice : Invoice.t =>
                 if Invoices.is_overdue uid utcnow invoice
                 then Invoices.set_status "overdue" (Invoice.paid_date invoice) invoice
                 else invoice).
  rewrite rows_fmap. induction (Query.rows (invoices d)) as [|kv l IH]; [reflexivity|].
  rewrite fmap_cons, filter_cons_False; [exact IH|].
  intros Hov. change (Invoices.is_overdue uid utcnow (mark kv.2) = true) in Hov.
  unfold mark in Hov. rewrite overdue_mark_not_overdue in Hov. discriminate.
Qed.

Lemma dashboard_overdue_count (uid : Z) (now utcnow : datetime) (d : db)
    (stats : Dashboard.dashboard_stats) :
  Dashboard.get_dashboard_stats uid now utcnow d = Py.Ok stats ->
  Dashboard.overdue_invoices stats
  = length (filter (fun kv : Z * Invoice.t => Invoices.is_overdue uid utcnow kv.2 = true)
              (Query.rows (invoices d))).
Proof.
  unfold Dashboard.get_dashboard_stats. unfold_monad.
  repeat (step_result; try discriminate).
  intros [= <-]. reflexivity.
Qed.

(** X13.  The dashboard's overdue alert counts the invoices that
    [get_overdue_invoices] would list at the same time; once they have been
    listed, hence reclassified ['overdue'], the alert of that account is 0,
    although the invoices are still unpaid. *)
Theorem overdue_alert_forgets_listed_invoices
    (uid : Z) (now utcnow : datetime) (d : db) (before after : Dashboard.dashboard_stats) :
  Dashboard.get_dashboard_stats uid now utcnow d = Py.Ok before ->
  Dashboard.get_dashboard_stats uid now utcnow
    (Invoices.get_overdue_invoices uid utcnow d).2 = Py.Ok after ->
  Dashboard.overdue_invoices before
  = length (invoices_listed (Invoices.get_overdue_invoices uid utcnow d).1)
  /\ Dashboard.overdue_invoices after = 0%nat.
Proof.
  intros Hbefore Hafter.
  rewrite (dashboard_overdue_count _ _ _ _ _ Hbefore).
  rewrite (dashboard_overdue_count _ _ _ _ _ Hafter).
  rewrite nothing_overdue_after_listing. split; [|reflexivity].
  unfold Invoices.get_overdue_invoices, invoices_listed. simpl.
  now rewrite length_map.
Qed.


Lemma overdue_alert_forgets_listed_invoices_witness :
  exists before after : Dashboard.dashboard_stats,
    Dashboard.overdue_invoices before
    = length (invoices_listed (Invoices.get_overdue_invoices 1 Sample.t2 Sample.two_accounts).1)
    /\ Dashboard.overdue_invoices after = 0%nat.
Proof.
  destruct (Dashboard.get_dashboard_stats 1 Sample.t2 Sample.t2 Sample.two_accounts)
    as [before|e] eqn:Hbefore; [|vm_compute in Hbefore; discriminate].
  destruct (Dashboard.get_dashboard_stats 1 Sample.t2 Sample.t2
              (Invoices.get_overdue_invoices 1 Sample.t2 Sample.two_accounts).2)
    as [after|e] eqn:Hafter; [|vm_compute in Hafter; discriminate].
  exists before, after.
  exact (overdue_alert_forgets_listed_invoices 1 Sample.t2 Sample.t2 Sample.two_accounts
           before after Hbefore Hafter).
Defined.

(** ** Creation *)

Lemma next_id_above {row : Type} (tbl : gmap Z row) (k : Z) (r : row) :
  tbl !! k = Some r -> k < Query.next_id tbl.
Proof.
  intros Hrow. apply elem_of_map_to_list in Hrow. unfold Query.next_id.
  induction (map_to_list tbl) as [|[k' r'] l IH]; [now apply elem_of_nil in Hrow|].
  simpl. apply elem_of_cons in Hrow as [[= -> ->]|Hin]; [lia|].
  specialize (IH Hin). lia.
Qed.

Lemma next_id_fresh {row : Type} (tbl : gmap Z row) : tbl !! Query.next_id tbl = None.
Proof.
  destruct (tbl !! Query.next_id tbl) as [r|] eqn:Hrow; [|reflexivity].
  apply next_id_above in Hrow. lia.
Qed.

(** X14.  A quote is created only for a customer of the caller: whenever
    [create_quote] answers 201, the body named a customer that exists and
    belongs to the caller; the quote is stored under a key that was free,
    belongs to the caller, refers to that customer and starts as ['draft'];
    no existing quote, line item or other row is changed. *)
Theorem create_quote_is_sound
    (uid : Z) (data : Quotes.create_data) (now utcnow : datetime) (uuid4 : string) (d : db) :
  let out := Quotes.create_quote uid (Some data) now utcnow uuid4 d in
  code out.1 = 201 ->
  exists (quote_id customer_id : Z) (quote : Quote.t) (customer : Customer.t)
         (added : list QuoteItem.t),
    Quotes.new_customer_id data = Some customer_id
    /\ customers d !! customer_id = Some customer
    /\ Customer.user_id customer = uid
    /\ quotes d !! quote_id = None
    /\ quotes out.2 = <[quote_id := quote]> (quotes d)
    /\ Quote.user_id quote = uid
    /\ Quote.customer_id quote = customer_id
    /\ Quote.status quote = "draft"%string
    /\ Py.truthy (Quote.title quote) = true
    /\ quote_items out.2 = quote_items d ++ added
    /\ Forall (fun i => QuoteItem.quote_id i = quote_id) added
    /\ customers out.2 = customers d /\ jobs out.2 = jobs d /\ invoices out.2 = invoices d.
Proof.
  unfold Quotes.create_quote, try_except. simpl.
  destruct (Quotes.new_customer_id data) as [customer_id|]; [|simpl; discriminate].
  destruct (bool_decide (customer_id = 0)
            || negb (Py.truthy (Py.strip (default ""%string (Quotes.new_title data)))))
    eqn:Hcheck; [simpl; discriminate|].
  apply orb_false_elim in Hcheck as [_ Htitle]. apply negb_false_iff in Htitle.
  destruct (Query.first_owned Customer.user_id (customers d) customer_id uid)
    as [customer|] eqn:Hcust; [|simpl; discriminate].
  apply first_owned_inv in Hcust as [Hrow Hown].
  unfold_monad.
  destruct (DateTime.add_days utcnow 30) as [thirty|]; simpl; [|discriminate].
  destruct (Quotes.add_items _ _ _ _ _) as [[added subtotal]|] eqn:Hloop; simpl;
    [|discriminate].
  destruct (Quotes.with_totals _ subtotal) as [quote|] eqn:Htotals; simpl; [|discriminate].
  intros _.
  destruct (add_items_refines _ _ _ _ _ _ Hloop) as (lines & _ & Hrows & _).
  simpl in Hrows.
  unfold Quotes.with_totals in Htotals. unfold_monad.
  destruct (Py.div_int _ 100); simpl in Htotals; [|discriminate].
  destruct (Py.mul subtotal _); simpl in Htotals; [|discriminate].
  destruct (Py.add subtotal _); simpl in Htotals; [|discriminate].
  injection Htotals as <-.
  eexists (Query.next_id (quotes d)), customer_id, _, customer, added. simpl.
  repeat split; auto using next_id_fresh.
  rewrite Hrows. apply list.Forall_forall. intros i Hi.
  apply list_elem_of_fmap in Hi as (l & -> & _). reflexivity.
Qed.

Lemma create_quote_is_sound_witness :
  exists (quote_id customer_id : Z) (quote : Quote.t) (customer : Customer.t)
         (added : list QuoteItem.t),
    Quotes.new_customer_id Sample.scenario_A = Some customer_id
    /\ customers Sample.customers_only !! customer_id = Some customer
    /\ Customer.user_id customer = 1
    /\ quotes Sample.customers_only !! quote_id = None
    /\ quotes (Quotes.create_quote 1 (Some Sample.scenario_A) Sample.t0 Sample.t0
                 Sample.uuid4 Sample.customers_only).2
       = <[quote_id := quote]> (quotes Sample.customers_only)
    /\ Quote.user_id quote = 1
    /\ Quote.customer_id quote = customer_id
    /\ Quote.status quote = "draft"%string
    /\ Py.truthy (Quote.title quote) = true
    /\ quote_items (Quotes.create_quote 1 (Some Sample.scenario_A) Sample.t0 Sample.t0
                      Sample.uuid4 Sample.customers_only).2
       = quote_items Sample.customers_only ++ added
    /\ Forall (fun i => QuoteItem.quote_id i = quote_id) added
    /\ customers (Quotes.create_quote 1 (Some Sample.scenario_A) Sample.t0 Sample.t0
                    Sample.uuid4 Sample.customers_only).2 = customers Sample.customers_only
    /\ jobs (Quotes.create_quote 1 (Some Sample.scenario_A) Sample.t0 Sample.t0
               Sample.uuid4 Sample.customers_only).2 = jobs Sample.customers_only
    /\ invoices (Quotes.create_quote 1 (Some Sample.scenario_A) Sample.t0 Sample.t0
                   Sample.uuid4 Sample.customers_only).2 = invoices Sample.customers_only.
Proof.
  apply (create_quote_is_sound 1 Sample.scenario_A Sample.t0 Sample.t0 Sample.uuid4
           Sample.customers_only).
  vm_compute. reflexivity.
Defined.

(** X15.  A job is created only for a customer of the caller and, when the
    body names a quote, only for a quote of the caller made for that same
    customer: whenever [create_job] answers 201 both hold; the job is stored
    under a key that was free, belongs to the caller and starts as
    ['scheduled']; nothing else is changed. *)
Theorem create_job_is_sound
    (uid : Z) (data : Jobs.create_data) (now utcnow : datetime) (uuid4 : string) (d : db) :
  let out := Jobs.create_job uid (Some data) now utcnow uuid4 d in
  code out.1 = 201 ->
  exists (job_id customer_id : Z) (job : Job.t) (customer : Customer.t),
    Jobs.new_customer_id data = Some customer_id
    /\ customers d !! customer_id = Some customer
    /\ Customer.user_id customer = uid
    /\ (forall quote_id, Jobs.new_quote_id data = Some quote_id -> quote_id <> 0 ->
          exists quote, quotes d !! quote_id = Some quote
                        /\ Quote.user_id quote = uid
                        /\ Quote.customer_id quote = customer_id)
    /\ jobs d !! job_id = None
    /\ out.2 = set_jobs (insert job_id job) d
    /\ Job.user_id job = uid
    /\ Job.customer_id job = customer_id
    /\ Job.quote_id job = Jobs.new_quote_id data
    /\ Job.status job = "scheduled"%string
    /\ Py.truthy (Job.title job) = true.
Proof.
  unfold Jobs.create_job, try_except. simpl.
  destruct (Jobs.new_customer_id data) as [customer_id|]; [|simpl; discriminate].
  destruct (bool_decide (customer_id = 0)
            || negb (Py.truthy (Py.strip (default ""%string (Jobs.new_title data)))))
    eqn:Hcheck; [simpl; discriminate|].
  apply orb_false_elim in Hcheck as [_ Htitle]. apply negb_false_iff in Htitle.
  destruct (Query.first_owned Customer.user_id (customers d) customer_id uid)
    as [customer|] eqn:Hcust; [|simpl; discriminate].
  apply first_owned_inv in Hcust as [Hrow Hown].
  match goal with |- context [negb ?b] => destruct b eqn:Hquote end;
    [|simpl; discriminate].
  cbn [negb].
  assert (Hlink : forall quote_id, Jobs.new_quote_id data = Some quote_id -> quote_id <> 0 ->
            exists quote, quotes d !! quote_id = Some quote
                          /\ Quote.user_id quote = uid
                          /\ Quote.customer_id quote = customer_id).
  { intros quote_id Hq Hnz. rewrite Hq in Hquote.
    rewrite (bool_decide_eq_false_2 _ Hnz) in Hquote.
    destruct (Query.first_owned Quote.user_id (quotes d) quote_id uid) as [quote|] eqn:Hfind;
      [|discriminate].
    apply first_owned_inv in Hfind as [Hqrow Hqown].
    apply bool_decide_eq_true in Hquote. eauto. }
  unfold_monad.
  destruct (Jobs.new_scheduled_date data) as [[|[t|]]|]; simpl; try discriminate.
  all: repeat (step_result; try discriminate).
  all: intros _; eexists (Query.next_id (jobs d)), customer_id, _, customer; simpl.
  all: repeat split; auto using next_id_fresh.
Qed.

Lemma create_job_is_sound_witness :
  exists (job_id customer_id : Z) (job : Job.t) (customer : Customer.t),
    Jobs.new_customer_id Sample.job_request = Some customer_id
    /\ customers Sample.shop !! customer_id = Some customer
    /\ Customer.user_id customer = 1
    /\ (forall quote_id, Jobs.new_quote_id Sample.job_request = Some quote_id ->
          quote_id <> 0 ->
          exists quote, quotes Sample.shop !! quote_id = Some quote
                        /\ Quote.user_id quote = 1
                        /\ Quote.customer_id quote = customer_id)
    /\ jobs Sample.shop !! job_id = None
    /\ (Jobs.create_job 1 (Some Sample.job_request) Sample.t2 Sample.t2 Sample.uuid4
          Sample.shop).2 = set_jobs (insert job_id job) Sample.shop
    /\ Job.user_id job = 1
    /\ Job.customer_id job = customer_id
    /\ Job.quote_id job = Jobs.new_quote_id Sample.job_request
    /\ Job.status job = "scheduled"%string
    /\ Py.truthy (Job.title job) = true.
Proof.
  apply (create_job_is_sound 1 Sample.job_request Sample.t2 Sample.t2 Sample.uuid4
           Sample.shop).
  vm_compute. reflexivity.
Defined.

(** X16.  An invoice is created only for a customer of the caller and, when
    the body names a job, only for a job of the caller done for that same
    customer.  Whenever [create_invoice] answers 201 both hold, and the
    invoice, stored under a key that was free, is a ['draft'] without paid
    date whose amounts are floats with
    [tax_amount = subtotal * (tax_rate / 100)] and
    [total = subtotal + tax_amount]. *)
Theorem create_invoice_is_sound
    (uid : Z) (data : Invoices.create_data) (now utcnow : datetime) (uuid4 : string) (d : db) :
  let out := Invoices.create_invoice uid (Some data) now utcnow uuid4 d in
  code out.1 = 201 ->
  exists (invoice_id customer_id : Z) (invoice : Invoice.t) (customer : Customer.t)
         (subtotal tax_rate : float),
    Invoices.new_customer_id data = Some customer_id
    /\ customers d !! customer_id = Some customer
    /\ Customer.user_id customer = uid
    /\ (forall job_id, Invoices.new_job_id data = Some job_id -> job_id <> 0 ->
          exists job, jobs d !! job_id = Some job
                      /\ Job.user_id job = uid
                      /\ Job.customer_id job = customer_id)
    /\ invoices d !! invoice_id = None
    /\ out.2 = set_invoices (insert invoice_id invoice) d
    /\ Invoice.user_id invoice = uid
    /\ Invoice.customer_id invoice = customer_id
    /\ Invoice.status invoice = "draft"%string
    /\ Invoice.paid_date invoice = None
    /\ Py.to_float (default (Py.PyInt 0) (Invoices.new_subtotal data)) = Py.Ok subtotal
    /\ Py.to_float (default (Py.PyInt 0) (Invoices.new_tax_rate data)) = Py.Ok tax_rate
    /\ Invoice.subtotal invoice = Py.PyFloat subtotal
    /\ Invoice.tax_rate invoice = Py.PyFloat tax_rate
    /\ Invoice.tax_amount invoice = Py.PyFloat (subtotal * (tax_rate / 100))
    /\ Invoice.total invoice = Py.PyFloat (subtotal + subtotal * (tax_rate / 100)).
Proof.
  unfold Invoices.create_invoice, try_except. simpl.
  destruct (Invoices.new_customer_id data) as [customer_id|]; [|simpl; discriminate].
  destruct (bool_decide (customer_id = 0)); [simpl; discriminate|].
  destruct (Query.first_owned Customer.user_id (customers d) customer_id uid)
    as [customer|] eqn:Hcust; [|simpl; discriminate].
  apply first_owned_inv in Hcust as [Hrow Hown].
  match goal with |- context [negb ?b] => destruct b eqn:Hjob end;
    [|simpl; discriminate].
  cbn [negb].
  assert (Hlink : forall job_id, Invoices.new_job_id data = Some job_id -> job_id <> 0 ->
            exists job, jobs d !! job_id = Some job
                        /\ Job.user_id job = uid
                        /\ Job.customer_id job = customer_id).
  { intros job_id Hj Hnz. rewrite Hj in Hjob.
    rewrite (bool_decide_eq_false_2 _ Hnz) in Hjob.
    destruct (Query.first_owned Job.user_id (jobs d) job_id uid) as [job|] eqn:Hfind;
      [|discriminate].
    apply first_owned_inv in Hfind as [Hjrow Hjown].
    apply bool_decide_eq_true in Hjob. eauto. }
  unfold_monad.
  destruct (Py.to_float (default (Py.PyInt 0) (Invoices.new_subtotal data)))
    as [subtotal|] eqn:Hsub; simpl; [|discriminate].
  destruct (Py.to_float (default (Py.PyInt 0) (Invoices.new_tax_rate data)))
    as [tax_rate|] eqn:Hrate; simpl; [|discriminate].
  unfold Py.div_int. simpl.
  destruct (DateTime.add_days utcnow 30) as [thirty|]; simpl; [|discriminate].
  intros _.
  eexists (Query.next_id (invoices d)), customer_id, _, customer, subtotal, tax_rate. simpl.
  repeat split; auto using next_id_fresh.
Qed.

Lemma create_invoice_is_sound_witness :
  exists (invoice_id customer_id : Z) (invoice : Invoice.t) (customer : Customer.t)
         (subtotal tax_rate : float),
    Invoices.new_customer_id Sample.invoice_request = Some customer_id
    /\ customers Sample.shop !! customer_id = Some customer
    /\ Customer.user_id customer = 1
    /\ (forall job_id, Invoices.new_job_id Sample.invoice_request = Some job_id ->
          job_id <> 0 ->
          exists job, jobs Sample.shop !! job_id = Some job
                      /\ Job.user_id job = 1
                      /\ Job.customer_id job = customer_id)
    /\ invoices Sample.shop !! invoice_id = None
    /\ (Invoices.create_invoice 1 (Some Sample.invoice_request) Sample.t2 Sample.t2
          Sample.uuid4 Sample.shop).2 = set_invoices (insert invoice_id invoice) Sample.shop
    /\ Invoice.user_id invoice = 1
    /\ Invoice.customer_id invoice = customer_id
    /\ Invoice.status invoice = "draft"%string
    /\ Invoice.paid_date invoice = None
    /\ Py.to_float (default (Py.PyInt 0) (Invoices.new_subtotal Sample.invoice_request))
       = Py.Ok subtotal
    /\ Py.to_float (default (Py.PyInt 0) (Invoices.new_tax_rate Sample.invoice_request))
       = Py.Ok tax_rate
    /\ Invoice.subtotal invoice = Py.PyFloat subtotal
    /\ Invoice.tax_rate invoice = Py.PyFloat tax_rate
    /\ Invoice.tax_amount invoice = Py.PyFloat (subtotal * (tax_rate / 100))
    /\ Invoice.total invoice = Py.PyFloat (subtotal + subtotal * (tax_rate / 100)).
Proof.
  apply (create_invoice_is_sound 1 Sample.invoice_request Sample.t2 Sample.t2 Sample.uuid4
           Sample.shop).
  vm_compute. reflexivity.
Defined.

(** ** Accounts are isolated, refusals write nothing *)

Section SameElsewhere.
Context {row : Type} (owner : row -> Z) (uid : Z).

Lemma same_elsewhere_refl (tbl : gmap Z row) : same_elsewhere owner uid tbl tbl.
Proof. intros id r _. reflexivity. Qed.

Lemma same_elsewhere_insert (tbl : gmap Z row) (id : Z) (new : row) :
  (forall old, tbl !! id = Some old -> owner old = uid) -> owner new = uid ->
  same_elsewhere owner uid tbl (<[id := new]> tbl).
Proof.
  intros Hold Hnew id' r Hr. destruct (decide (id' = id)) as [->|Hne].
  - rewrite lookup_insert_eq. split.
    + intros Hrow. apply Hold in Hrow. contradiction.
    + intros [= <-]. contradiction.
  - now rewrite lookup_insert_ne.
Qed.

Lemma same_elsewhere_delete (tbl : gmap Z row) (id : Z) (old : row) :
  tbl !! id = Some old -> owner old = uid ->
  same_elsewhere owner uid tbl (delete id tbl).
Proof.
  intros Hold Hown id' r Hr. destruct (decide (id' = id)) as [->|Hne].
  - rewrite lookup_delete_eq. split; [|discriminate].
    rewrite Hold. intros [= <-]. contradiction.
  - now rewrite lookup_delete_ne.
Qed.

Lemma same_elsewhere_fmap (tbl : gmap Z row) (f : row -> row) :
  (forall r, owner (f r) = owner r) -> (forall r, owner r <> uid -> f r = r) ->
  same_elsewhere owner uid tbl (f <$> tbl).
Proof.
  intros Hkeep Hid id r Hr. rewrite lookup_fmap. split.
  - intros ->. simpl. now rewrite Hid.
  - destruct (tbl !! id) as [r0|]; simpl; [|discriminate].
    intros [= <-]. rewrite Hkeep in Hr. now rewrite Hid.
Qed.

End SameElsewhere.

Ltac isolated_parts :=
  unfold isolated; simpl;
  split; [|split; [|split; [|split]]];
  try apply same_elsewhere_refl; try (intros; reflexivity); try assumption.

Lemma isolated_refl (uid : Z) (d : db) : isolated uid d d.
Proof. isolated_parts. Qed.

Lemma isolated_customers (uid : Z) (d : db) (tbl : gmap Z Customer.t) :
  same_elsewhere Customer.user_id uid (customers d) tbl ->
  isolated uid d (set_customers (fun _ => tbl) d).
Proof. intros H. isolated_parts. Qed.

Lemma isolated_jobs (uid : Z) (d : db) (tbl : gmap Z Job.t) :
  same_elsewhere Job.user_id uid (jobs d) tbl ->
  isolated uid d (set_jobs (fun _ => tbl) d).
Proof. intros H. isolated_parts. Qed.

Lemma isolated_invoices (uid : Z) (d : db) (tbl : gmap Z Invoice.t) :
  same_elsewhere Invoice.user_id uid (invoices d) tbl ->
  isolated uid d (set_invoices (fun _ => tbl) d).
Proof. intros H. isolated_parts. Qed.

Lemma isolated_quotes (uid : Z) (d : db) (tbl : gmap Z Quote.t) (items : list QuoteItem.t) :
  same_elsewhere Quote.user_id uid (quotes d) tbl ->
  (forall quote_id quote,
     quotes d !! quote_id = Some quote -> Quote.user_id quote <> uid ->
     filter (fun i => QuoteItem.quote_id i = quote_id) items
     = filter (fun i => QuoteItem.quote_id i = quote_id) (quote_items d)) ->
  isolated uid d (set_quote_items (fun _ => items) (set_quotes (fun _ => tbl) d)).
Proof. intros H Hitems. isolated_parts. Qed.

Lemma confined_refused (uid : Z) (d : db) (r : response) : confined uid d (r, d).
Proof. split; [apply isolated_refl|reflexivity]. Qed.

Lemma confined_written (uid : Z) (d d' : db) (r : response) :
  code r = 200 \/ code r = 201 -> isolated uid d d' -> confined uid d (r, d').
Proof. intros Hcode Hiso. split; [exact Hiso|]. simpl. intros. lia. Qed.

Lemma confined_try_except (uid : Z) (d : db) (what : string)
    (r : Py.result (response * db)) :
  (forall out, r = Py.Ok out -> confined uid d out) ->
  confined uid d (try_except what d r).
Proof.
  intros H. destruct r as [out|e]; simpl; [now apply H|apply confined_refused].
Qed.

Section Writes.
Context {row : Type} (owner : row -> Z) (uid : Z).

Lemma same_elsewhere_update (tbl : gmap Z row) (id : Z) (old new : row) :
  Query.first_owned owner tbl id uid = Some old -> owner new = uid ->
  same_elsewhere owner uid tbl (<[id := new]> tbl).
Proof.
  intros Hfind Hnew. apply first_owned_inv in Hfind as [Hrow Hown].
  apply same_elsewhere_insert; [|exact Hnew]. intros old' Hold. congruence.
Qed.

Lemma same_elsewhere_remove (tbl : gmap Z row) (id : Z) (old : row) :
  Query.first_owned owner tbl id uid = Some old ->
  same_elsewhere owner uid tbl (delete id tbl).
Proof.
  intros Hfind. apply first_owned_inv in Hfind as [Hrow Hown].
  now apply same_elsewhere_delete with old.
Qed.

Lemma same_elsewhere_add (tbl : gmap Z row) (new : row) :
  owner new = uid -> same_elsewhere owner uid tbl (<[Query.next_id tbl := new]> tbl).
Proof.
  intros Hnew. apply same_elsewhere_insert; [|exact Hnew].
  intros old Hold. now rewrite next_id_fresh in Hold.
Qed.

Lemma first_owned_owner (tbl : gmap Z row) (id : Z) (r : row) :
  Query.first_owned owner tbl id uid = Some r -> owner r = uid.
Proof. intros Hfind. now apply first_owned_inv in Hfind. Qed.

End Writes.

(** The branches of a route, one goal for each answer. *)
Ltac branches :=
  unfold try_except; unfold_monad; unfold Py.bind; cbv beta zeta;
  repeat (case_match; cbv beta zeta); simplify_eq.

Ltac owned :=
  simpl;
  match goal with
  | H : Query.first_owned _ _ _ _ = Some _ |- _ =>
      solve [exact (first_owned_owner _ _ _ _ _ H)]
  | _ => reflexivity
  end.

Ltac confine :=
  first
  [ apply confined_refused
  | apply confined_written; [simpl; auto|];
    first
    [ apply isolated_customers | apply isolated_jobs | apply isolated_invoices ];
    first
    [ eapply same_elsewhere_update; [eassumption|owned]
    | eapply same_elsewhere_remove; eassumption
    | apply same_elsewhere_add; owned ] ].

Lemma get_job_confined uid id d : confined uid d (Jobs.get_job uid id d).
Proof. unfold Jobs.get_job. branches; confine. Qed.

Lemma update_job_confined uid id data d : confined uid d (Jobs.update_job uid id data d).
Proof. unfold Jobs.update_job. branches; confine. Qed.

Lemma delete_job_confined uid id d : confined uid d (Jobs.delete_job uid id d).
Proof. unfold Jobs.delete_job. branches; confine. Qed.

Lemma start_job_confined uid id d : confined uid d (Jobs.start_job uid id d).
Proof. unfold Jobs.start_job. branches; confine. Qed.

Lemma complete_job_confined uid id d : confined uid d (Jobs.complete_job uid id d).
Proof. unfold Jobs.complete_job. branches; confine. Qed.

Lemma cancel_job_confined uid id d : confined uid d (Jobs.cancel_job uid id d).
Proof. unfold Jobs.cancel_job. branches; confine. Qed.

Lemma create_job_confined uid data now utcnow uuid4 d :
  confined uid d (Jobs.create_job uid data now utcnow uuid4 d).
Proof. unfold Jobs.create_job. branches; confine. Qed.

Lemma get_customer_confined uid id d : confined uid d (Customers.get_customer uid id d).
Proof. unfold Customers.get_customer. branches; confine. Qed.

Lemma update_customer_confined uid id data d :
  confined uid d (Customers.update_customer uid id data d).
Proof. unfold Customers.update_customer. branches; confine. Qed.

Lemma delete_customer_confined uid id d : confined uid d (Customers.delete_customer uid id d).
Proof. unfold Customers.delete_customer. branches; confine. Qed.

Lemma create_customer_confined uid data utcnow d :
  confined uid d (Customers.create_customer uid data utcnow d).
Proof. unfold Customers.create_customer. branches; confine. Qed.

Lemma get_invoice_confined uid id d : confined uid d (Invoices.get_invoice uid id d).
Proof. unfold Invoices.get_invoice. branches; confine. Qed.

Lemma update_invoice_confined uid id data utcnow d :
  confined uid d (Invoices.update_invoice uid id data utcnow d).
Proof. unfold Invoices.update_invoice. branches; confine. Qed.

Lemma delete_invoice_confined uid id d : confined uid d (Invoices.delete_invoice uid id d).
Proof. unfold Invoices.delete_invoice. branches; confine. Qed.

Lemma send_invoice_confined uid id d : confined uid d (Invoices.send_invoice uid id d).
Proof. unfold Invoices.send_invoice. branches; confine. Qed.

Lemma mark_invoice_paid_confined uid id utcnow d :
  confined uid d (Invoices.mark_invoice_paid uid id utcnow d).
Proof. unfold Invoices.mark_invoice_paid. branches; confine. Qed.

Lemma create_invoice_confined uid data now utcnow uuid4 d :
  confined uid d (Invoices.create_invoice uid data now utcnow uuid4 d).
Proof. unfold Invoices.create_invoice. branches; confine. Qed.

Lemma get_overdue_invoices_confined uid utcnow d :
  confined uid d (Invoices.get_overdue_invoices uid utcnow d).
Proof.
  unfold Invoices.get_overdue_invoices, try_except.
  apply confined_written; [now left|].
  apply isolated_invoices, same_elsewhere_fmap.
  - intros i. now destruct (Invoices.is_overdue uid utcnow i).
  - intros i Hi. unfold Invoices.is_overdue.
    now rewrite (bool_decide_eq_false_2 _ Hi).
Qed.

Lemma items_filter_not_twice (quote_id : Z) (l : list QuoteItem.t) :
  filter (fun i => QuoteItem.quote_id i ≠ quote_id)
    (filter (fun i => QuoteItem.quote_id i ≠ quote_id) l)
  = filter (fun i => QuoteItem.quote_id i ≠ quote_id) l.
Proof.
  induction l as [|i l IH]; [reflexivity|].
  destruct (decide (QuoteItem.quote_id i = quote_id)) as [Heq|Hneq].
  - rewrite (filter_cons_False _ i l) by (intros H; apply H; exact Heq). exact IH.
  - rewrite (filter_cons_True _ i l) by exact Hneq.
    rewrite filter_cons_True by exact Hneq. now rewrite IH.
Qed.

Lemma items_filter_added (quote_id : Z) (added : list QuoteItem.t) :
  Forall (fun i => QuoteItem.quote_id i = quote_id) added ->
  filter (fun i => QuoteItem.quote_id i ≠ quote_id) added = [].
Proof.
  induction 1 as [|i l Hi _ IH]; [reflexivity|].
  rewrite filter_cons_False by (intros H; apply H; exact Hi). exact IH.
Qed.

Lemma add_items_quote_id (quote_id : Z) (utcnow : datetime)
    (items_data : list Quotes.item_data) (added : list QuoteItem.t) (subtotal : Py.num) :
  Quotes.add_items quote_id utcnow items_data [] (Py.PyInt 0) = Py.Ok (added, subtotal) ->
  Forall (fun i => QuoteItem.quote_id i = quote_id) added.
Proof.
  intros Hloop. destruct (add_items_refines _ _ _ _ _ _ Hloop) as (lines & _ & Hrows & _).
  simpl in Hrows. rewrite Hrows. apply list.Forall_forall. intros i Hi.
  apply list_elem_of_fmap in Hi as (l & -> & _). reflexivity.
Qed.

Lemma with_totals_owner (quote quote' : Quote.t) (subtotal : Py.num) :
  Quotes.with_totals quote subtotal = Py.Ok quote' ->
  Quote.user_id quote' = Quote.user_id quote.
Proof.
  unfold Quotes.with_totals. unfold_monad.
  destruct (Py.div_int (Quote.tax_rate quote) 100) as [rate|]; simpl; [|discriminate].
  destruct (Py.mul subtotal rate) as [tax|]; simpl; [|discriminate].
  destruct (Py.add subtotal tax) as [total|]; simpl; [|discriminate].
  now intros [= <-].
Qed.

(** A write to one quote and to its line items. *)
Lemma isolated_quote (uid : Z) (d : db) (id : Z) (tbl : gmap Z Quote.t)
    (items : list QuoteItem.t) :
  same_elsewhere Quote.user_id uid (quotes d) tbl ->
  (forall quote, quotes d !! id = Some quote -> Quote.user_id quote = uid) ->
  filter (fun i => QuoteItem.quote_id i ≠ id) items
  = filter (fun i => QuoteItem.quote_id i ≠ id) (quote_items d) ->
  isolated uid d (set_quote_items (fun _ => items) (set_quotes (fun _ => tbl) d)).
Proof.
  intros Hsame Hown Hitems. apply isolated_quotes; [exact Hsame|].
  intros quote_id quote Hrow Hother.
  assert (quote_id <> id) as Hne by (intros ->; apply Hother; now apply Hown).
  rewrite <- (items_filter_other id quote_id items Hne).
  rewrite <- (items_filter_other id quote_id (quote_items d) Hne).
  now rewrite Hitems.
Qed.

Lemma first_owned_only {row : Type} (owner : row -> Z) (uid : Z) (tbl : gmap Z row)
    (id : Z) (r : row) :
  Query.first_owned owner tbl id uid = Some r ->
  forall r', tbl !! id = Some r' -> owner r' = uid.
Proof.
  intros Hfind r' Hrow. apply first_owned_inv in Hfind as [Hr Hown]. congruence.
Qed.

Ltac confine_quote :=
  first
  [ apply confined_refused
  | apply confined_written; [simpl; auto|];
    eapply isolated_quote;
    [ first
      [ eapply same_elsewhere_update; [eassumption|]
      | eapply same_elsewhere_remove; eassumption
      | apply same_elsewhere_add ]
    | first
      [ eapply first_owned_only; eassumption
      | intros ? Hfresh; now rewrite next_id_fresh in Hfresh ]
    | ] ].

Lemma get_quote_confined uid id d : confined uid d (Quotes.get_quote uid id d).
Proof. unfold Quotes.get_quote. branches; confine. Qed.

Lemma send_quote_confined uid id d : confined uid d (Quotes.send_quote uid id d).
Proof. unfold Quotes.send_quote. branches; confine_quote; try owned; reflexivity. Qed.

Lemma accept_quote_confined uid id d : confined uid d (Quotes.accept_quote uid id d).
Proof. unfold Quotes.accept_quote. branches; confine_quote; try owned; reflexivity. Qed.

Lemma reject_quote_confined uid id d : confined uid d (Quotes.reject_quote uid id d).
Proof. unfold Quotes.reject_quote. branches; confine_quote; try owned; reflexivity. Qed.

Lemma delete_quote_confined uid id d : confined uid d (Quotes.delete_quote uid id d).
Proof.
  unfold Quotes.delete_quote. branches; confine_quote.
  simpl. apply items_filter_not_twice.
Qed.

Lemma update_quote_confined uid id data utcnow d :
  confined uid d (Quotes.update_quote uid id data utcnow d).
Proof.
  unfold Quotes.update_quote. branches; confine_quote; try owned; try reflexivity.
  all: try (match goal with
            | H : Quotes.with_totals _ _ = Py.Ok _ |- _ =>
                rewrite (with_totals_owner _ _ _ H)
            end; owned).
  all: match goal with
       | H : Quotes.add_items _ _ _ _ _ = Py.Ok _ |- _ =>
           apply add_items_quote_id, items_filter_added in H
       end.
  all: rewrite filter_app, items_filter_not_twice.
  all: match goal with H : filter _ _ = [] |- _ => rewrite H end.
  all: apply app_nil_r.
Qed.

Lemma create_quote_confined uid data now utcnow uuid4 d :
  confined uid d (Quotes.create_quote uid data now utcnow uuid4 d).
Proof.
  unfold Quotes.create_quote. branches; confine_quote.
  all: try (match goal with
            | H : Quotes.with_totals _ _ = Py.Ok _ |- _ =>
                rewrite (with_totals_owner _ _ _ H)
            end; reflexivity).
  all: match goal with
       | H : Quotes.add_items _ _ _ _ _ = Py.Ok _ |- _ =>
           apply add_items_quote_id, items_filter_added in H
       end.
  all: rewrite filter_app.
  all: match goal with H : filter _ _ = [] |- _ => rewrite H end.
  all: apply app_nil_r.
Qed.

Lemma serve_confined (uid : Z) (req : request) (d : db) : confined uid d (serve uid req d).
Proof.
  destruct req as [[]|[]]; simpl;
    auto using get_customer_confined, update_customer_confined, delete_customer_confined,
      create_customer_confined, get_quote_confined, update_quote_confined,
      delete_quote_confined, send_quote_confined, accept_quote_confined,
      reject_quote_confined, create_quote_confined, get_job_confined, update_job_confined,
      delete_job_confined, start_job_confined, complete_job_confined, cancel_job_confined,
      create_job_confined, get_invoice_confined, update_invoice_confined,
      delete_invoice_confined, send_invoice_confined, mark_invoice_paid_confined,
      create_invoice_confined, get_overdue_invoices_confined.
Qed.

(** X17.  Accounts are isolated for writing: whatever request an account
    makes, of the twenty routes of a document and the five of a collection
    that write, with whatever identifier and body, every customer, quote,
    job and invoice of another account is afterwards the row it was, no row
    of another account appears, and the line items of the quotes of the
    other accounts are the same, in the same order. *)
Theorem requests_keep_other_accounts (uid : Z) (req : request) (d : db) :
  isolated uid d (serve uid req d).2.
Proof. apply serve_confined. Qed.

(** X18.  A request that is refused writes nothing: when the answer is
    neither 200 nor 201 (a 400, a 404, or the 500 of a caught exception),
    the database is the one the request found, also when the exception
    came after the route had changed rows or replaced line items. *)
Theorem refused_requests_write_nothing (uid : Z) (req : request) (d : db) :
  code (serve uid req d).1 <> 200 -> code (serve uid req d).1 <> 201 ->
  (serve uid req d).2 = d.
Proof. apply serve_confined. Qed.

Lemma refused_requests_write_nothing_witness :
  (serve 1 (Document (Api.PUT_quote (Some Sample.items_only) Sample.t1) 3) Sample.shop).2
  = Sample.shop.
Proof.
  apply (refused_requests_write_nothing 1
           (Document (Api.PUT_quote (Some Sample.items_only) Sample.t1) 3) Sample.shop).
  - vm_compute. discriminate.
  - vm_compute. discriminate.
Defined.

(** ** The quarterly chart *)

Lemma quarter_bounds_fourth (now : datetime) :
  DateTime.month now < 10 -> Dashboard.quarter_bounds now 3 = Py.Raise Py.ValueError.
Proof.
  intros Hmonth. unfold Dashboard.quarter_bounds, DateTime.make.
  assert ((DateTime.month now - 1) / 3 * 3 + 1 - 3 * 3 < 1) as Hlt.
  { pose proof (Z.mul_div_le (DateTime.month now - 1) 3 ltac:(lia)). lia. }
  destruct (Z.leb_spec 1 ((DateTime.month now - 1) / 3 * 3 + 1 - 3 * 3)) as [Hle|_]; [lia|].
  now rewrite !andb_false_r.
Qed.

Lemma quarters_data_bounds (uid : Z) (now : datetime) (d : db) (indices : list Z)
    (data : list bucket) :
  Dashboard.quarters_data uid now d indices = Py.Ok data ->
  forall i, i ∈ indices -> exists bounds, Dashboard.quarter_bounds now i = Py.Ok bounds.
Proof.
  revert data. induction indices as [|i rest IH]; intros data Hdata j Hj.
  - now apply elem_of_nil in Hj.
  - simpl in Hdata. unfold_monad.
    destruct (Dashboard.quarter_bounds now i) as [[quarter_start quarter_end]|] eqn:Hbounds;
      simpl in Hdata; [|discriminate].
    destruct (Dashboard.revenue_between uid quarter_start quarter_end d); simpl in Hdata;
      [|discriminate].
    destruct (Dashboard.quarters_data uid now d rest) as [data'|] eqn:Hrest; simpl in Hdata;
      [|discriminate].
    apply elem_of_cons in Hj as [->|Hj]; [eauto|]. now apply (IH data').
Qed.

(** X19.  With [period=quarter] the revenue chart answers 500 during the
    first nine months of every year, whatever the invoices: the start of
    the fourth bucket is built as [datetime(year, m, 1)] with
    [m = ((month - 1) // 3) * 3 + 1 - 9], which is below 1 unless the
    current month is October or later, and the constructor raises before
    the test on [quarter_start.month] is reached. *)
Theorem quarter_chart_fails_before_october (uid : Z) (now : datetime) (d : db) :
  DateTime.month now < 10 ->
  code (Dashboard.revenue_chart uid "quarter" now d).1 = 500
  /\ (Dashboard.revenue_chart uid "quarter" now d).2 = d.
Proof.
  intros Hmonth. unfold Dashboard.revenue_chart.
  destruct (decide ("quarter" = "month")%string) as [Heq|_]; [discriminate|].
  destruct (decide ("quarter" = "quarter")%string) as [_|Hne]; [|contradiction].
  unfold_monad.
  destruct (Dashboard.quarters_data uid now d (Dashboard.range 4)) as [data|e] eqn:Hdata;
    simpl; [|split; reflexivity].
  destruct (quarters_data_bounds _ _ _ _ _ Hdata 3) as [bounds Hbounds].
  { unfold Dashboard.range. simpl. set_solver. }
  rewrite quarter_bounds_fourth in Hbounds by exact Hmonth. discriminate.
Qed.

Lemma quarter_chart_fails_before_october_witness :
  code (Dashboard.revenue_chart 1 "quarter" Sample.t2 Sample.shop).1 = 500
  /\ (Dashboard.revenue_chart 1 "quarter" Sample.t2 Sample.shop).2 = Sample.shop.
Proof.
  apply (quarter_chart_fails_before_october 1 Sample.t2 Sample.shop).
  vm_compute. reflexivity.
Defined.

(** ** Amounts read back from the database *)

(** X20.  An invoice whose amounts are the [Decimal]s the database gives
    back cannot have its subtotal or its tax rate changed alone: the body
    key becomes a [float], the other amount is still a [Decimal], and the
    recalculation multiplies one by the other, which Python refuses with
    [TypeError].  Unless the due date of the body is malformed (a 400), the
    answer is 500 and nothing is written. *)
Theorem update_invoice_one_amount_fails
    (uid invoice_id : Z) (data : Invoices.update_data) (utcnow : datetime) (d : db)
    (invoice : Invoice.t) (s r : Q) :
  invoices d !! invoice_id = Some invoice ->
  Invoice.user_id invoice = uid ->
  Invoice.subtotal invoice = Py.PyDec s ->
  Invoice.tax_rate invoice = Py.PyDec r ->
  is_Some (Invoices.subtotal data) <-> ~ is_Some (Invoices.tax_rate data) ->
  Invoices.due_date data <> Some (IsoText None) ->
  Invoices.update_invoice uid invoice_id (Some data) utcnow d
  = (Response (Failed "Failed to update invoice" Py.TypeError) 500, d)
  \/ Invoices.update_invoice uid invoice_id (Some data) utcnow d
     = (Response (Failed "Failed to update invoice" Py.OverflowError) 500, d).
Proof.
  intros Hrow Hown Hsub Hrate Hone Hdue. unfold Invoices.update_invoice.
  rewrite (first_owned_own _ _ _ _ _ Hrow Hown). unfold_monad.
  destruct (Invoices.subtotal data) as [s'|], (Invoices.tax_rate data) as [r'|].
  - exfalso. apply Hone; eauto.
  - destruct (Py.to_float s') as [f|e] eqn:Hf; simpl.
    + rewrite Hrate.
      destruct (Invoices.due_date data) as [[|[t|]]|]; simpl; now left.
    + right. destruct s' as [z|g|q]; simpl in Hf; try discriminate.
      unfold Py.float_of_int in Hf. destruct (is_infinity _); now inversion Hf.
  - rewrite Hsub. simpl.
    destruct (Py.to_float r') as [f|e] eqn:Hf; simpl.
    + assert (Py.div_int (Py.PyFloat f) 100 = Py.Ok (Py.PyFloat (f / 100))) as Hdiv
        by reflexivity.
      destruct (Invoices.due_date data) as [[|[t|]]|]; simpl; rewrite ?Hdiv; simpl;
        now left.
    + right. destruct r' as [z|g|q]; simpl in Hf; try discriminate.
      unfold Py.float_of_int in Hf. destruct (is_infinity _); now inversion Hf.
  - exfalso. assert (~ is_Some (@None Py.num)) as Hnone by (intros [? [=]]).
    apply Hone in Hnone. now destruct Hnone.
Qed.

Lemma update_invoice_one_amount_fails_witness :
  Invoices.update_invoice 1 5 (Some Sample.subtotal_only) Sample.t1 Sample.shop
  = (Response (Failed "Failed to update invoice" Py.TypeError) 500, Sample.shop)
  \/ Invoices.update_invoice 1 5 (Some Sample.subtotal_only) Sample.t1 Sample.shop
     = (Response (Failed "Failed to update invoice" Py.OverflowError) 500, Sample.shop).
Proof.
  apply (update_invoice_one_amount_fails 1 5 Sample.subtotal_only Sample.t1 Sample.shop
           Sample.draft_invoice (Qmake 20000 100) (Qmake 82500 10000)).
  - reflexivity.
  - reflexivity.
  - reflexivity.
  - reflexivity.
  - split.
    + intros _ [r [=]].
    + intros _. now exists (Py.PyInt 300).
  - discriminate.
Defined.





(** ** The dashboard reads the rows of the caller *)












(** ** The yearly chart *)

(** A moment of 31 December after midnight lies in no bucket of the yearly
    chart: the bucket of its year ends at [datetime(year, 12, 31)]. *)
Lemma new_years_eve_in_no_year (uid y : Z) (lo hi : datetime) (invoice : Invoice.t)
    (t : datetime) :
  DateTime.make y 1 1 = Py.Ok lo -> DateTime.make y 12 31 = Py.Ok hi ->
  Invoice.paid_date invoice = Some t ->
  DateTime.month t = 12 -> DateTime.day t = 31 ->
  0 <= DateTime.hour t -> 0 <= DateTime.minute t -> 0 <= DateTime.second t ->
  0 <= DateTime.microsecond t ->
  0 < DateTime.hour t + DateTime.minute t + DateTime.second t + DateTime.microsecond t ->
  Dashboard.paid_between uid lo hi invoice = false.
Proof.
  intros Hlo Hhi Hpaid Hm Hd Hh Hmin Hs Hus Hpos.
  unfold DateTime.make in Hlo, Hhi.
  destruct ((1 <=? y) && (y <=? 9999) && (1 <=? 1) && (1 <=? 12) && (1 <=? 1)
            && (1 <=? DateTime.days_in_month y 1)); [|discriminate].
  destruct ((1 <=? y) && (y <=? 9999) && (1 <=? 12) && (12 <=? 12) && (1 <=? 31)
            && (31 <=? DateTime.days_in_month y 12)); [|discriminate].
  injection Hlo as <-. injection Hhi as <-.
  unfold Dashboard.paid_between. rewrite Hpaid.
  apply andb_false_iff. right.
  unfold DateTime.leb, DateTime.compare, DateTime.fields. simpl. rewrite Hm, Hd.
  destruct (Z.compare_spec y (DateTime.year t)) as [Hy|Hy|Hy]; simpl.
  - subst y. rewrite Z.compare_refl. simpl.
    destruct (Z.compare_spec (DateTime.hour t) 0); [|lia|reflexivity].
    destruct (Z.compare_spec (DateTime.minute t) 0); [|lia|reflexivity].
    destruct (Z.compare_spec (DateTime.second t) 0); [|lia|reflexivity].
    destruct (Z.compare_spec (DateTime.microsecond t) 0); [lia|lia|reflexivity].
  - destruct (Z.compare_spec (DateTime.year t) y); [lia|lia|reflexivity].
  - reflexivity.
Qed.

Lemma revenue_between_without (uid : Z) (lo hi : datetime) (d : db) (id : Z)
    (invoice : Invoice.t) :
  invoices d !! id = Some invoice ->
  Dashboard.paid_between uid lo hi invoice = false ->
  Dashboard.revenue_between uid lo hi (set_invoices (delete id) d)
  = Dashboard.revenue_between uid lo hi d.
Proof.
  intros Hrow Hout. unfold Dashboard.revenue_between. simpl.
  rewrite (filter_rows_ext (fun kv => Dashboard.paid_between uid lo hi kv.2 = true)
             (delete id (invoices d)) (invoices d)); [reflexivity|].
  intros k r Hr. simpl in Hr. destruct (decide (k = id)) as [->|Hne].
  - rewrite lookup_delete_eq, Hrow. split; [discriminate|]. intros [= <-]. congruence.
  - now rewrite lookup_delete_ne.
Qed.

(** X23.  The yearly chart leaves out what is paid on 31 December after
    midnight: the bucket of a year ends at [datetime(year, 12, 31)], the
    first instant of that day, so an invoice paid later on that day is
    counted in no year, and the chart is the one the database without that
    invoice gives. *)
Theorem year_chart_misses_new_years_eve
    (uid : Z) (period : string) (now : datetime) (d : db) (id : Z) (invoice : Invoice.t)
    (t : datetime) :
  period <> "month"%string -> period <> "quarter"%string ->
  invoices d !! id = Some invoice ->
  Invoice.paid_date invoice = Some t ->
  DateTime.month t = 12 -> DateTime.day t = 31 ->
  0 <= DateTime.hour t -> 0 <= DateTime.minute t -> 0 <= DateTime.second t ->
  0 <= DateTime.microsecond t ->
  0 < DateTime.hour t + DateTime.minute t + DateTime.second t + DateTime.microsecond t ->
  (Dashboard.revenue_chart uid period now d).1
  = (Dashboard.revenue_chart uid period now (set_invoices (delete id) d)).1.
Proof.
  intros Hmonth Hquarter Hrow Hpaid Hm Hd Hh Hmin Hs Hus Hpos.
  unfold Dashboard.revenue_chart.
  destruct (decide (period = "month"%string)); [contradiction|].
  destruct (decide (period = "quarter"%string)); [contradiction|].
  assert (forall indices,
            Dashboard.years_data uid now (set_invoices (delete id) d) indices
            = Dashboard.years_data uid now d indices) as Hsame.
  { induction indices as [|i rest IH]; [reflexivity|]. simpl. rewrite IH. unfold_monad.
    destruct (DateTime.make (DateTime.year now - i) 1 1) as [lo|] eqn:Hlo; simpl;
      [|reflexivity].
    destruct (DateTime.make (DateTime.year now - i) 12 31) as [hi|] eqn:Hhi; simpl;
      [|reflexivity].
    rewrite (revenue_between_without uid lo hi d id invoice Hrow); [reflexivity|].
    now apply (new_years_eve_in_no_year uid (DateTime.year now - i) lo hi invoice t). }
  rewrite Hsame. unfold_monad.
  now destruct (Dashboard.years_data uid now d (Dashboard.range 3)).
Qed.

Lemma year_chart_misses_new_years_eve_witness :
  (Dashboard.revenue_chart 1 "year" Sample.t2
     (Sample.one_invoice Sample.new_years_eve_invoice)).1
  = (Dashboard.revenue_chart 1 "year" Sample.t2
       (set_invoices (delete 5) (Sample.one_invoice Sample.new_years_eve_invoice))).1.
Proof.
  apply (year_chart_misses_new_years_eve 1 "year" Sample.t2
           (Sample.one_invoice Sample.new_years_eve_invoice) 5
           Sample.new_years_eve_invoice (mk_datetime 2024 12 31 15 0 0 0)).
  - discriminate.
  - discriminate.
  - reflexivity.
  - reflexivity.
  - reflexivity.
  - reflexivity.
  - simpl. lia.
  - simpl. lia.
  - simpl. lia.
  - simpl. lia.
  - simpl. lia.
Defined.

(** ** The writes of the routes *)

Lemma with_totals_row (quote quote' : Quote.t) (subtotal : Py.num) :
  Quotes.with_totals quote subtotal = Py.Ok quote' ->
  exists tax_amount total : Py.num,
    quote' = Quote.mk (Quote.user_id quote) (Quote.customer_id quote)
               (Quote.quote_number quote) (Quote.title quote) (Quote.description quote)
               subtotal (Quote.tax_rate quote) tax_amount total
               (Quote.status quote) (Quote.valid_until quote) (Quote.notes quote)
               (Quote.created_at quote).
Proof.
  unfold Quotes.with_totals. unfold_monad.
  destruct (Py.div_int (Quote.tax_rate quote) 100) as [rate|]; simpl; [|discriminate].
  destruct (Py.mul subtotal rate) as [tax|]; simpl; [|discriminate].
  destruct (Py.add subtotal tax) as [total|]; simpl; [|discriminate].
  intros [= <-]. eauto.
Qed.

Ltac totals :=
  repeat match goal with
         | H : Quotes.with_totals _ _ = Py.Ok _ |- _ =>
             apply with_totals_row in H as (? & ? & ->)
         end.

Ltac filled :=
  simpl;
  first [ left; reflexivity | right; assumption ].

Ltac linked :=
  unfold has_customer, follows_quote, bills_job; simpl;
  repeat match goal with
         | H : Query.first_owned _ _ _ _ = _ |- _ => rewrite H
         | H : bool_decide _ = _ |- _ => rewrite H
         end;
  simpl; try reflexivity.

Ltac facts :=
  repeat match goal with
         | H : _ || _ = false |- _ => apply orb_false_elim in H as [? ?]
         | H : negb _ = false |- _ => apply negb_false_iff in H
         | H : negb _ = true |- _ => apply negb_true_iff in H
         end.

Ltac still_dated :=
  unfold dated; simpl; intros;
  first [ now eauto | discriminate | contradiction | congruence ].

Ltac effect_of_route :=
  totals; facts;
  first
  [ solve [ apply Nothing ]
  | solve [ eapply PutCustomer; [eassumption|reflexivity|filled] ]
  | solve [ eapply AddCustomer; [reflexivity|simpl; assumption] ]
  | solve [ eapply DeleteCustomer; eassumption ]
  | solve [ eapply PutQuote; [eassumption|reflexivity|filled] ]
  | solve [ eapply PutQuoteItems;
            [eassumption|reflexivity|filled|eapply add_items_quote_id; eassumption] ]
  | solve [ eapply AddQuote;
            [reflexivity|linked|simpl; assumption|eapply add_items_quote_id; eassumption] ]
  | solve [ eapply DeleteQuote; eassumption ]
  | solve [ eapply PutJob; [eassumption|reflexivity|filled] ]
  | solve [ eapply AddJob; [reflexivity|linked|linked|simpl; assumption] ]
  | solve [ eapply DeleteJob; eassumption ]
  | solve [ eapply PutInvoice; [eassumption|reflexivity|still_dated] ]
  | solve [ eapply AddInvoice; [reflexivity|linked|linked|still_dated] ]
  | solve [ eapply DeleteInvoice; eassumption ] ].

Lemma get_job_effect uid id d : effect uid d (Jobs.get_job uid id d).2.
Proof. unfold Jobs.get_job. branches; effect_of_route. Qed.

Lemma update_job_effect uid id data d : effect uid d (Jobs.update_job uid id data d).2.
Proof. unfold Jobs.update_job. branches; effect_of_route. Qed.

Lemma delete_job_effect uid id d : effect uid d (Jobs.delete_job uid id d).2.
Proof. unfold Jobs.delete_job. branches; effect_of_route. Qed.

Lemma start_job_effect uid id d : effect uid d (Jobs.start_job uid id d).2.
Proof. unfold Jobs.start_job. branches; effect_of_route. Qed.

Lemma complete_job_effect uid id d : effect uid d (Jobs.complete_job uid id d).2.
Proof. unfold Jobs.complete_job. branches; effect_of_route. Qed.

Lemma cancel_job_effect uid id d : effect uid d (Jobs.cancel_job uid id d).2.
Proof. unfold Jobs.cancel_job. branches; effect_of_route. Qed.

Lemma create_job_effect uid data now utcnow uuid4 d :
  effect uid d (Jobs.create_job uid data now utcnow uuid4 d).2.
Proof. unfold Jobs.create_job. branches; effect_of_route. Qed.

Lemma get_customer_effect uid id d : effect uid d (Customers.get_customer uid id d).2.
Proof. unfold Customers.get_customer. branches; effect_of_route. Qed.

Lemma update_customer_effect uid id data d :
  effect uid d (Customers.update_customer uid id data d).2.
Proof. unfold Customers.update_customer. branches; effect_of_route. Qed.

Lemma delete_customer_effect uid id d : effect uid d (Customers.delete_customer uid id d).2.
Proof. unfold Customers.delete_customer. branches; effect_of_route. Qed.

Lemma create_customer_effect uid data utcnow d :
  effect uid d (Customers.create_customer uid data utcnow d).2.
Proof. unfold Customers.create_customer. branches; effect_of_route. Qed.

Lemma get_invoice_effect uid id d : effect uid d (Invoices.get_invoice uid id d).2.
Proof. unfold Invoices.get_invoice. branches; effect_of_route. Qed.

Lemma update_invoice_effect uid id data utcnow d :
  effect uid d (Invoices.update_invoice uid id data utcnow d).2.
Proof. unfold Invoices.update_invoice. branches; effect_of_route. Qed.

Lemma delete_invoice_effect uid id d : effect uid d (Invoices.delete_invoice uid id d).2.
Proof. unfold Invoices.delete_invoice. branches; effect_of_route. Qed.

Lemma send_invoice_effect uid id d : effect uid d (Invoices.send_invoice uid id d).2.
Proof. unfold Invoices.send_invoice. branches; effect_of_route. Qed.

Lemma mark_invoice_paid_effect uid id utcnow d :
  effect uid d (Invoices.mark_invoice_paid uid id utcnow d).2.
Proof. unfold Invoices.mark_invoice_paid. branches; effect_of_route. Qed.

Lemma create_invoice_effect uid data now utcnow uuid4 d :
  effect uid d (Invoices.create_invoice uid data now utcnow uuid4 d).2.
Proof. unfold Invoices.create_invoice. branches; effect_of_route. Qed.

Lemma get_overdue_invoices_effect uid utcnow d :
  effect uid d (Invoices.get_overdue_invoices uid utcnow d).2.
Proof.
  unfold Invoices.get_overdue_invoices, try_except. simpl.
  apply MarkInvoices; intros i; destruct (Invoices.is_overdue uid utcnow i);
    trivial; still_dated.
Qed.

Lemma get_quote_effect uid id d : effect uid d (Quotes.get_quote uid id d).2.
Proof. unfold Quotes.get_quote. branches; effect_of_route. Qed.

Lemma update_quote_effect uid id data utcnow d :
  effect uid d (Quotes.update_quote uid id data utcnow d).2.
Proof. unfold Quotes.update_quote. branches; effect_of_route. Qed.

Lemma delete_quote_effect uid id d : effect uid d (Quotes.delete_quote uid id d).2.
Proof. unfold Quotes.delete_quote. branches; effect_of_route. Qed.

Lemma send_quote_effect uid id d : effect uid d (Quotes.send_quote uid id d).2.
Proof. unfold Quotes.send_quote. branches; effect_of_route. Qed.

Lemma accept_quote_effect uid id d : effect uid d (Quotes.accept_quote uid id d).2.
Proof. unfold Quotes.accept_quote. branches; effect_of_route. Qed.

Lemma reject_quote_effect uid id d : effect uid d (Quotes.reject_quote uid id d).2.
Proof. unfold Quotes.reject_quote. branches; effect_of_route. Qed.

Lemma create_quote_effect uid data now utcnow uuid4 d :
  effect uid d (Quotes.create_quote uid data now utcnow uuid4 d).2.
Proof. unfold Quotes.create_quote. branches; effect_of_route. Qed.

Lemma serve_effect (uid : Z) (req : request) (d : db) : effect uid d (serve uid req d).2.
Proof.
  destruct req as [[]|[]]; cbn [serve Api.dispatch Collection.dispatch].
  - apply get_customer_effect.
  - apply update_customer_effect.
  - apply delete_customer_effect.
  - apply get_quote_effect.
  - apply update_quote_effect.
  - apply delete_quote_effect.
  - apply send_quote_effect.
  - apply accept_quote_effect.
  - apply reject_quote_effect.
  - apply get_job_effect.
  - apply update_job_effect.
  - apply delete_job_effect.
  - apply start_job_effect.
  - apply complete_job_effect.
  - apply cancel_job_effect.
  - apply get_invoice_effect.
  - apply update_invoice_effect.
  - apply delete_invoice_effect.
  - apply send_invoice_effect.
  - apply mark_invoice_paid_effect.
  - apply create_customer_effect.
  - apply create_quote_effect.
  - apply create_job_effect.
  - apply create_invoice_effect.
  - apply get_overdue_invoices_effect.
Qed.

(** ** Invariants of the database *)

Section Found.
Context {row : Type} (owner : row -> Z) (p : row -> bool).

(** A reference that is found with a property, as the link checks of the
    routes look it up, after a write to the table. *)
Lemma found_put (tbl : gmap Z row) (id uid : Z) (old new : row) (ref u : Z) :
  Query.first_owned owner tbl id uid = Some old ->
  owner new = owner old -> p new = p old ->
  match Query.first_owned owner tbl ref u with Some r => p r | None => false end = true ->
  match Query.first_owned owner (<[id := new]> tbl) ref u with
  | Some r => p r
  | None => false
  end = true.
Proof.
  intros Hold Ho Hp. apply first_owned_inv in Hold as [Hrow Hown].
  unfold Query.first_owned. destruct (decide (ref = id)) as [->|Hne].
  - rewrite lookup_insert_eq, Hrow, Ho.
    destruct (decide (owner old = u)); [now rewrite Hp|trivial].
  - now rewrite lookup_insert_ne.
Qed.

Lemma found_add (tbl : gmap Z row) (new : row) (ref u : Z) :
  match Query.first_owned owner tbl ref u with Some r => p r | None => false end = true ->
  match Query.first_owned owner (<[Query.next_id tbl := new]> tbl) ref u with
  | Some r => p r
  | None => false
  end = true.
Proof.
  unfold Query.first_owned. destruct (decide (ref = Query.next_id tbl)) as [->|Hne].
  - now rewrite next_id_fresh.
  - now rewrite lookup_insert_ne.
Qed.

Lemma found_delete (tbl : gmap Z row) (id ref u : Z) :
  ref <> id ->
  match Query.first_owned owner tbl ref u with Some r => p r | None => false end = true ->
  match Query.first_owned owner (delete id tbl) ref u with
  | Some r => p r
  | None => false
  end = true.
Proof. intros Hne. unfold Query.first_owned. now rewrite lookup_delete_ne. Qed.

Lemma found_fmap (tbl : gmap Z row) (f : row -> row) (ref u : Z) :
  (forall r, owner (f r) = owner r) -> (forall r, p (f r) = p r) ->
  match Query.first_owned owner tbl ref u with Some r => p r | None => false end = true ->
  match Query.first_owned owner (f <$> tbl) ref u with
  | Some r => p r
  | None => false
  end = true.
Proof.
  intros Ho Hp. unfold Query.first_owned. rewrite lookup_fmap.
  destruct (tbl !! ref) as [r|]; simpl; [|trivial]. rewrite Ho.
  destruct (decide (owner r = u)); [|trivial]. now rewrite Hp.
Qed.

End Found.

(** The three link checks, after a write to the table they read. *)
Lemma has_customer_put (d : db) (id uid : Z) (old new : Customer.t) (u c : Z) :
  Query.first_owned Customer.user_id (customers d) id uid = Some old ->
  fixed_of_customer new = fixed_of_customer old ->
  has_customer u c d = true -> has_customer u c (set_customers (insert id new) d) = true.
Proof.
  intros Hold [= Ho _]. unfold has_customer. simpl.
  now apply (found_put Customer.user_id (fun _ => true) _ id uid old new).
Qed.

Lemma has_customer_add (d : db) (new : Customer.t) (u c : Z) :
  has_customer u c d = true ->
  has_customer u c (set_customers (insert (Query.next_id (customers d)) new) d) = true.
Proof. unfold has_customer. simpl. apply (found_add Customer.user_id (fun _ => true)). Qed.

Lemma has_customer_delete (d : db) (id u c : Z) :
  c <> id -> has_customer u c d = true ->
  has_customer u c (set_customers (delete id) d) = true.
Proof. unfold has_customer. simpl. apply (found_delete Customer.user_id (fun _ => true)). Qed.

Lemma follows_quote_put (d : db) (id uid : Z) (old new : Quote.t) (j : Job.t) :
  Query.first_owned Quote.user_id (quotes d) id uid = Some old ->
  fixed_of_quote new = fixed_of_quote old ->
  follows_quote j d = true -> follows_quote j (set_quotes (insert id new) d) = true.
Proof.
  intros Hold [= Ho Hc _ _]. unfold follows_quote. simpl.
  destruct (Job.quote_id j) as [ref|]; [|trivial].
  destruct (bool_decide (ref = 0)); [trivial|]. simpl.
  apply (found_put Quote.user_id
           (fun q => bool_decide (Quote.customer_id q = Job.customer_id j)) _ id uid old new);
    [exact Hold|exact Ho|now rewrite Hc].
Qed.

Lemma follows_quote_add (d : db) (new : Quote.t) (j : Job.t) :
  follows_quote j d = true ->
  follows_quote j (set_quotes (insert (Query.next_id (quotes d)) new) d) = true.
Proof.
  unfold follows_quote. simpl. destruct (Job.quote_id j) as [ref|]; [|trivial].
  destruct (bool_decide (ref = 0)); [trivial|]. simpl.
  apply (found_add Quote.user_id
           (fun q => bool_decide (Quote.customer_id q = Job.customer_id j))).
Qed.

Lemma follows_quote_delete (d : db) (id : Z) (j : Job.t) :
  Job.quote_id j <> Some id ->
  follows_quote j d = true -> follows_quote j (set_quotes (delete id) d) = true.
Proof.
  intros Hne. unfold follows_quote. simpl. destruct (Job.quote_id j) as [ref|]; [|trivial].
  destruct (bool_decide (ref = 0)); [trivial|]. simpl.
  apply (found_delete Quote.user_id
           (fun q => bool_decide (Quote.customer_id q = Job.customer_id j))).
  congruence.
Qed.

Lemma bills_job_put (d : db) (id uid : Z) (old new : Job.t) (i : Invoice.t) :
  Query.first_owned Job.user_id (jobs d) id uid = Some old ->
  fixed_of_job new = fixed_of_job old ->
  bills_job i d = true -> bills_job i (set_jobs (insert id new) d) = true.
Proof.
  intros Hold [= Ho Hc _ _ _]. unfold bills_job. simpl.
  destruct (Invoice.job_id i) as [ref|]; [|trivial].
  destruct (bool_decide (ref = 0)); [trivial|]. simpl.
  apply (found_put Job.user_id
           (fun j => bool_decide (Job.customer_id j = Invoice.customer_id i)) _ id uid old new);
    [exact Hold|exact Ho|now rewrite Hc].
Qed.

Lemma bills_job_add (d : db) (new : Job.t) (i : Invoice.t) :
  bills_job i d = true ->
  bills_job i (set_jobs (insert (Query.next_id (jobs d)) new) d) = true.
Proof.
  unfold bills_job. simpl. destruct (Invoice.job_id i) as [ref|]; [|trivial].
  destruct (bool_decide (ref = 0)); [trivial|]. simpl.
  apply (found_add Job.user_id
           (fun j => bool_decide (Job.customer_id j = Invoice.customer_id i))).
Qed.

Lemma bills_job_delete (d : db) (id : Z) (i : Invoice.t) :
  Invoice.job_id i <> Some id ->
  bills_job i d = true -> bills_job i (set_jobs (delete id) d) = true.
Proof.
  intros Hne. unfold bills_job. simpl. destruct (Invoice.job_id i) as [ref|]; [|trivial].
  destruct (bool_decide (ref = 0)); [trivial|]. simpl.
  apply (found_delete Job.user_id
           (fun j => bool_decide (Job.customer_id j = Invoice.customer_id i))).
  congruence.
Qed.

Lemma follows_quote_fixed (d : db) (old new : Job.t) :
  fixed_of_job new = fixed_of_job old -> follows_quote new d = follows_quote old d.
Proof. intros [= Ho Hc Hq _ _]. unfold follows_quote. now rewrite Ho, Hc, Hq. Qed.

Lemma bills_job_fixed (d : db) (old new : Invoice.t) :
  fixed_of_invoice new = fixed_of_invoice old -> bills_job new d = bills_job old d.
Proof. intros [= Ho Hc Hj _ _]. unfold bills_job. now rewrite Ho, Hc, Hj. Qed.

Lemma items_kept (tbl : gmap Z Quote.t) (id : Z) (new : Quote.t) (items : list QuoteItem.t) :
  Forall (fun i => is_Some (tbl !! QuoteItem.quote_id i)) items ->
  Forall (fun i => is_Some (<[id := new]> tbl !! QuoteItem.quote_id i)) items.
Proof.
  intros Hitems. eapply list.Forall_impl; [exact Hitems|]. simpl.
  intros i Hi. apply lookup_insert_is_Some.
  destruct (decide (id = QuoteItem.quote_id i)); auto.
Qed.

Lemma items_added (tbl : gmap Z Quote.t) (id : Z) (new : Quote.t) (added : list QuoteItem.t) :
  Forall (fun i => QuoteItem.quote_id i = id) added ->
  Forall (fun i => is_Some (<[id := new]> tbl !! QuoteItem.quote_id i)) added.
Proof.
  intros Hadded. eapply list.Forall_impl; [exact Hadded|]. simpl.
  intros i ->. rewrite lookup_insert_eq. eauto.
Qed.

Lemma items_of_others (tbl : gmap Z Quote.t) (id : Z) (items : list QuoteItem.t) :
  Forall (fun i => is_Some (tbl !! QuoteItem.quote_id i)) items ->
  Forall (fun i => is_Some (tbl !! QuoteItem.quote_id i))
    (filter (fun i => QuoteItem.quote_id i ≠ id) items).
Proof.
  intros Hitems. apply list.Forall_forall. intros i Hi.
  apply list_elem_of_filter in Hi as [_ Hi].
  exact (proj1 (list.Forall_forall _ _) Hitems i Hi).
Qed.

Lemma items_after_delete (tbl : gmap Z Quote.t) (id : Z) (items : list QuoteItem.t) :
  Forall (fun i => is_Some (tbl !! QuoteItem.quote_id i)) items ->
  Forall (fun i => is_Some (delete id tbl !! QuoteItem.quote_id i))
    (filter (fun i => QuoteItem.quote_id i ≠ id) items).
Proof.
  intros Hitems. apply list.Forall_forall. intros i Hi.
  apply list_elem_of_filter in Hi as [Hne Hi]. rewrite lookup_delete_ne by congruence.
  exact (proj1 (list.Forall_forall _ _) Hitems i Hi).
Qed.

Ltac links := split; [|split; [|split]].

(** The links hold after each of the writes. *)
Lemma effect_consistent (uid : Z) (d d' : db) :
  effect uid d d' -> consistent d -> consistent d'.
Proof.
  intros Heffect (Hq & Hj & Hi & Hitems).
  destruct Heffect as
    [ | id old new Hold Hfixed _ | new _ _ | id old Hold Hnq Hnj Hni
      | id old new Hold Hfixed _ | id old new added Hold Hfixed _ Hadded
      | new added Hown Hcustomer _ Hadded | id old Hold Hnj
      | id old new Hold Hfixed _ | new Hown Hcustomer Hquote _ | id old Hold Hni
      | id old new Hold Hfixed _ | new Hown Hcustomer Hjob _ | id old Hold
      | mark Hmark _ ];
    unfold consistent; simpl.
  - (* Nothing *) auto.
  - (* PutCustomer *)
    links; [| | |exact Hitems].
    + intros k q Hk. apply (has_customer_put d id uid old new _ _ Hold Hfixed), (Hq k q Hk).
    + intros k j Hk. destruct (Hj k j Hk) as [Hc Hf]. split; [|exact Hf].
      now apply (has_customer_put d id uid old new _ _ Hold Hfixed).
    + intros k i Hk. destruct (Hi k i Hk) as [Hc Hb]. split; [|exact Hb].
      now apply (has_customer_put d id uid old new _ _ Hold Hfixed).
  - (* AddCustomer *)
    links; [| | |exact Hitems].
    + intros k q Hk. apply has_customer_add, (Hq k q Hk).
    + intros k j Hk. destruct (Hj k j Hk) as [Hc Hf]. split; [|exact Hf].
      now apply has_customer_add.
    + intros k i Hk. destruct (Hi k i Hk) as [Hc Hb]. split; [|exact Hb].
      now apply has_customer_add.
  - (* DeleteCustomer *)
    rewrite any_row_false in Hnq. rewrite any_row_false in Hnj. rewrite any_row_false in Hni.
    links; [| | |exact Hitems].
    + intros k q Hk. apply has_customer_delete; [|exact (Hq k q Hk)].
      exact (proj1 (bool_decide_eq_false _) (Hnq k q Hk)).
    + intros k j Hk. destruct (Hj k j Hk) as [Hc Hf]. split; [|exact Hf].
      apply has_customer_delete; [|exact Hc].
      exact (proj1 (bool_decide_eq_false _) (Hnj k j Hk)).
    + intros k i Hk. destruct (Hi k i Hk) as [Hc Hb]. split; [|exact Hb].
      apply has_customer_delete; [|exact Hc].
      exact (proj1 (bool_decide_eq_false _) (Hni k i Hk)).
  - (* PutQuote *)
    links; [| |exact Hi|now apply items_kept].
    + apply map_Forall_insert_2; [|exact Hq].
      injection Hfixed as -> -> _ _. apply first_owned_inv in Hold as [Hrow _].
      exact (Hq id old Hrow).
    + intros k j Hk. destruct (Hj k j Hk) as [Hc Hf]. split; [exact Hc|].
      now apply (follows_quote_put d id uid old new).
  - (* PutQuoteItems *)
    links; [| |exact Hi|].
    + apply map_Forall_insert_2; [|exact Hq].
      injection Hfixed as -> -> _ _. apply first_owned_inv in Hold as [Hrow _].
      exact (Hq id old Hrow).
    + intros k j Hk. destruct (Hj k j Hk) as [Hc Hf]. split; [exact Hc|].
      now apply (follows_quote_put d id uid old new).
    + apply Forall_app. split; [|now apply items_added].
      now apply items_kept, items_of_others.
  - (* AddQuote *)
    links; [| |exact Hi|].
    + apply map_Forall_insert_2; [|exact Hq]. rewrite Hown. exact Hcustomer.
    + intros k j Hk. destruct (Hj k j Hk) as [Hc Hf]. split; [exact Hc|].
      now apply follows_quote_add.
    + apply Forall_app. split; [now apply items_kept|now apply items_added].
  - (* DeleteQuote *)
    rewrite any_row_false in Hnj.
    links; [| |exact Hi|now apply items_after_delete].
    + now apply map_Forall_delete.
    + intros k j Hk. destruct (Hj k j Hk) as [Hc Hf]. split; [exact Hc|].
      apply follows_quote_delete; [|exact Hf].
      exact (proj1 (bool_decide_eq_false _) (Hnj k j Hk)).
  - (* PutJob *)
    links; [exact Hq| | |exact Hitems].
    + apply map_Forall_insert_2; [|exact Hj].
      apply first_owned_inv in Hold as [Hrow _]. destruct (Hj id old Hrow) as [Hc Hf].
      split; [|exact (eq_trans (follows_quote_fixed d old new Hfixed) Hf)].
      injection Hfixed as -> -> _ _ _. exact Hc.
    + intros k i Hk. destruct (Hi k i Hk) as [Hc Hb]. split; [exact Hc|].
      now apply (bills_job_put d id uid old new).
  - (* AddJob *)
    links; [exact Hq| | |exact Hitems].
    + apply map_Forall_insert_2; [|exact Hj]. rewrite Hown. now split.
    + intros k i Hk. destruct (Hi k i Hk) as [Hc Hb]. split; [exact Hc|].
      now apply bills_job_add.
  - (* DeleteJob *)
    rewrite any_row_false in Hni.
    links; [exact Hq| | |exact Hitems].
    + now apply map_Forall_delete.
    + intros k i Hk. destruct (Hi k i Hk) as [Hc Hb]. split; [exact Hc|].
      apply bills_job_delete; [|exact Hb].
      exact (proj1 (bool_decide_eq_false _) (Hni k i Hk)).
  - (* PutInvoice *)
    links; [exact Hq|exact Hj| |exact Hitems].
    apply map_Forall_insert_2; [|exact Hi].
    apply first_owned_inv in Hold as [Hrow _]. destruct (Hi id old Hrow) as [Hc Hb].
    split; [|exact (eq_trans (bills_job_fixed d old new Hfixed) Hb)].
    injection Hfixed as -> -> _ _ _. exact Hc.
  - (* AddInvoice *)
    links; [exact Hq|exact Hj| |exact Hitems].
    apply map_Forall_insert_2; [|exact Hi]. rewrite Hown. now split.
  - (* DeleteInvoice *)
    links; [exact Hq|exact Hj| |exact Hitems]. now apply map_Forall_delete.
  - (* MarkInvoices *)
    links; [exact Hq|exact Hj| |exact Hitems].
    apply map_Forall_fmap. intros k i Hk. simpl. destruct (Hi k i Hk) as [Hc Hb].
    split; [|exact (eq_trans (bills_job_fixed d i (mark i) (Hmark i)) Hb)].
    specialize (Hmark i). injection Hmark as -> -> _ _ _. exact Hc.
Qed.

(** Names and titles stay filled after each of the writes. *)
Lemma effect_named (uid : Z) (d d' : db) : effect uid d d' -> named d -> named d'.
Proof.
  intros Heffect (Hc & Hq & Hj).
  destruct Heffect as
    [ | id old new Hold _ Hname | new _ Hname | id old _ _ _ _
      | id old new Hold _ Hname | id old new added Hold _ Hname _
      | new added _ _ Hname _ | id old _ _
      | id old new Hold _ Hname | new _ _ _ Hname | id old _ _
      | id old new _ _ _ | new _ _ _ _ | id old _
      | mark _ _ ];
    unfold named; simpl; try (split; [|split]); try assumption.
  - apply map_Forall_insert_2; [|exact Hc]. destruct Hname as [->|Hname]; [|exact Hname].
    apply first_owned_inv in Hold as [Hrow _]. exact (Hc id old Hrow).
  - now apply map_Forall_insert_2.
  - now apply map_Forall_delete.
  - apply map_Forall_insert_2; [|exact Hq]. destruct Hname as [->|Hname]; [|exact Hname].
    apply first_owned_inv in Hold as [Hrow _]. exact (Hq id old Hrow).
  - apply map_Forall_insert_2; [|exact Hq]. destruct Hname as [->|Hname]; [|exact Hname].
    apply first_owned_inv in Hold as [Hrow _]. exact (Hq id old Hrow).
  - now apply map_Forall_insert_2.
  - now apply map_Forall_delete.
  - apply map_Forall_insert_2; [|exact Hj]. destruct Hname as [->|Hname]; [|exact Hname].
    apply first_owned_inv in Hold as [Hrow _]. exact (Hj id old Hrow).
  - now apply map_Forall_insert_2.
  - now apply map_Forall_delete.
Qed.

Section Fixed.
Context {row K : Type} (fixed : row -> K).

Lemma fixed_same (tbl : gmap Z row) (id : Z) (r r' : row) :
  tbl !! id = Some r -> tbl !! id = Some r' -> fixed r' = fixed r.
Proof. congruence. Qed.

Lemma fixed_put (owner : row -> Z) (tbl : gmap Z row) (id0 uid : Z) (old new : row)
    (id : Z) (r r' : row) :
  Query.first_owned owner tbl id0 uid = Some old -> fixed new = fixed old ->
  tbl !! id = Some r -> <[id0 := new]> tbl !! id = Some r' -> fixed r' = fixed r.
Proof.
  intros Hold Hfixed Hr. apply first_owned_inv in Hold as [Hrow _].
  destruct (decide (id = id0)) as [->|Hne].
  - rewrite lookup_insert_eq. intros [= <-]. congruence.
  - rewrite lookup_insert_ne by congruence. congruence.
Qed.

Lemma fixed_add (tbl : gmap Z row) (new : row) (id : Z) (r r' : row) :
  tbl !! id = Some r -> <[Query.next_id tbl := new]> tbl !! id = Some r' ->
  fixed r' = fixed r.
Proof.
  intros Hr. destruct (decide (id = Query.next_id tbl)) as [->|Hne].
  - now rewrite next_id_fresh in Hr.
  - rewrite lookup_insert_ne by congruence. congruence.
Qed.

Lemma fixed_delete (tbl : gmap Z row) (id0 id : Z) (r r' : row) :
  tbl !! id = Some r -> delete id0 tbl !! id = Some r' -> fixed r' = fixed r.
Proof. intros Hr Hr'. apply lookup_delete_Some in Hr' as [_ Hr']. congruence. Qed.

Lemma fixed_fmap (tbl : gmap Z row) (f : row -> row) (id : Z) (r r' : row) :
  (forall x, fixed (f x) = fixed x) ->
  tbl !! id = Some r -> (f <$> tbl) !! id = Some r' -> fixed r' = fixed r.
Proof. intros Hf Hr. rewrite lookup_fmap, Hr. simpl. intros [= <-]. apply Hf. Qed.

End Fixed.

(** X24.  A request never reassigns the columns that tie a document to its
    account and to the documents it belongs with: for every row that is
    there before and after one request, whatever the request and the
    account, the owner and creation time (and the customer, the quote of
    a job, the job of an invoice and the document number) are unchanged. *)
Theorem requests_keep_fixed_columns (uid : Z) (req : request) (d : db) (id : Z) :
  (forall c c', customers d !! id = Some c -> customers (serve uid req d).2 !! id = Some c' ->
     fixed_of_customer c' = fixed_of_customer c)
  /\ (forall q q', quotes d !! id = Some q -> quotes (serve uid req d).2 !! id = Some q' ->
        fixed_of_quote q' = fixed_of_quote q)
  /\ (forall j j', jobs d !! id = Some j -> jobs (serve uid req d).2 !! id = Some j' ->
        fixed_of_job j' = fixed_of_job j)
  /\ (forall i i', invoices d !! id = Some i -> invoices (serve uid req d).2 !! id = Some i' ->
        fixed_of_invoice i' = fixed_of_invoice i).
Proof.
  destruct (serve_effect uid req d); simpl; links; intros r r' Hr Hr';
    first [ eapply fixed_same; eassumption
          | eapply fixed_put; eassumption
          | eapply fixed_add; eassumption
          | eapply fixed_delete; eassumption
          | eapply fixed_fmap; eassumption ].
Qed.

(** X25.  The links of the database are an invariant of the routes: from
    a database in which every quote, job and invoice is for a customer of
    its own account, every job follows a quote and every invoice bills a
    job of the same account and customer (or none), and every line item
    has its quote, any sequence of requests, by any accounts, with any
    bodies, leads to such a database again.  The creations check the links
    they make, the updates leave them alone, and the deletions are refused
    while a row still refers to the document. *)
Theorem requests_keep_links (requests : list (Z * request)) (d : db) :
  consistent d -> consistent (run requests d).
Proof.
  revert d. induction requests as [|[uid req] rest IH]; intros d Hd; [exact Hd|].
  simpl. apply IH. exact (effect_consistent uid d _ (serve_effect uid req d) Hd).
Qed.

Lemma requests_keep_links_witness : consistent (run Sample.busy_day Sample.shop).
Proof.
  apply (requests_keep_links Sample.busy_day Sample.shop).
  apply (bool_decide_unpack _). vm_compute. exact I.
Defined.

(** X26.  No sequence of requests leaves a customer without a name, or a
    quote or a job without a title, in a database that had none: the
    creations refuse a name or title that is empty after trimming, and so
    do the updates that carry the key. *)
Theorem requests_keep_names (requests : list (Z * request)) (d : db) :
  named d -> named (run requests d).
Proof.
  revert d. induction requests as [|[uid req] rest IH]; intros d Hd; [exact Hd|].
  simpl. apply IH. exact (effect_named uid d _ (serve_effect uid req d) Hd).
Qed.

Lemma requests_keep_names_witness : named (run Sample.busy_day Sample.shop).
Proof.
  apply (requests_keep_names Sample.busy_day Sample.shop).
  apply (bool_decide_unpack _). vm_compute. exact I.
Defined.

(** ** Paid invoices have a payment date *)

Lemma effect_dated (uid : Z) (d d' : db) : effect uid d d' -> all_dated d -> all_dated d'.
Proof.
  intros Heffect Hd.
  destruct Heffect as
    [ | id old new _ _ _ | new _ _ | id old _ _ _ _
      | id old new _ _ _ | id old new added _ _ _ _
      | new added _ _ _ _ | id old _ _
      | id old new _ _ _ | new _ _ _ _ | id old _ _
      | id old new Hold _ Hdated | new _ _ _ Hdated | id old _
      | mark _ Hmark ];
    unfold all_dated; simpl; try exact Hd.
  - apply map_Forall_insert_2; [|exact Hd].
    apply first_owned_inv in Hold as [Hrow _]. exact (Hdated (Hd id old Hrow)).
  - now apply map_Forall_insert_2.
  - now apply map_Forall_delete.
  - apply map_Forall_fmap. intros k i Hk. exact (Hmark i (Hd k i Hk)).
Qed.

(** X27.  An invoice that is ['paid'] has a payment date, after any
    sequence of requests on a database where that held: [mark_invoice_paid]
    writes both, [update_invoice] stamps the date when it sets the status
    to ['paid'] on an invoice without one, and no route clears the date. *)
Theorem paid_invoices_stay_dated (requests : list (Z * request)) (d : db) :
  all_dated d -> all_dated (run requests d).
Proof.
  revert d. induction requests as [|[uid req] rest IH]; intros d Hd; [exact Hd|].
  simpl. apply IH. exact (effect_dated uid d _ (serve_effect uid req d) Hd).
Qed.

Lemma paid_invoices_stay_dated_witness : all_dated (run Sample.pay_day Sample.shop).
Proof.
  apply (paid_invoices_stay_dated Sample.pay_day Sample.shop).
  apply (bool_decide_unpack _). vm_compute. exact I.
Defined.

(** ** The feed finds the customer of every document *)

Lemma for_each_raise {A B : Type} (f : A -> Py.result B) (l : list A) (e : Py.exn) :
  Py.for_each f l = Py.Raise e -> exists x, x ∈ l /\ f x = Py.Raise e.
Proof.
  induction l as [|x l IH]; simpl; [discriminate|].
  destruct (f x) as [y|e'] eqn:Hx; simpl.
  - destruct (Py.for_each f l) as [ys|e'']; simpl; [discriminate|].
    intros [= ->]. destruct (IH eq_refl) as (x' & Hin & Hx'). exists x'. split; [|exact Hx'].
    apply elem_of_cons. now right.
  - intros [= ->]. exists x. split; [apply elem_of_cons; now left|exact Hx].
Qed.

Lemma to_float_raise (x : Py.num) (e : Py.exn) :
  Py.to_float x = Py.Raise e -> e = Py.OverflowError.
Proof.
  destruct x as [z|f|q]; simpl; try discriminate.
  unfold Py.float_of_int. destruct (is_infinity _); [|discriminate]. now intros [= <-].
Qed.

Lemma has_customer_name (uid customer_id : Z) (d : db) :
  has_customer uid customer_id d = true ->
  exists name, Dashboard.customer_name customer_id d = Py.Ok name.
Proof.
  unfold has_customer, Dashboard.customer_name.
  destruct (Query.first_owned Customer.user_id (customers d) customer_id uid) as [c|] eqn:Hc;
    [|discriminate].
  apply first_owned_inv in Hc as [-> _]. eauto.
Qed.

(** X28.  On a database whose links hold, the recent-activity feed never
    fails on [quote.customer.name] (nor on that of a job or an invoice): the
    customer of every document it renders is there.  The only exception
    left is the [OverflowError] of [float(...)] on an amount beyond the
    range of a double; otherwise the answer is 200. *)
Theorem recent_activity_finds_customers (uid : Z) (limit : nat) (d : db) :
  consistent d ->
  code (Dashboard.get_recent_activity uid limit d).1 = 200
  \/ (Dashboard.get_recent_activity uid limit d).1
     = Response (Failed "Failed to fetch recent activity" Py.OverflowError) 500.
Proof.
  intros (Hq & Hj & Hi & _). unfold Dashboard.get_recent_activity, try_except. unfold_monad.
  destruct (Py.for_each (Dashboard.quote_activity d) _) as [from_quotes|e] eqn:Hquotes; simpl.
  2: { right. apply for_each_raise in Hquotes as ([k q] & Hin & Hraise).
       apply (Feed.taken_rows _ _ _ _ _ _ (recent_most_recent _ _ _ _ _)) in Hin as [Hrow _].
       simpl in Hrow. destruct (has_customer_name _ _ _ (Hq k q Hrow)) as [name Hname].
       simpl in Hraise. unfold_monad. rewrite Hname in Hraise. simpl in Hraise.
       destruct (Py.to_float (Quote.total q)) as [amount|e'] eqn:Hamount; simpl in Hraise;
         [discriminate|].
       injection Hraise as <-. now rewrite (to_float_raise _ _ Hamount). }
  destruct (Py.for_each (Dashboard.job_activity d) _) as [from_jobs|e] eqn:Hjobs; simpl.
  2: { right. apply for_each_raise in Hjobs as ([k j] & Hin & Hraise).
       apply (Feed.taken_rows _ _ _ _ _ _ (recent_most_recent _ _ _ _ _)) in Hin as [Hrow _].
       simpl in Hrow. destruct (Hj k j Hrow) as [Hcustomer _].
       destruct (has_customer_name _ _ _ Hcustomer) as [name Hname].
       simpl in Hraise. unfold_monad. rewrite Hname in Hraise. simpl in Hraise.
       destruct (Py.to_float (Job.total_amount j)) as [amount|e'] eqn:Hamount;
         simpl in Hraise; [discriminate|].
       injection Hraise as <-. now rewrite (to_float_raise _ _ Hamount). }
  destruct (Py.for_each (Dashboard.invoice_activity d) _) as [from_invoices|e] eqn:Hinvoices;
    simpl.
  2: { right. apply for_each_raise in Hinvoices as ([k i] & Hin & Hraise).
       apply (Feed.taken_rows _ _ _ _ _ _ (recent_most_recent _ _ _ _ _)) in Hin as [Hrow _].
       simpl in Hrow. destruct (Hi k i Hrow) as [Hcustomer _].
       destruct (has_customer_name _ _ _ Hcustomer) as [name Hname].
       simpl in Hraise. unfold_monad. rewrite Hname in Hraise. simpl in Hraise.
       destruct (Py.to_float (Invoice.total i)) as [amount|e'] eqn:Hamount;
         simpl in Hraise; [discriminate|].
       injection Hraise as <-. now rewrite (to_float_raise _ _ Hamount). }
  now left.
Qed.

Lemma recent_activity_finds_customers_witness :
  code (Dashboard.get_recent_activity 1 10 Sample.shop).1 = 200
  \/ (Dashboard.get_recent_activity 1 10 Sample.shop).1
     = Response (Failed "Failed to fetch recent activity" Py.OverflowError) 500.
Proof.
  apply (recent_activity_finds_customers 1 10 Sample.shop).
  apply (bool_decide_unpack _). vm_compute. exact I.
Defined.
